(** * RadioBox FPGA interface and housekeeping registers

    A shallow embedding of [apps-free/radiobox/src/fpga_rb.c] and
    [api-mockup/rpbase/src/housekeeping.c].

    - C integers are [Z] with the wrap-around of every conversion written out.
    - The FPGA register block is a map from register names to 32-bit words;
      the mapped pointer [g_fpga_rb_reg_mem] is an [option] of it and a
      dereference of the null pointer is the outcome [Fault].
    - [double] arithmetic is written once over the interface [DoubleOps] and
      read in two ways: bit-exact IEEE-754 binary64 (the kernel's primitive
      floats), used to run the code on concrete inputs, and the standard
      rounding-error model over the real numbers, used for statements about
      all inputs.
    - Constants and functions of headers and files that are not part of the
      two sources ([main.h], [fpga.h], [calib.c], [rp_gain_compensation.c],
      [common.c], libm) are parameters. *)

From Stdlib Require Import ZArith List Bool Lia String.
From Stdlib Require Import Reals Lra.
From Stdlib Require Import FunctionalExtensionality.
From Stdlib Require Floats.PrimFloat Floats.FloatOps Floats.SpecFloat.
From Stdlib Require Uint63.
Import ListNotations.
Local Open Scope Z_scope.

(* ================================================================== *)
(** ** C integer conversions *)

Definition to_uint8 (z : Z) : Z := z mod 2 ^ 8.
Definition to_uint16 (z : Z) : Z := z mod 2 ^ 16.
Definition to_uint32 (z : Z) : Z := z mod 2 ^ 32.
Definition to_uint64 (z : Z) : Z := z mod 2 ^ 64.
Definition to_int16 (z : Z) : Z := (z + 2 ^ 15) mod 2 ^ 16 - 2 ^ 15.
Definition to_int32 (z : Z) : Z := (z + 2 ^ 31) mod 2 ^ 32 - 2 ^ 31.
Definition to_int64 (z : Z) : Z := (z + 2 ^ 63) mod 2 ^ 64 - 2 ^ 63.

(** [!x] and [if (x)] on an integer. *)
Definition is_zero (z : Z) : bool := z =? 0.
Definition nonzero (z : Z) : bool := negb (z =? 0).

(* ================================================================== *)
(** ** The arithmetic of [double] *)

(** What the sources do with a [double].  [d_trunc] is the integer part
    of a conversion to an integer type (C truncates toward zero); the
    caller wraps it to the width of the target.  [d_pow] is libm's [pow]. *)
Class DoubleOps (D : Type) : Type := {
  d_of_Z : Z -> D;
  d_add : D -> D -> D;
  d_sub : D -> D -> D;
  d_mul : D -> D -> D;
  d_div : D -> D -> D;
  d_neg : D -> D;
  d_fabs : D -> D;
  d_floor : D -> D;
  d_pow : D -> D -> D;
  d_ltb : D -> D -> bool;
  d_eqb : D -> D -> bool;
  d_trunc : D -> Z
}.

Section DoubleLiterals.
Context {D : Type} `{DoubleOps D}.

(** A decimal literal [n/d]: the compiler rounds it to the nearest
    double, which is what the division of the two integers returns. *)
Definition d_lit (n d : Z) : D := d_div (d_of_Z n) (d_of_Z d).
Definition d_zero : D := d_of_Z 0.
Definition d_half : D := d_lit 1 2.
Definition d_gtb (x y : D) : bool := d_ltb y x.
Definition d_neqb (x y : D) : bool := negb (d_eqb x y).
End DoubleLiterals.

(** *** IEEE-754 binary64 *)
Module Binary64.
Import Floats.PrimFloat Floats.SpecFloat.

(** [(double) n] for [n] of an [int64_t]: the primitive conversion
    takes the magnitudes below [2^63] and rounds to nearest;
    [INT64_MIN] is the power of two itself. *)
Definition of_Z (n : Z) : float :=
  if n =? - 2 ^ 63 then (-0x1p+63)%float
  else if n <? 0 then opp (of_uint63 (Uint63.of_Z (- n)))
  else of_uint63 (Uint63.of_Z n).

Definition trunc (x : float) : Z :=
  match FloatOps.Prim2SF x with
  | S754_finite s m e =>
      let v := if 0 <=? e then Z.pos m * 2 ^ e else Z.pos m / 2 ^ (- e) in
      if s then - v else v
  | _ => 0
  end.

Definition floor (x : float) : float :=
  if is_finite x && ltb (abs x) (of_Z (2 ^ 52)) then
    let t := of_Z (trunc x) in
    if ltb x t then sub t (of_Z 1) else t
  else x.

Definition ops (libm_pow : float -> float -> float) : DoubleOps float := {|
  d_of_Z := of_Z;
  d_add := add;
  d_sub := sub;
  d_mul := mul;
  d_div := div;
  d_neg := opp;
  d_fabs := abs;
  d_floor := floor;
  d_pow := libm_pow;
  d_ltb := ltb;
  d_eqb := eqb;
  d_trunc := trunc
|}.
End Binary64.

(** *** The rounding-error model

    Every operation returns the exact real result passed through a
    rounding function [rnd]; sign changes, [fabs] and [floor] are exact. *)
Module Rounded.
Local Open Scope R_scope.

Definition ltb (x y : R) : bool := if Rlt_dec x y then true else false.
Definition eqb (x y : R) : bool := if Req_dec_T x y then true else false.
Definition trunc (x : R) : Z :=
  if Rle_dec 0 x then Int_part x else (- Int_part (- x))%Z.

Definition ops (rnd : R -> R) (libm_pow : R -> R -> R) : DoubleOps R := {|
  d_of_Z := fun n => rnd (IZR n);
  d_add := fun x y => rnd (x + y);
  d_sub := fun x y => rnd (x - y);
  d_mul := fun x y => rnd (x * y);
  d_div := fun x y => rnd (x / y);
  d_neg := Ropp;
  d_fabs := Rabs;
  d_floor := fun x => IZR (Int_part x);
  d_pow := libm_pow;
  d_ltb := ltb;
  d_eqb := eqb;
  d_trunc := trunc
|}.

(** What round-to-nearest binary64 guarantees below the overflow
    threshold: a relative error of at most [2^-53] (plus half the
    smallest subnormal), and no error on a dyadic number [n / 2^k] with
    a numerator of at most 53 bits in the normal range, so on the
    integers up to [2^53] and on their halves. *)
Record binary64_rounding (rnd : R -> R) : Prop := {
  rnd_error : forall x, Rabs x <= 2 ^ 1023 ->
    Rabs (rnd x - x) <= Rabs x / 2 ^ 53 + / 2 ^ 1075;
  rnd_exact : forall (n : Z) (k : nat), (Z.abs n <= 2 ^ 53)%Z -> (k <= 1022)%nat ->
    rnd (IZR n / 2 ^ k) = IZR n / 2 ^ k
}.

(** Exact arithmetic is one such rounding. *)
Definition exact (x : R) : R := x.
End Rounded.

(* ================================================================== *)
(** ** housekeeping.c *)
Module Housekeeping.

Definition HOUSEKEEPING_BASE_ADDR : Z := 0x40000000.
Definition HOUSEKEEPING_BASE_SIZE : Z := 0x30.

(** The members of [housekeeping_control_t]. *)
Inductive member : Set :=
| id | dna_part1 | dna_part2 | reserved_1
| ex_cd_p | ex_cd_n | ex_co_p | ex_co_n | ex_ci_p | ex_ci_n
| reserved_2 | reserved_3 | led_control.

Definition member_eqb (a b : member) : bool :=
  match a, b with
  | id, id | dna_part1, dna_part1 | dna_part2, dna_part2
  | reserved_1, reserved_1 | ex_cd_p, ex_cd_p | ex_cd_n, ex_cd_n
  | ex_co_p, ex_co_p | ex_co_n, ex_co_n | ex_ci_p, ex_ci_p
  | ex_ci_n, ex_ci_n | reserved_2, reserved_2 | reserved_3, reserved_3
  | led_control, led_control => true
  | _, _ => false
  end.

(** The structure, member by member in declaration order. *)
Definition housekeeping_control_t : list member :=
  [id; dna_part1; dna_part2; reserved_1;
   ex_cd_p; ex_cd_n; ex_co_p; ex_co_n; ex_ci_p; ex_ci_n;
   reserved_2; reserved_3; led_control].

Definition sizeof_uint32_t : Z := 4.

(** Every member is a [uint32_t], so there is no padding: a member
    starts where the ones declared before it end. *)
Fixpoint offset_in (fields : list member) (m : member) : Z :=
  match fields with
  | [] => 0
  | f :: rest =>
      if member_eqb f m then 0 else sizeof_uint32_t + offset_in rest m
  end.

Definition offsetof (m : member) : Z := offset_in housekeeping_control_t m.

Definition sizeof_housekeeping_control_t : Z :=
  sizeof_uint32_t * Z.of_nat (List.length housekeeping_control_t).

(** The member lies inside the [HOUSEKEEPING_BASE_SIZE] bytes that
    [hk_Init] asks [cmn_Map] for. *)
Definition in_mapped_window (m : member) : bool :=
  (0 <=? offsetof m) && (offsetof m + sizeof_uint32_t <=? HOUSEKEEPING_BASE_SIZE).

Definition LED_CONTROL_MASK : Z := 0xFF.

(** The register block behind [hk]. *)
Definition hk_mem : Type := member -> Z.

Definition store (m : member) (v : Z) (hk : hk_mem) : hk_mem :=
  fun m' => if member_eqb m m' then v else hk m'.

Section Led.
(** [rp.h] and [common.c] are not among the sources: the error code
    and the bit-field accessor are parameters.  [cmn_SetBits] gets the
    word its first argument points to, the bits and the mask, and
    returns its result code and the word it leaves behind. *)
Variable RP_EMRO : Z.
Variable cmn_SetBits : Z -> Z -> Z -> Z * Z.

Definition hk_SetLedBits (bits : Z) (hk : hk_mem) : Z * hk_mem :=
  if bits =? 0x1 then (RP_EMRO, hk)
  else
    let '(rc, word) := cmn_SetBits (hk led_control) bits LED_CONTROL_MASK in
    (rc, store led_control word hk).
End Led.

(** A bit-field accessor in the style the name suggests, used to run
    [hk_SetLedBits]: bits outside the mask are refused with code 6, the
    others are or-ed into the word and 0 is returned. *)
Definition cmn_SetBits_sample (word bits mask : Z) : Z * Z :=
  if negb (Z.land bits (Z.lnot mask) =? 0) then (6, word)
  else (0, Z.lor word bits).

Definition EX_CD_P_MASK : Z := 0xFF.
Definition EX_CD_N_MASK : Z := 0xFF.
Definition EX_CO_P_MASK : Z := 0xFF.
Definition EX_CO_N_MASK : Z := 0xFF.
Definition EX_CI_P_MASK : Z := 0xFF.
Definition EX_CI_N_MASK : Z := 0xFF.

Section BitFields.
(** The three bit-field accessors of [common.c].  [cmn_SetBits] and
    [cmn_UnsetBits] get the word their first argument points to, the
    bits and the mask, and return the result code and the word they
    leave behind; [cmn_AreBitsSet] gets the word by value and returns
    the result code and what it stores in [*result]. *)
Variable cmn_SetBits : Z -> Z -> Z -> Z * Z.
Variable cmn_UnsetBits : Z -> Z -> Z -> Z * Z.
Variable cmn_AreBitsSet : Z -> Z -> Z -> Z * bool.

(** [return cmn_XBits(&hk->field, bits, mask)] *)
Definition on_word (cmn : Z -> Z -> Z -> Z * Z) (field : member) (bits mask : Z)
    (hk : hk_mem) : Z * hk_mem :=
  let '(rc, word) := cmn (hk field) bits mask in
  (rc, store field word hk).

Definition hk_UnsetLedBits (bits : Z) (hk : hk_mem) : Z * hk_mem :=
  on_word cmn_UnsetBits led_control bits LED_CONTROL_MASK hk.

Definition hk_AreLedBitsSet (bits : Z) (hk : hk_mem) : Z * bool :=
  cmn_AreBitsSet (hk led_control) bits LED_CONTROL_MASK.

Definition hk_SetExCdPBits (bits : Z) (hk : hk_mem) : Z * hk_mem :=
  on_word cmn_SetBits ex_cd_p bits EX_CD_P_MASK hk.

Definition hk_UnsetExCdPBits (bits : Z) (hk : hk_mem) : Z * hk_mem :=
  on_word cmn_UnsetBits ex_cd_p bits EX_CD_P_MASK hk.

Definition hk_AreExCdPBitsSet (bits : Z) (hk : hk_mem) : Z * bool :=
  cmn_AreBitsSet (hk ex_cd_p) bits EX_CD_P_MASK.

Definition hk_SetExCdNBits (bits : Z) (hk : hk_mem) : Z * hk_mem :=
  on_word cmn_SetBits ex_cd_n bits EX_CD_N_MASK hk.

Definition hk_UnsetExCdNBits (bits : Z) (hk : hk_mem) : Z * hk_mem :=
  on_word cmn_UnsetBits ex_cd_n bits EX_CD_N_MASK hk.

Definition hk_AreExCdNBitsSet (bits : Z) (hk : hk_mem) : Z * bool :=
  cmn_AreBitsSet (hk ex_cd_n) bits EX_CD_N_MASK.

Definition hk_SetExCoPBits (bits : Z) (hk : hk_mem) : Z * hk_mem :=
  on_word cmn_SetBits ex_co_p bits EX_CO_P_MASK hk.

Definition hk_UnsetExCoPBits (bits : Z) (hk : hk_mem) : Z * hk_mem :=
  on_word cmn_UnsetBits ex_co_p bits EX_CO_P_MASK hk.

Definition hk_AreExCoPBitsSet (bits : Z) (hk : hk_mem) : Z * bool :=
  cmn_AreBitsSet (hk ex_co_p) bits EX_CO_P_MASK.

Definition hk_SetExCoNBits (bits : Z) (hk : hk_mem) : Z * hk_mem :=
  on_word cmn_SetBits ex_co_n bits EX_CO_N_MASK hk.

Definition hk_UnsetExCoNBits (bits : Z) (hk : hk_mem) : Z * hk_mem :=
  on_word cmn_UnsetBits ex_co_n bits EX_CO_N_MASK hk.

Definition hk_AreExCoNBitsSet (bits : Z) (hk : hk_mem) : Z * bool :=
  cmn_AreBitsSet (hk ex_co_n) bits EX_CO_N_MASK.

Definition hk_AreExCiPBitsSet (bits : Z) (hk : hk_mem) : Z * bool :=
  cmn_AreBitsSet (hk ex_ci_p) bits EX_CI_P_MASK.

Definition hk_AreExCiNBitsSet (bits : Z) (hk : hk_mem) : Z * bool :=
  cmn_AreBitsSet (hk ex_ci_n) bits EX_CI_N_MASK.
End BitFields.

End Housekeeping.

(* ================================================================== *)
(** ** fpga_rb.c: registers, globals and the command monad *)

(** The members of [fpga_rb_reg_mem_t] that [fpga_rb.c] reads or writes
    ([fpga.h] itself is not among the sources). *)
Module Reg.
Inductive t : Set :=
| ctrl | status | version | pwr_ctrl
| src_con_pnt | src_con_pnt2
| tx_muxin_src | tx_muxin_gain | tx_muxin_ofs
| tx_amp_rf_gain | tx_amp_rf_ofs
| tx_mod_osc_inc_lo | tx_mod_osc_inc_hi | tx_mod_osc_ofs_lo | tx_mod_osc_ofs_hi
| tx_mod_qmix_gain | tx_mod_qmix_ofs_lo | tx_mod_qmix_ofs_hi
| tx_car_osc_inc_lo | tx_car_osc_inc_hi | tx_car_osc_ofs_lo | tx_car_osc_ofs_hi
| tx_car_osc_inc_scnr_lo | tx_car_osc_inc_scnr_hi
| rx_muxin_src | rx_muxin_gain | rx_muxin_ofs
| rx_mod_osc_inc_lo | rx_mod_osc_inc_hi | rx_mod_osc_ofs_lo | rx_mod_osc_ofs_hi
| rx_car_osc_inc_lo | rx_car_osc_inc_hi | rx_car_osc_ofs_lo | rx_car_osc_ofs_hi
| rx_car_osc_inc_scnr_lo | rx_car_osc_inc_scnr_hi
| rx_car_calc_weaver_inc_lo | rx_car_calc_weaver_inc_hi
| rx_amenv_filtvar
| rx_mod_ssb_am_gain | rx_mod_amenv_gain | rx_mod_fm_gain | rx_mod_pm_gain
| rfout1_gain | rfout1_ofs | rfout2_gain | rfout2_ofs
| rx_afc_cordic_mag.

Definition index (r : t) : Z :=
  match r with
  | ctrl => 0 | status => 1 | version => 2 | pwr_ctrl => 3
  | src_con_pnt => 4 | src_con_pnt2 => 5
  | tx_muxin_src => 6 | tx_muxin_gain => 7 | tx_muxin_ofs => 8
  | tx_amp_rf_gain => 9 | tx_amp_rf_ofs => 10
  | tx_mod_osc_inc_lo => 11 | tx_mod_osc_inc_hi => 12
  | tx_mod_osc_ofs_lo => 13 | tx_mod_osc_ofs_hi => 14
  | tx_mod_qmix_gain => 15 | tx_mod_qmix_ofs_lo => 16 | tx_mod_qmix_ofs_hi => 17
  | tx_car_osc_inc_lo => 18 | tx_car_osc_inc_hi => 19
  | tx_car_osc_ofs_lo => 20 | tx_car_osc_ofs_hi => 21
  | tx_car_osc_inc_scnr_lo => 22 | tx_car_osc_inc_scnr_hi => 23
  | rx_muxin_src => 24 | rx_muxin_gain => 25 | rx_muxin_ofs => 26
  | rx_mod_osc_inc_lo => 27 | rx_mod_osc_inc_hi => 28
  | rx_mod_osc_ofs_lo => 29 | rx_mod_osc_ofs_hi => 30
  | rx_car_osc_inc_lo => 31 | rx_car_osc_inc_hi => 32
  | rx_car_osc_ofs_lo => 33 | rx_car_osc_ofs_hi => 34
  | rx_car_osc_inc_scnr_lo => 35 | rx_car_osc_inc_scnr_hi => 36
  | rx_car_calc_weaver_inc_lo => 37 | rx_car_calc_weaver_inc_hi => 38
  | rx_amenv_filtvar => 39
  | rx_mod_ssb_am_gain => 40 | rx_mod_amenv_gain => 41
  | rx_mod_fm_gain => 42 | rx_mod_pm_gain => 43
  | rfout1_gain => 44 | rfout1_ofs => 45 | rfout2_gain => 46 | rfout2_ofs => 47
  | rx_afc_cordic_mag => 48
  end.

(** Two names are the same register when their tags agree (the tags
    only tell the names apart, they are not byte offsets). *)
Definition eqb (a b : t) : bool := index a =? index b.
End Reg.

(** The register block: one 32-bit word per register. *)
Definition regs : Type := Reg.t -> Z.

Definition upd (r : Reg.t) (v : Z) (m : regs) : regs :=
  fun r' => if Reg.eqb r r' then v else m r'.

(** [main.h]: the enumerators of the modulation source and of the
    modulation types. *)
Class MainH : Type := {
  RB_MODSRC_NONE : Z;
  RB_MODSRC_RF_IN1 : Z;
  RB_MODSRC_RF_IN2 : Z;
  RB_MODSRC_EXP_AI0 : Z;
  RB_MODSRC_EXP_AI1 : Z;
  RB_MODSRC_EXP_AI2 : Z;
  RB_MODSRC_EXP_AI3 : Z;
  RB_MODSRC_AC97_LINEOUT_L : Z;
  RB_MODSRC_AC97_LINEOUT_R : Z;
  RB_MODSRC_MOD_OSC : Z;
  RB_TX_MODTYP_USB : Z;
  RB_TX_MODTYP_LSB : Z;
  RB_TX_MODTYP_AM : Z;
  RB_TX_MODTYP_FM : Z;
  RB_TX_MODTYP_PM : Z;
  RB_RX_MODTYP_USB : Z;
  RB_RX_MODTYP_LSB : Z;
  RB_RX_MODTYP_AMSYNC_USB : Z;
  RB_RX_MODTYP_AMSYNC_LSB : Z;
  RB_RX_MODTYP_FM : Z;
  RB_RX_MODTYP_PM : Z;
  RB_RX_MODTYP_AMENV : Z
}.

(** [calib.h], [calib.c] and [rp_gain_compensation.c]: the calibration
    record with its accessors and the output gain compensation. *)
Class Calib (D : Type) : Type := {
  rp_calib_params_t : Type;
  base_osc125mhz_realhz : rp_calib_params_t -> D;
  calib_get_ADC_offset : rp_calib_params_t -> Z -> Z;
  calib_set_ADC_offset : rp_calib_params_t -> Z -> Z -> rp_calib_params_t;
  get_compensation_factor : D -> Z -> D
}.

Section Machine.
Context {D : Type} {dbl : DoubleOps D} {cal : Calib D}.

(** The globals of the process and the statics of [fpga_rb_set_ctrl].
    [cordic_hw] is the FPGA: the word the CORDIC magnitude register
    shows at the read numbered [iter] of a measurement, as a function
    of the register settings at that moment. *)
Record state : Type := mkState {
  g_fpga_rb_reg_mem : option regs;
  g_rp_main_calib_params : rp_calib_params_t;
  tx_car_osc_qrg_old : D;
  rx_car_osc_qrg_old : D;
  src_con_pnt_old : Z;
  src_con_pnt2_old : Z;
  term_rfout1_old : Z;
  term_rfout2_old : Z;
  cordic_hw : regs -> Z -> Z
}.

Definition with_regs (m : option regs) (s : state) : state :=
  mkState m (g_rp_main_calib_params s)
    (tx_car_osc_qrg_old s) (rx_car_osc_qrg_old s)
    (src_con_pnt_old s) (src_con_pnt2_old s)
    (term_rfout1_old s) (term_rfout2_old s) (cordic_hw s).

Definition with_calib (c : rp_calib_params_t) (s : state) : state :=
  mkState (g_fpga_rb_reg_mem s) c
    (tx_car_osc_qrg_old s) (rx_car_osc_qrg_old s)
    (src_con_pnt_old s) (src_con_pnt2_old s)
    (term_rfout1_old s) (term_rfout2_old s) (cordic_hw s).

(** A command ends in a value and a state, or in the dereference of
    the null register pointer. *)
Inductive outcome (A : Type) : Type :=
| Ok (a : A) (s : state)
| Fault.
Arguments Ok {A} a s.
Arguments Fault {A}.

Definition M (A : Type) : Type := state -> outcome A.

Definition ret {A} (a : A) : M A := fun s => Ok a s.

Definition bind {A B} (c : M A) (k : A -> M B) : M B :=
  fun s => match c s with
           | Ok a s' => k a s'
           | Fault => Fault
           end.

Definition get_state : M state := fun s => Ok s s.
Definition put_state (s : state) : M unit := fun _ => Ok tt s.

(** [!g_fpga_rb_reg_mem] *)
Definition reg_mem_is_null : M bool :=
  fun s => Ok (match g_fpga_rb_reg_mem s with None => true | Some _ => false end) s.

(** [g_fpga_rb_reg_mem->r] as an rvalue. *)
Definition rd (r : Reg.t) : M Z :=
  fun s => match g_fpga_rb_reg_mem s with
           | Some m => Ok (m r) s
           | None => Fault
           end.

(** [g_fpga_rb_reg_mem->r = v]: the value is converted to [uint32_t]. *)
Definition wr (r : Reg.t) (v : Z) : M unit :=
  fun s => match g_fpga_rb_reg_mem s with
           | Some m => Ok tt (with_regs (Some (upd r (to_uint32 v) m)) s)
           | None => Fault
           end.

(** [g_rp_main_calib_params.base_osc125mhz_realhz] *)
Definition base_osc : M D :=
  fun s => Ok (base_osc125mhz_realhz (g_rp_main_calib_params s)) s.
End Machine.

Arguments Ok {D cal A} a s.
Arguments Fault {D cal A}.

Declare Scope cmd_scope.
Delimit Scope cmd_scope with cmd.
Notation "x <- c ;; k" := (bind c (fun x => k))
  (at level 61, c at next level, right associativity) : cmd_scope.
Notation "c ;; k" := (bind c (fun _ => k))
  (at level 61, right associativity) : cmd_scope.
Local Open Scope cmd_scope.

(* ================================================================== *)
(** ** fpga_rb.c: the register accessors *)
Section Accessors.
Context {D : Type} {dbl : DoubleOps D} {cal : Calib D}.
Import Reg.

Definition fpga_rb_enable (enable : Z) : M unit :=
  null <- reg_mem_is_null;;
  if null then ret tt
  else if nonzero enable then
    wr ctrl 0x00000001;;
    wr src_con_pnt 0x301C0000;;
    wr tx_muxin_gain 0x00007FFF;;
    wr tx_amp_rf_gain 0x00000C80;;
    wr tx_amp_rf_ofs 0
  else
    wr src_con_pnt 0x00000000;;
    wr tx_muxin_gain 0x00000000;;
    wr tx_amp_rf_gain 0;;
    wr rx_muxin_src 0x00000000;;
    wr ctrl 0x00000000.

Definition fpga_rb_reset : M unit :=
  null <- reg_mem_is_null;;
  if null then ret tt
  else
    wr tx_mod_osc_inc_lo 0;; wr tx_mod_osc_inc_hi 0;;
    wr tx_mod_osc_ofs_lo 0;; wr tx_mod_osc_ofs_hi 0;;
    wr tx_car_osc_inc_lo 0;; wr tx_car_osc_inc_hi 0;;
    wr tx_car_osc_ofs_lo 0;; wr tx_car_osc_ofs_hi 0;;
    wr rx_mod_osc_inc_lo 0;; wr rx_mod_osc_inc_hi 0;;
    wr rx_mod_osc_ofs_lo 0;; wr rx_mod_osc_ofs_hi 0;;
    wr rx_car_osc_inc_lo 0;; wr rx_car_osc_inc_hi 0;;
    wr rx_car_osc_ofs_lo 0;; wr rx_car_osc_ofs_hi 0;;
    wr ctrl 0x10101011;;
    wr ctrl 0x10161017;;
    wr ctrl 0x10101011;;
    wr ctrl 0x00000001.

(** The loop of [fpga_get_version]: [pos] runs from 28 down to 0 in
    steps of 4; [n] bounds the number of iterations. *)
Fixpoint fpga_get_version_loop (n : nat) (pos version : Z) : Z :=
  match n with
  | O => version
  | S n' =>
      if 0 <=? pos then
        if 0x9 <? Z.land (Z.shiftr version pos) 0xf then to_uint32 (-3)
        else fpga_get_version_loop n' (pos - 4) version
      else version
  end.

Definition fpga_get_version : M Z :=
  null <- reg_mem_is_null;;
  if null then ret (to_uint32 (-1))
  else
    version <- rd Reg.version;;
    if (version <? 0x12010101) || (0x29123299 <? version)
    then ret (to_uint32 (-2))
    else ret (fpga_get_version_loop 9 28 version).

Definition fpga_rb_set_tx_modtyp (tx_modtyp : Z) : M unit :=
  let tx := Z.land tx_modtyp 0xff in
  p <- rd pwr_ctrl;;
  let masked := Z.land p 0xffff00ff in
  wr pwr_ctrl masked;;
  wr pwr_ctrl (Z.lor masked (Z.shiftl tx 0x08)).

Definition fpga_rb_set_tx_muxin_gain (tx_muxin_gain tx_muxin_ofs : Z) : M unit :=
  let tx_muxin_gain := if 100 <? tx_muxin_gain then 100 else tx_muxin_gain in
  (if tx_muxin_gain <=? 0 then
     wr Reg.tx_muxin_gain 0
   else if tx_muxin_gain <? 80 then
     let bitfield :=
       to_uint32 (d_trunc (d_add d_half
         (d_div (d_mul (d_of_Z tx_muxin_gain) (d_of_Z 0xffff)) (d_of_Z 80)))) in
     wr Reg.tx_muxin_gain (Z.land 0xffff bitfield)
   else
     let p := d_mul (d_of_Z (tx_muxin_gain - 80)) (d_lit 7 20) in
     let bitfield := to_uint32 (d_trunc (d_add d_half p)) in
     wr Reg.tx_muxin_gain (Z.lor (to_uint32 (Z.shiftl bitfield 16)) 0xffff));;
  wr Reg.tx_muxin_ofs (Z.land tx_muxin_ofs 0xffff).

Definition fpga_rb_set_tx_mod_osc_qrg__4mod_ssbweaver_am_fm_pm (tx_mod_osc_qrg : D) : M unit :=
  base <- base_osc;;
  let qrg := d_mul (d_of_Z (2 ^ 48)) (d_div tx_mod_osc_qrg base) in
  let qrg :=
    if d_gtb qrg d_zero then d_add qrg d_half
    else if d_ltb qrg d_zero then d_sub qrg (d_neg d_half)
    else qrg in
  let bitfield := to_int64 (d_trunc qrg) in
  let bf_hi := to_uint32 (Z.shiftr bitfield 32) in
  let bf_lo := to_uint32 (Z.land bitfield 0xffffffff) in
  wr tx_mod_osc_inc_lo bf_lo;;
  wr tx_mod_osc_inc_hi bf_hi;;
  wr tx_mod_osc_ofs_lo 0;;
  wr tx_mod_osc_ofs_hi 0.

Definition fpga_rb_set_tx_mod_qmix_gain_ofs__4mod_cw_ssbweaver_am
    (tx_mod_qmix_grade : D) (isOffset : Z) : M unit :=
  let gain :=
    if nonzero isOffset
    then d_mul (d_of_Z 0x7fff) (d_div tx_mod_qmix_grade (d_of_Z 100))
    else d_mul (d_of_Z 0xffff) (d_div tx_mod_qmix_grade (d_of_Z 100)) in
  let ofs :=
    if nonzero isOffset
    then d_sub (d_of_Z (2 ^ 47 - 1))
           (d_mul (d_of_Z (2 ^ 46 - 1)) (d_div tx_mod_qmix_grade (d_of_Z 100)))
    else d_zero in
  wr tx_mod_qmix_gain (Z.land (to_uint32 (d_trunc gain)) 0xffff);;
  wr tx_mod_qmix_ofs_lo (to_uint32 (Z.land (to_uint64 (d_trunc ofs)) 0xffffffff));;
  wr tx_mod_qmix_ofs_hi (to_uint32 (Z.shiftr (to_uint64 (d_trunc ofs)) 32)).

Definition fpga_rb_set_tx_mod_qmix_gain_ofs__4mod_fm (tx_car_osc_qrg tx_mod_osc_mag : D) : M unit :=
  base <- base_osc;;
  let gain := d_mul (d_of_Z 0xffff)
                (d_div (d_mul (d_of_Z (2 ^ 14)) tx_mod_osc_mag) base) in
  let ofs := d_mul (d_of_Z (2 ^ 48)) (d_div tx_car_osc_qrg base) in
  wr tx_mod_qmix_gain (Z.land (to_uint32 (d_trunc gain)) 0xffff);;
  wr tx_mod_qmix_ofs_lo (to_uint32 (Z.land (to_uint64 (d_trunc ofs)) 0xffffffff));;
  wr tx_mod_qmix_ofs_hi (to_uint32 (Z.shiftr (to_uint64 (d_trunc ofs)) 32)).

Definition fpga_rb_set_tx_mod_qmix_gain_ofs__4mod_pm (tx_car_osc_qrg tx_mod_osc_mag : D) : M unit :=
  let gain := d_mul (d_of_Z 0xffff) (d_div tx_mod_osc_mag (d_of_Z 180)) in
  wr tx_mod_qmix_gain (Z.land (to_uint32 (d_trunc gain)) 0xffff);;
  wr tx_mod_qmix_ofs_lo 0;;
  wr tx_mod_qmix_ofs_hi 0.

Definition fpga_rb_set_tx_car_osc_qrg__4mod_cw_ssb_am_pm (tx_car_osc_qrg : D) : M unit :=
  base <- base_osc;;
  let qrg := d_mul (d_of_Z (2 ^ 48)) (d_div tx_car_osc_qrg base) in
  let qrg :=
    if d_gtb qrg d_zero then d_add qrg d_half
    else if d_ltb qrg d_zero then d_sub qrg (d_neg d_half)
    else qrg in
  let bitfield := to_int64 (d_trunc qrg) in
  let bf_hi := to_uint32 (Z.shiftr bitfield 32) in
  let bf_lo := to_uint32 (Z.land bitfield 0xffffffff) in
  wr tx_car_osc_inc_lo bf_lo;;
  wr tx_car_osc_inc_hi bf_hi;;
  wr tx_car_osc_ofs_lo 0;;
  wr tx_car_osc_ofs_hi 0.

Definition fpga_rb_get_tx_car_osc_qrg : M D :=
  lo <- rd tx_car_osc_inc_lo;;
  hi <- rd tx_car_osc_inc_hi;;
  let bitfield := lo in
  let bitfield := Z.lor bitfield (to_int64 (Z.shiftl hi 32)) in
  base <- base_osc;;
  let tx_car_osc_qrg := d_mul base (d_div (d_of_Z bitfield) (d_of_Z (2 ^ 48))) in
  ret (d_floor (d_add tx_car_osc_qrg d_half)).

Definition fpga_rb_set_tx_car_osc_qrg_inc__4mod_cw_ssb_am_pm (tx_car_osc_qrg_inc : Z) : M unit :=
  let maxDev := d_of_Z 10000 in
  let dynamic := d_of_Z 3 in
  let rngctrlr := d_div (d_of_Z (tx_car_osc_qrg_inc - 50)) (d_of_Z 50) in
  if d_ltb (d_fabs rngctrlr) (d_lit 1 10) then
    wr tx_car_osc_inc_scnr_lo 0;;
    wr tx_car_osc_inc_scnr_hi 0
  else
    let neg := d_ltb rngctrlr d_zero in
    let rngctrlr := if neg then d_neg rngctrlr else rngctrlr in
    let rngctrlr := d_mul rngctrlr dynamic in
    let rngctrlr := d_sub rngctrlr dynamic in
    let hzPerSec := d_mul maxDev (d_pow (d_of_Z 10) rngctrlr) in
    base <- base_osc;;
    let bitfield :=
      to_int64 (d_trunc (d_div (d_mul hzPerSec (d_div (d_of_Z (2 ^ 48)) base))
                               (d_of_Z 200000))) in
    let bitfield := if neg then Z.lnot bitfield else bitfield in
    let bf_hi := to_uint32 (Z.shiftr bitfield 32) in
    let bf_lo := to_uint32 (Z.land bitfield 0xffffffff) in
    wr tx_car_osc_inc_scnr_lo bf_lo;;
    wr tx_car_osc_inc_scnr_hi bf_hi.

Definition fpga_rb_get_tx_car_osc_qrg_inc : M D :=
  lo <- rd tx_car_osc_inc_scnr_lo;;
  hi <- rd tx_car_osc_inc_scnr_hi;;
  let bitfield := lo in
  let bitfield := Z.lor bitfield (to_int64 (Z.shiftl hi 32)) in
  if is_zero bitfield then ret d_zero
  else
    let neg := bitfield <? 0 in
    let bitfield := if neg then Z.lnot bitfield else bitfield in
    base <- base_osc;;
    let tx_car_osc_qrg_inc :=
      d_div (d_mul (d_mul (d_of_Z bitfield) base) (d_of_Z 200000)) (d_of_Z (2 ^ 48)) in
    ret (if neg then d_neg tx_car_osc_qrg_inc else tx_car_osc_qrg_inc).

Definition fpga_rb_set_tx_amp_rf_gain_ofs__4mod_all (tx_amp_rf_gain tx_amp_rf_ofs : D) : M unit :=
  let gain := d_mul (d_of_Z 0x7fff) (d_div tx_amp_rf_gain (d_of_Z 2048)) in
  let ofs := d_mul (d_of_Z 0x7fff) (d_div tx_amp_rf_ofs (d_of_Z 2048)) in
  wr Reg.tx_amp_rf_gain (Z.land (to_uint32 (d_trunc gain)) 0xffff);;
  wr Reg.tx_amp_rf_ofs (Z.land (to_uint32 (d_trunc ofs)) 0xffff).

Definition fpga_rb_set_rx_modtyp (rx_modtyp : Z) : M unit :=
  let rx := Z.land rx_modtyp 0xff in
  p <- rd pwr_ctrl;;
  let masked := Z.land p 0xffffff00 in
  wr pwr_ctrl masked;;
  wr pwr_ctrl (Z.lor masked rx).

Definition fpga_rb_set_rx_muxin_gain (rx_muxin_gain rx_muxin_ofs : Z) : M unit :=
  let rx_muxin_gain := if 100 <? rx_muxin_gain then 100 else rx_muxin_gain in
  (if rx_muxin_gain <=? 0 then
     wr Reg.rx_muxin_gain 0
   else if rx_muxin_gain <? 80 then
     let bitfield :=
       to_uint32 (d_trunc (d_add d_half
         (d_div (d_mul (d_of_Z rx_muxin_gain) (d_of_Z 0xffff)) (d_of_Z 80)))) in
     wr Reg.rx_muxin_gain (Z.land 0xffff bitfield)
   else
     let p := d_mul (d_of_Z (rx_muxin_gain - 80)) (d_lit 5 20) in
     let bitfield := to_uint32 (d_trunc (d_add d_half p)) in
     wr Reg.rx_muxin_gain (Z.lor (to_uint32 (Z.shiftl bitfield 16)) 0xffff));;
  wr Reg.rx_muxin_ofs (Z.land rx_muxin_ofs 0xffff).

Definition fpga_rb_set_rx_car_osc_qrg__4mod_ssb_am_fm_pm (rx_car_osc_qrg : D) : M unit :=
  base <- base_osc;;
  let qrg := d_mul (d_of_Z (2 ^ 48)) (d_div rx_car_osc_qrg base) in
  let qrg :=
    if d_gtb qrg d_zero then d_add qrg d_half
    else if d_ltb qrg d_zero then d_sub qrg (d_neg d_half)
    else qrg in
  let bitfield := to_int64 (d_trunc qrg) in
  let bf_hi := to_uint32 (Z.shiftr bitfield 32) in
  let bf_lo := to_uint32 (Z.land bitfield 0xffffffff) in
  wr rx_car_osc_inc_lo bf_lo;;
  wr rx_car_osc_inc_hi bf_hi;;
  wr rx_car_osc_ofs_lo 0;;
  wr rx_car_osc_ofs_hi 0.

Definition fpga_rb_get_rx_car_osc_qrg : M D :=
  lo <- rd rx_car_osc_inc_lo;;
  hi <- rd rx_car_osc_inc_hi;;
  let bitfield := lo in
  let bitfield := Z.lor bitfield (to_int64 (Z.shiftl hi 32)) in
  base <- base_osc;;
  let rx_car_osc_qrg := d_mul base (d_div (d_of_Z bitfield) (d_of_Z (2 ^ 48))) in
  ret (d_floor (d_add rx_car_osc_qrg d_half)).

Definition fpga_rb_set_rx_car_osc_qrg_inc__4mod_ssb_am_fm_pm (rx_car_osc_qrg_inc : Z) : M unit :=
  let maxDev := d_of_Z 10000 in
  let dynamic := d_of_Z 3 in
  let rngctrlr := d_div (d_of_Z (rx_car_osc_qrg_inc - 50)) (d_of_Z 50) in
  if d_ltb (d_fabs rngctrlr) (d_lit 1 10) then
    wr rx_car_osc_inc_scnr_lo 0;;
    wr rx_car_osc_inc_scnr_hi 0
  else
    let neg := d_ltb rngctrlr d_zero in
    let rngctrlr := if neg then d_neg rngctrlr else rngctrlr in
    let rngctrlr := d_mul rngctrlr dynamic in
    let rngctrlr := d_sub rngctrlr dynamic in
    let hzPerSec := d_mul maxDev (d_pow (d_of_Z 10) rngctrlr) in
    base <- base_osc;;
    let bitfield :=
      to_int64 (d_trunc (d_div (d_div (d_mul hzPerSec (d_of_Z (2 ^ 48))) base)
                               (d_of_Z 200000))) in
    let bitfield := if neg then Z.lnot bitfield else bitfield in
    let bf_hi := to_uint32 (Z.shiftr bitfield 32) in
    let bf_lo := to_uint32 (Z.land bitfield 0xffffffff) in
    wr rx_car_osc_inc_scnr_lo bf_lo;;
    wr rx_car_osc_inc_scnr_hi bf_hi.

Definition fpga_rb_get_rx_car_osc_qrg_inc : M D :=
  lo <- rd rx_car_osc_inc_scnr_lo;;
  hi <- rd rx_car_osc_inc_scnr_hi;;
  let bitfield := lo in
  let bitfield := Z.lor bitfield (to_int64 (Z.shiftl hi 32)) in
  if is_zero bitfield then ret d_zero
  else
    let neg := bitfield <? 0 in
    let bitfield := if neg then Z.lnot bitfield else bitfield in
    base <- base_osc;;
    let rx_car_osc_qrg_inc :=
      d_div (d_mul (d_mul (d_of_Z bitfield) base) (d_of_Z 200000)) (d_of_Z (2 ^ 48)) in
    ret (if neg then d_neg rx_car_osc_qrg_inc else rx_car_osc_qrg_inc).

Definition fpga_rb_set_rx_mod_osc_qrg__4mod_ssbweaver_am (rx_mod_osc_qrg : D) : M unit :=
  base <- base_osc;;
  let qrg := d_mul (d_of_Z (2 ^ 48)) (d_div rx_mod_osc_qrg base) in
  let qrg :=
    if d_gtb qrg d_zero then d_add qrg d_half
    else if d_ltb qrg d_zero then d_sub qrg (d_neg d_half)
    else qrg in
  let bitfield := to_int64 (d_trunc qrg) in
  let bf_hi := to_uint32 (Z.shiftr bitfield 32) in
  let bf_lo := to_uint32 (Z.land bitfield 0xffffffff) in
  wr rx_mod_osc_inc_lo bf_lo;;
  wr rx_mod_osc_inc_hi bf_hi;;
  wr rx_mod_osc_ofs_lo 0;;
  wr rx_mod_osc_ofs_hi 0.

Definition fpga_rb_set_rx_calc_afc_weaver__4mod_am_fm_pm (rx_weaver_qrg : D) : M unit :=
  base <- base_osc;;
  let qrg := d_mul (d_of_Z (2 ^ 48)) (d_div rx_weaver_qrg base) in
  let qrg :=
    if d_gtb qrg d_zero then d_add qrg d_half
    else if d_ltb qrg d_zero then d_sub qrg (d_neg d_half)
    else qrg in
  let qrg := d_mul qrg (d_neg (d_of_Z 625)) in
  let bitfield := to_int64 (d_trunc qrg) in
  let bf_hi := to_uint32 (Z.shiftr bitfield 32) in
  let bf_lo := to_uint32 (Z.land bitfield 0xffffffff) in
  wr rx_car_calc_weaver_inc_lo bf_lo;;
  wr rx_car_calc_weaver_inc_hi bf_hi.

Definition fpga_rb_set_rx_amenv_filtvar (rx_amenv_filtvar : Z) : M unit :=
  let rx_amenv_filtvar :=
    if rx_amenv_filtvar <? 0 then 0
    else if 2 <? rx_amenv_filtvar then 2
    else rx_amenv_filtvar in
  wr Reg.rx_amenv_filtvar (Z.land (to_uint32 rx_amenv_filtvar) 0x0003).

Definition fpga_rb_set_rx_mod_ssb_am_gain__4mod_ssb_am (rx_mod_ssb_am_gain : D) : M unit :=
  let gain := d_mul (d_mul (d_of_Z 0xffff) d_half) (d_div rx_mod_ssb_am_gain (d_of_Z 100)) in
  wr Reg.rx_mod_ssb_am_gain (Z.land (to_uint32 (d_trunc gain)) 0xffff).

Definition fpga_rb_set_rx_mod_amenv_gain__4mod_amenv (rx_mod_amenv_gain : D) : M unit :=
  let gain := d_mul (d_of_Z 0xffff) (d_div rx_mod_amenv_gain (d_of_Z 100)) in
  wr Reg.rx_mod_amenv_gain (Z.land (to_uint32 (d_trunc gain)) 0xffff).

Definition fpga_rb_set_rx_mod_fm_gain__4mod_fm (rx_mod_fm_gain : D) : M unit :=
  let gain := d_mul (d_of_Z 0xffff) (d_div rx_mod_fm_gain (d_of_Z 100)) in
  wr Reg.rx_mod_fm_gain (Z.land (to_uint32 (d_trunc gain)) 0xffff).

Definition fpga_rb_set_rx_mod_pm_gain__4mod_pm (rx_mod_pm_gain : D) : M unit :=
  let gain := d_mul (d_of_Z 0xffff) (d_div rx_mod_pm_gain (d_of_Z 100)) in
  wr Reg.rx_mod_pm_gain (Z.land (to_uint32 (d_trunc gain)) 0xffff).

Definition fpga_rb_set_rfout1_gain_ofs (rfout1_gain : D) (rfout1_ofs : Z) : M unit :=
  let rfout1_gain := if d_eqb rfout1_gain d_zero then d_of_Z 1 else rfout1_gain in
  let gain := d_mul (d_of_Z 0x0100) rfout1_gain in
  wr Reg.rfout1_gain (Z.land (to_uint32 (d_trunc gain)) 0xffff);;
  wr Reg.rfout1_ofs (to_uint16 rfout1_ofs).

Definition fpga_rb_set_rfout2_gain_ofs (rfout2_gain : D) (rfout2_ofs : Z) : M unit :=
  let rfout2_gain := if d_eqb rfout2_gain d_zero then d_of_Z 1 else rfout2_gain in
  let gain := d_mul (d_of_Z 0x0100) rfout2_gain in
  wr Reg.rfout2_gain (Z.land (to_uint32 (d_trunc gain)) 0xffff);;
  wr Reg.rfout2_ofs (to_uint16 rfout2_ofs).

Definition fpga_rb_get_ovrdrv : M Z :=
  st <- rd status;;
  ret (to_uint16 (Z.shiftr (Z.land st 0x00C00000) 0x16)).
End Accessors.

(* ================================================================== *)
(** ** fpga_rb.c: calibration of the ADC offsets *)
Section Calibration.
Context {D : Type} {dbl : DoubleOps D} {cal : Calib D}.
Import Reg.

Definition prepare_rx_measurement (inputLine : Z) : M unit :=
  wr ctrl 0x00000001;;
  wr pwr_ctrl 0x00000007;;
  wr src_con_pnt 0x00000000;;
  wr rx_car_osc_inc_lo 0x3e2d6238;;
  wr rx_car_osc_inc_hi 0x00000005;;
  wr rx_muxin_src inputLine;;
  wr rx_muxin_gain 0x00001fff.

Definition finish_rx_measurement : M unit :=
  wr rx_muxin_ofs 0x00000000;;
  wr rx_muxin_src 0;;
  wr rx_car_osc_inc_lo 0;;
  wr rx_car_osc_inc_hi 0;;
  wr pwr_ctrl 0x00000000;;
  wr ctrl 0.

(** [nanosleep] only lets time pass. *)
Definition nanosleep : M unit := ret tt.

(** [g_fpga_rb_reg_mem->rx_afc_cordic_mag], a register the FPGA drives. *)
Definition rd_cordic_mag (iter : Z) : M Z :=
  fun s => match g_fpga_rb_reg_mem s with
           | Some m => Ok (to_uint32 (cordic_hw s m iter)) s
           | None => Fault
           end.

(** [for (iter = 8; iter; --iter)] *)
Fixpoint test_rx_measurement_loop (iter : nat) (sumreg : Z) : M Z :=
  match iter with
  | O => ret sumreg
  | S iter' =>
      mag <- rd_cordic_mag (Z.of_nat iter);;
      let sumreg := to_uint32 (sumreg + Z.shiftr (to_uint32 (mag + 16)) 5) in
      nanosleep;;
      test_rx_measurement_loop iter' sumreg
  end.

Definition test_rx_measurement (adc_offset_val reduction : Z) : M Z :=
  wr rx_muxin_ofs adc_offset_val;;
  wr rx_muxin_gain (Z.shiftr 0x0000ffff reduction);;
  nanosleep;;
  test_rx_measurement_loop 8 0.

(** [for (i = 15; i > 0; --i)] *)
Fixpoint rp_minimize_noise_loop (i : nat) (min_ofs_value : Z) : M Z :=
  match i with
  | O => ret min_ofs_value
  | S i' =>
      let reduction := Z.of_nat i - 11 in
      let reduction := if reduction <? 0 then 0 else reduction in
      let test_ofs_lo := to_uint16 (Z.lor min_ofs_value (Z.shiftl 1 (Z.of_nat i - 1))) in
      let test_ofs_hi := to_uint16 (Z.lor min_ofs_value (Z.shiftl 3 (Z.of_nat i - 1))) in
      test_sig_lo <- test_rx_measurement (to_int16 (test_ofs_lo - 0x8000)) reduction;;
      test_sig_hi <- test_rx_measurement (to_int16 (test_ofs_hi - 0x8000)) reduction;;
      let min_ofs_value :=
        if test_sig_hi <? test_sig_lo
        then to_uint16 (Z.lor min_ofs_value (Z.shiftl 1 (Z.of_nat i)))
        else min_ofs_value in
      rp_minimize_noise_loop i' min_ofs_value
  end.

Definition rp_minimize_noise : M Z :=
  min_ofs_value <- rp_minimize_noise_loop 15 0x0000;;
  let test_ofs_lo := min_ofs_value in
  let test_ofs_hi := to_uint16 (Z.lor min_ofs_value 1) in
  test_sig_lo <- test_rx_measurement (to_int16 (test_ofs_lo - 0x8000)) 0;;
  test_sig_hi <- test_rx_measurement (to_int16 (test_ofs_hi - 0x8000)) 0;;
  let min_ofs_value := if test_sig_hi <? test_sig_lo then test_ofs_hi else min_ofs_value in
  ret (to_int16 (min_ofs_value - 0x8000)).

(** [calib_set_ADC_offset (&g_rp_main_calib_params, channel, value)] *)
Definition set_ADC_offset (channel value : Z) : M unit :=
  fun s => Ok tt (with_calib (calib_set_ADC_offset (g_rp_main_calib_params s) channel value) s).

(** Called by [fpga_rb_calib] on [&g_rp_main_calib_params] only. *)
Definition rp_measure_calib_params : M unit :=
  prepare_rx_measurement 0x20;;
  thisOfsValue <- rp_minimize_noise;;
  set_ADC_offset 0x20 thisOfsValue;;
  prepare_rx_measurement 0x21;;
  thisOfsValue <- rp_minimize_noise;;
  set_ADC_offset 0x21 thisOfsValue;;
  prepare_rx_measurement 0x18;;
  thisOfsValue <- rp_minimize_noise;;
  set_ADC_offset 0x18 thisOfsValue;;
  prepare_rx_measurement 0x10;;
  thisOfsValue <- rp_minimize_noise;;
  set_ADC_offset 0x10 thisOfsValue;;
  prepare_rx_measurement 0x11;;
  thisOfsValue <- rp_minimize_noise;;
  set_ADC_offset 0x11 thisOfsValue;;
  prepare_rx_measurement 0x19;;
  thisOfsValue <- rp_minimize_noise;;
  set_ADC_offset 0x19 thisOfsValue;;
  finish_rx_measurement.

Definition fpga_rb_calib (calib enabled : Z) : M unit :=
  (if 0 <? calib then rp_measure_calib_params else ret tt);;
  fpga_rb_enable enabled.

(** *** The search as the specification words it

    Fifteen bit positions from bit 15 down to bit 1; at position [i]
    the two candidates are the accumulated offset with bit [i-1] set
    and with bits [i] and [i-1] set, and bit [i] is kept when the
    measurement of the second is strictly smaller; then one decision
    on bit 0; the result is the offset minus [0x8000].  [measure]
    is the measurement as a function of the signed candidate offset
    and of the reduction level. *)
Definition bit_positions : list Z := [15; 14; 13; 12; 11; 10; 9; 8; 7; 6; 5; 4; 3; 2; 1].

Definition reduction_at (i : Z) : Z := Z.max 0 (i - 11).

Definition search_step (measure : Z -> Z -> Z) (acc i : Z) : Z :=
  let lo := Z.lor acc (Z.shiftl 1 (i - 1)) in
  let hi := Z.lor acc (Z.shiftl 3 (i - 1)) in
  if measure (hi - 0x8000) (reduction_at i) <? measure (lo - 0x8000) (reduction_at i)
  then Z.setbit acc i else acc.

Definition successive_approximation (measure : Z -> Z -> Z) : Z :=
  let acc := fold_left (search_step measure) bit_positions 0 in
  let winner :=
    if measure (Z.lor acc 1 - 0x8000) 0 <? measure (acc - 0x8000) 0
    then Z.lor acc 1 else acc in
  winner - 0x8000.

(** The accumulated sum [test_rx_measurement] returns when the FPGA
    shows [hw m iter] with [m] the register block after the offset and
    the gain were written. *)
Definition measured (hw : regs -> Z -> Z) (m : regs) (adc_offset_val reduction : Z) : Z :=
  let m' := upd rx_muxin_gain (to_uint32 (Z.shiftr 0xffff reduction))
              (upd rx_muxin_ofs (to_uint32 adc_offset_val) m) in
  fold_left
    (fun sumreg iter => to_uint32 (sumreg + Z.shiftr (to_uint32 (to_uint32 (hw m' iter) + 16)) 5))
    [8; 7; 6; 5; 4; 3; 2; 1] 0.
End Calibration.

(* ================================================================== *)
(** ** fpga_rb.c: [fpga_rb_set_ctrl] and [fpga_rb_get_ctrl] *)
Section Control.
Context {D : Type} {dbl : DoubleOps D} {cal : Calib D} {hdr : MainH}.
Import Reg.

Definition ssb_weaver_osc_qrg : Z := 1700.

(** [#if 1]: the ADC automatic offset compensation is enabled. *)
Definition adc_auto_ofs : Z := 0x01000000.

(** [g_fpga_rb_reg_mem->r &= ~mask] and [g_fpga_rb_reg_mem->r |= bits]. *)
Definition and_not (r : Reg.t) (mask : Z) : M unit :=
  v <- rd r;; wr r (Z.land v (Z.lnot mask)).
Definition or_with (r : Reg.t) (bits : Z) : M unit :=
  v <- rd r;; wr r (Z.lor v bits).

(** [if (!(g_fpga_rb_reg_mem->status & 0x00000100))]: the TX_MOD_OSC
    phase is not zero, the oscillator is resynchronized. *)
Definition resync_tx_mod_osc (more : M unit) : M unit :=
  st <- rd status;;
  if is_zero (Z.land st 0x00000100) then
    and_not ctrl 0x00001000;;
    or_with ctrl 0x00001000;;
    more
  else ret tt.

Definition with_rfout_cache (tx rx : D) (scp t1 t2 : Z) (s : state) : state :=
  mkState (g_fpga_rb_reg_mem s) (g_rp_main_calib_params s)
    tx rx scp (src_con_pnt2_old s) t1 t2 (cordic_hw s).

(** The body of [for (rfout_i = 0; rfout_i <= 1; rfout_i++)]. *)
Definition rfout_frequency (rfout_con_pnt : Z) (tx_car_osc_qrg rx_car_osc_qrg : D) : D :=
  if (0x04 <=? rfout_con_pnt) && (rfout_con_pnt <=? 0x17) then d_of_Z ssb_weaver_osc_qrg
  else if (0x18 <=? rfout_con_pnt) && (rfout_con_pnt <=? 0x1f) then tx_car_osc_qrg
  else if (0x20 <=? rfout_con_pnt) && (rfout_con_pnt <=? 0x21) then rx_car_osc_qrg
  else if (0x22 <=? rfout_con_pnt) && (rfout_con_pnt <=? 0x41) then d_of_Z ssb_weaver_osc_qrg
  else if (0x48 <=? rfout_con_pnt) && (rfout_con_pnt <=? 0x50) then d_of_Z ssb_weaver_osc_qrg
  else d_zero.

(** The change test on the six parameters against the statics. *)
Definition rfout_changed (s : state) (src_con_pnt src_con_pnt2 term_rfout1 term_rfout2 : Z)
    (tx_car_osc_qrg rx_car_osc_qrg : D) : bool :=
  negb (src_con_pnt_old s =? to_uint32 src_con_pnt)
  || negb (src_con_pnt2_old s =? to_uint32 src_con_pnt2)
  || negb (term_rfout1_old s =? term_rfout1)
  || negb (term_rfout2_old s =? term_rfout2)
  || d_neqb (tx_car_osc_qrg_old s) tx_car_osc_qrg
  || d_neqb (rx_car_osc_qrg_old s) rx_car_osc_qrg.

(** "RF Out x Gain settings - only when relevant changes were made" *)
Definition set_ctrl_rfout (src_con_pnt src_con_pnt2 term_rfout1 term_rfout2 : Z)
    (tx_car_osc_qrg rx_car_osc_qrg : D) : M unit :=
  s <- get_state;;
  if rfout_changed s src_con_pnt src_con_pnt2 term_rfout1 term_rfout2
       tx_car_osc_qrg rx_car_osc_qrg
  then
    put_state (with_rfout_cache tx_car_osc_qrg rx_car_osc_qrg
                 (to_uint32 src_con_pnt) term_rfout1 term_rfout2 s);;
    let rfout_con_pnt0 := to_uint8 (Z.shiftr (Z.land src_con_pnt 0x00ff0000) 16) in
    let rfout_con_pnt1 := to_uint8 (Z.shiftr (Z.land (to_uint32 src_con_pnt) 0xff000000) 24) in
    let rfout_frequency0 := rfout_frequency rfout_con_pnt0 tx_car_osc_qrg rx_car_osc_qrg in
    let rfout_frequency1 := rfout_frequency rfout_con_pnt1 tx_car_osc_qrg rx_car_osc_qrg in
    let rfout1_amp_gain :=
      if nonzero term_rfout1
      then get_compensation_factor rfout_frequency0 (if term_rfout1 =? 0x01 then 1 else 0)
      else d_of_Z 1 in
    let rfout2_amp_gain :=
      if nonzero term_rfout2
      then get_compensation_factor rfout_frequency1 (if term_rfout2 =? 0x01 then 1 else 0)
      else d_of_Z 1 in
    fpga_rb_set_rfout1_gain_ofs rfout1_amp_gain 0;;
    fpga_rb_set_rfout2_gain_ofs rfout2_amp_gain 0;;
    wr Reg.src_con_pnt src_con_pnt;;
    wr Reg.src_con_pnt2 src_con_pnt2
  else ret tt.

(** One [case] of the two input multiplexer switches that reads the
    ADC offset of the channel from the calibration record. *)
Definition adc_offset (channel : Z) : M Z :=
  fun s => Ok (calib_get_ADC_offset (g_rp_main_calib_params s) channel) s.

(** [switch (tx_modsrc)] *)
Definition set_ctrl_tx_modsrc (tx_modsrc tx_muxin_gain tx_car_osc_qrg_inc : Z)
    (tx_car_osc_qrg : D) : M unit :=
  if tx_modsrc =? RB_MODSRC_MOD_OSC then
    fpga_rb_set_tx_muxin_gain 0 0x0000;;
    wr tx_muxin_src 0x00000000
  else if tx_modsrc =? RB_MODSRC_RF_IN1 then
    ofs <- adc_offset 0x20;;
    fpga_rb_set_tx_muxin_gain tx_muxin_gain ofs;;
    wr tx_muxin_src 0x00000020;;
    or_with ctrl adc_auto_ofs
  else if tx_modsrc =? RB_MODSRC_RF_IN2 then
    ofs <- adc_offset 0x21;;
    fpga_rb_set_tx_muxin_gain tx_muxin_gain ofs;;
    wr tx_muxin_src 0x00000021;;
    or_with ctrl adc_auto_ofs
  else if tx_modsrc =? RB_MODSRC_EXP_AI0 then
    ofs <- adc_offset 0x10;;
    fpga_rb_set_tx_muxin_gain tx_muxin_gain ofs;;
    wr tx_muxin_src 0x00000010;;
    or_with ctrl adc_auto_ofs
  else if tx_modsrc =? RB_MODSRC_EXP_AI1 then
    ofs <- adc_offset 0x18;;
    fpga_rb_set_tx_muxin_gain tx_muxin_gain ofs;;
    wr tx_muxin_src 0x00000018;;
    or_with ctrl adc_auto_ofs
  else if tx_modsrc =? RB_MODSRC_EXP_AI2 then
    ofs <- adc_offset 0x11;;
    fpga_rb_set_tx_muxin_gain tx_muxin_gain ofs;;
    wr tx_muxin_src 0x00000011;;
    or_with ctrl adc_auto_ofs
  else if tx_modsrc =? RB_MODSRC_EXP_AI3 then
    ofs <- adc_offset 0x19;;
    fpga_rb_set_tx_muxin_gain tx_muxin_gain ofs;;
    wr tx_muxin_src 0x00000019;;
    or_with ctrl adc_auto_ofs
  else if tx_modsrc =? RB_MODSRC_AC97_LINEOUT_L then
    fpga_rb_set_tx_muxin_gain tx_muxin_gain 0;;
    wr tx_muxin_src 0x00000030
  else if tx_modsrc =? RB_MODSRC_AC97_LINEOUT_R then
    fpga_rb_set_tx_muxin_gain tx_muxin_gain 0;;
    wr tx_muxin_src 0x00000031
  else
    (* default: case RB_MODSRC_NONE: *)
    fpga_rb_set_tx_muxin_gain 0 0x0000;;
    wr tx_muxin_src 0x00000000;;
    (if tx_car_osc_qrg_inc =? 50
     then fpga_rb_set_tx_car_osc_qrg__4mod_cw_ssb_am_pm tx_car_osc_qrg
     else ret tt);;
    fpga_rb_set_tx_car_osc_qrg_inc__4mod_cw_ssb_am_pm tx_car_osc_qrg_inc;;
    fpga_rb_set_tx_mod_qmix_gain_ofs__4mod_cw_ssbweaver_am d_zero 1;;
    resync_tx_mod_osc (or_with ctrl adc_auto_ofs).

(** The same statements in [case RB_TX_MODTYP_AM], [_FM] and [_PM]:
    the modulation oscillator runs on its own frequency or is turned
    off and resynchronized. *)
Definition set_ctrl_tx_mod_osc (tx_modsrc : Z) (tx_mod_osc_qrg : D) : M unit :=
  if tx_modsrc =? RB_MODSRC_MOD_OSC then
    fpga_rb_set_tx_mod_osc_qrg__4mod_ssbweaver_am_fm_pm tx_mod_osc_qrg
  else
    fpga_rb_set_tx_mod_osc_qrg__4mod_ssbweaver_am_fm_pm d_zero;;
    resync_tx_mod_osc (ret tt).

(** [if (tx_car_osc_qrg_inc == 50) fpga_rb_set_tx_car_osc_qrg__4mod_cw_ssb_am_pm (qrg)] *)
Definition set_tx_car_osc_qrg_unless_scanning (tx_car_osc_qrg_inc : Z) (qrg : D) : M unit :=
  if tx_car_osc_qrg_inc =? 50
  then fpga_rb_set_tx_car_osc_qrg__4mod_cw_ssb_am_pm qrg
  else ret tt.

(** [switch (tx_modtyp)] *)
Definition set_ctrl_tx_modtyp (tx_modsrc tx_modtyp tx_car_osc_qrg_inc tx_amp_rf_gain tx_mod_osc_mag : Z)
    (tx_car_osc_qrg tx_mod_osc_qrg : D) : M unit :=
  if tx_modtyp =? RB_TX_MODTYP_USB then
    and_not ctrl 0x00007076;;
    fpga_rb_set_tx_amp_rf_gain_ofs__4mod_all (d_mul (d_of_Z tx_amp_rf_gain) (d_lit 3 2)) d_zero;;
    set_tx_car_osc_qrg_unless_scanning tx_car_osc_qrg_inc
      (d_add tx_car_osc_qrg (d_of_Z ssb_weaver_osc_qrg));;
    fpga_rb_set_tx_car_osc_qrg_inc__4mod_cw_ssb_am_pm tx_car_osc_qrg_inc;;
    fpga_rb_set_tx_mod_osc_qrg__4mod_ssbweaver_am_fm_pm (d_of_Z ssb_weaver_osc_qrg);;
    fpga_rb_set_tx_mod_qmix_gain_ofs__4mod_cw_ssbweaver_am (d_of_Z tx_mod_osc_mag) 0
  else if tx_modtyp =? RB_TX_MODTYP_LSB then
    and_not ctrl 0x00007076;;
    fpga_rb_set_tx_amp_rf_gain_ofs__4mod_all (d_mul (d_of_Z tx_amp_rf_gain) (d_lit 3 2)) d_zero;;
    set_tx_car_osc_qrg_unless_scanning tx_car_osc_qrg_inc
      (d_sub tx_car_osc_qrg (d_of_Z ssb_weaver_osc_qrg));;
    fpga_rb_set_tx_car_osc_qrg_inc__4mod_cw_ssb_am_pm tx_car_osc_qrg_inc;;
    fpga_rb_set_tx_mod_osc_qrg__4mod_ssbweaver_am_fm_pm (d_of_Z (- ssb_weaver_osc_qrg));;
    fpga_rb_set_tx_mod_qmix_gain_ofs__4mod_cw_ssbweaver_am (d_of_Z tx_mod_osc_mag) 0
  else if tx_modtyp =? RB_TX_MODTYP_AM then
    and_not ctrl 0x00007076;;
    fpga_rb_set_tx_amp_rf_gain_ofs__4mod_all (d_of_Z tx_amp_rf_gain) d_zero;;
    set_tx_car_osc_qrg_unless_scanning tx_car_osc_qrg_inc tx_car_osc_qrg;;
    fpga_rb_set_tx_car_osc_qrg_inc__4mod_cw_ssb_am_pm tx_car_osc_qrg_inc;;
    set_ctrl_tx_mod_osc tx_modsrc tx_mod_osc_qrg;;
    fpga_rb_set_tx_mod_qmix_gain_ofs__4mod_cw_ssbweaver_am (d_of_Z tx_mod_osc_mag) 1
  else if tx_modtyp =? RB_TX_MODTYP_FM then
    and_not ctrl 0x00007056;;
    fpga_rb_set_tx_amp_rf_gain_ofs__4mod_all (d_of_Z tx_amp_rf_gain) d_zero;;
    set_ctrl_tx_mod_osc tx_modsrc tx_mod_osc_qrg;;
    fpga_rb_set_tx_mod_qmix_gain_ofs__4mod_fm tx_car_osc_qrg (d_of_Z tx_mod_osc_mag);;
    or_with ctrl 0x00000020
  else if tx_modtyp =? RB_TX_MODTYP_PM then
    and_not ctrl 0x00007036;;
    fpga_rb_set_tx_amp_rf_gain_ofs__4mod_all (d_of_Z tx_amp_rf_gain) d_zero;;
    set_tx_car_osc_qrg_unless_scanning tx_car_osc_qrg_inc tx_car_osc_qrg;;
    fpga_rb_set_tx_car_osc_qrg_inc__4mod_cw_ssb_am_pm tx_car_osc_qrg_inc;;
    set_ctrl_tx_mod_osc tx_modsrc tx_mod_osc_qrg;;
    fpga_rb_set_tx_mod_qmix_gain_ofs__4mod_pm tx_car_osc_qrg (d_of_Z tx_mod_osc_mag);;
    or_with ctrl 0x00000040
  else
    (* default: *)
    fpga_rb_set_tx_amp_rf_gain_ofs__4mod_all (d_of_Z tx_amp_rf_gain) d_zero;;
    set_tx_car_osc_qrg_unless_scanning tx_car_osc_qrg_inc tx_car_osc_qrg;;
    fpga_rb_set_tx_car_osc_qrg_inc__4mod_cw_ssb_am_pm tx_car_osc_qrg_inc;;
    fpga_rb_set_tx_mod_osc_qrg__4mod_ssbweaver_am_fm_pm d_zero;;
    resync_tx_mod_osc (ret tt).

(** [switch (rx_muxin_src)] *)
Definition set_ctrl_rx_muxin (rx_muxin_src rx_muxin_gain : Z) : M unit :=
  if rx_muxin_src =? RB_MODSRC_RF_IN1 then
    ofs <- adc_offset 0x20;;
    fpga_rb_set_rx_muxin_gain rx_muxin_gain ofs;;
    wr Reg.rx_muxin_src 0x00000020;;
    or_with ctrl adc_auto_ofs
  else if rx_muxin_src =? RB_MODSRC_RF_IN2 then
    ofs <- adc_offset 0x21;;
    fpga_rb_set_rx_muxin_gain rx_muxin_gain ofs;;
    wr Reg.rx_muxin_src 0x00000021;;
    or_with ctrl adc_auto_ofs
  else if rx_muxin_src =? RB_MODSRC_EXP_AI0 then
    ofs <- adc_offset 0x10;;
    fpga_rb_set_rx_muxin_gain rx_muxin_gain ofs;;
    wr Reg.rx_muxin_src 0x00000010;;
    or_with ctrl adc_auto_ofs
  else if rx_muxin_src =? RB_MODSRC_EXP_AI1 then
    ofs <- adc_offset 0x18;;
    fpga_rb_set_rx_muxin_gain rx_muxin_gain ofs;;
    wr Reg.rx_muxin_src 0x00000018;;
    or_with ctrl adc_auto_ofs
  else if rx_muxin_src =? RB_MODSRC_EXP_AI2 then
    ofs <- adc_offset 0x11;;
    fpga_rb_set_rx_muxin_gain rx_muxin_gain ofs;;
    wr Reg.rx_muxin_src 0x00000011;;
    or_with ctrl adc_auto_ofs
  else if rx_muxin_src =? RB_MODSRC_EXP_AI3 then
    ofs <- adc_offset 0x19;;
    fpga_rb_set_rx_muxin_gain rx_muxin_gain ofs;;
    wr Reg.rx_muxin_src 0x00000019;;
    or_with ctrl adc_auto_ofs
  else if rx_muxin_src =? RB_MODSRC_AC97_LINEOUT_L then
    fpga_rb_set_rx_muxin_gain rx_muxin_gain 0;;
    wr Reg.rx_muxin_src 0x00000030
  else if rx_muxin_src =? RB_MODSRC_AC97_LINEOUT_R then
    fpga_rb_set_rx_muxin_gain rx_muxin_gain 0;;
    wr Reg.rx_muxin_src 0x00000031
  else
    (* default: case RB_MODSRC_NONE: *)
    fpga_rb_set_rx_muxin_gain rx_muxin_gain 0x0000;;
    wr Reg.rx_muxin_src 0x00000000.

(** [if (rx_car_osc_qrg_inc == 50) fpga_rb_set_rx_car_osc_qrg__4mod_ssb_am_fm_pm (qrg)] *)
Definition set_rx_car_osc_qrg_unless_scanning (rx_car_osc_qrg_inc : Z) (qrg : D) : M unit :=
  if rx_car_osc_qrg_inc =? 50
  then fpga_rb_set_rx_car_osc_qrg__4mod_ssb_am_fm_pm qrg
  else ret tt.

(** [switch (rx_modtyp & 0x0f)]; [rx_modtyp] is the unmasked argument,
    used by [case RB_RX_MODTYP_AMENV]. *)
Definition set_ctrl_rx_modtyp (rx_modtyp rx_car_osc_qrg_inc : Z) (rx_car_osc_qrg : D) : M unit :=
  let sel := Z.land rx_modtyp 0x0f in
  if sel =? RB_RX_MODTYP_USB then
    and_not ctrl 0x10760000;;
    set_rx_car_osc_qrg_unless_scanning rx_car_osc_qrg_inc
      (d_add rx_car_osc_qrg (d_of_Z ssb_weaver_osc_qrg));;
    fpga_rb_set_rx_car_osc_qrg_inc__4mod_ssb_am_fm_pm rx_car_osc_qrg_inc;;
    fpga_rb_set_rx_mod_osc_qrg__4mod_ssbweaver_am (d_of_Z ssb_weaver_osc_qrg)
  else if sel =? RB_RX_MODTYP_LSB then
    and_not ctrl 0x10760000;;
    set_rx_car_osc_qrg_unless_scanning rx_car_osc_qrg_inc
      (d_sub rx_car_osc_qrg (d_of_Z ssb_weaver_osc_qrg));;
    fpga_rb_set_rx_car_osc_qrg_inc__4mod_ssb_am_fm_pm rx_car_osc_qrg_inc;;
    fpga_rb_set_rx_mod_osc_qrg__4mod_ssbweaver_am (d_of_Z (- ssb_weaver_osc_qrg))
  else if sel =? RB_RX_MODTYP_AMSYNC_USB then
    and_not ctrl 0x10560000;;
    or_with ctrl 0x00200000;;
    set_rx_car_osc_qrg_unless_scanning rx_car_osc_qrg_inc
      (d_add rx_car_osc_qrg (d_of_Z ssb_weaver_osc_qrg));;
    fpga_rb_set_rx_car_osc_qrg_inc__4mod_ssb_am_fm_pm rx_car_osc_qrg_inc;;
    fpga_rb_set_rx_mod_osc_qrg__4mod_ssbweaver_am (d_of_Z ssb_weaver_osc_qrg);;
    fpga_rb_set_rx_calc_afc_weaver__4mod_am_fm_pm (d_of_Z ssb_weaver_osc_qrg)
  else if sel =? RB_RX_MODTYP_AMSYNC_LSB then
    and_not ctrl 0x10560000;;
    or_with ctrl 0x00200000;;
    set_rx_car_osc_qrg_unless_scanning rx_car_osc_qrg_inc
      (d_sub rx_car_osc_qrg (d_of_Z ssb_weaver_osc_qrg));;
    fpga_rb_set_rx_car_osc_qrg_inc__4mod_ssb_am_fm_pm rx_car_osc_qrg_inc;;
    fpga_rb_set_rx_mod_osc_qrg__4mod_ssbweaver_am (d_of_Z (- ssb_weaver_osc_qrg));;
    fpga_rb_set_rx_calc_afc_weaver__4mod_am_fm_pm (d_of_Z (- ssb_weaver_osc_qrg))
  else if (sel =? RB_RX_MODTYP_FM) || (sel =? RB_RX_MODTYP_PM) then
    (* case RB_RX_MODTYP_FM and case RB_RX_MODTYP_PM hold the same statements *)
    and_not ctrl 0x10560000;;
    or_with ctrl 0x00200000;;
    set_rx_car_osc_qrg_unless_scanning rx_car_osc_qrg_inc rx_car_osc_qrg;;
    fpga_rb_set_rx_car_osc_qrg_inc__4mod_ssb_am_fm_pm rx_car_osc_qrg_inc;;
    fpga_rb_set_rx_calc_afc_weaver__4mod_am_fm_pm d_zero
  else if sel =? RB_RX_MODTYP_AMENV then
    and_not ctrl 0x10560000;;
    or_with ctrl 0x00200000;;
    set_rx_car_osc_qrg_unless_scanning rx_car_osc_qrg_inc rx_car_osc_qrg;;
    fpga_rb_set_rx_car_osc_qrg_inc__4mod_ssb_am_fm_pm rx_car_osc_qrg_inc;;
    fpga_rb_set_rx_calc_afc_weaver__4mod_am_fm_pm d_zero;;
    fpga_rb_set_rx_amenv_filtvar (Z.shiftr rx_modtyp 4)
  else
    (* default: *)
    fpga_rb_set_rx_car_osc_qrg__4mod_ssb_am_fm_pm d_zero;;
    fpga_rb_set_rx_car_osc_qrg_inc__4mod_ssb_am_fm_pm 50.

(** The [else] of [if (rb_run)]. *)
Definition set_ctrl_off : M unit :=
  and_not ctrl 0x10767076;;
  wr tx_muxin_src 0x00000000;;
  fpga_rb_set_tx_amp_rf_gain_ofs__4mod_all d_zero d_zero;;
  fpga_rb_set_tx_car_osc_qrg_inc__4mod_cw_ssb_am_pm 50;;
  fpga_rb_set_tx_mod_osc_qrg__4mod_ssbweaver_am_fm_pm d_zero;;
  fpga_rb_set_tx_mod_qmix_gain_ofs__4mod_fm d_zero d_zero;;
  wr Reg.rx_muxin_src 0;;
  fpga_rb_set_rx_car_osc_qrg_inc__4mod_ssb_am_fm_pm 50;;
  fpga_rb_set_rx_calc_afc_weaver__4mod_am_fm_pm d_zero;;
  fpga_rb_set_rx_mod_osc_qrg__4mod_ssbweaver_am d_zero.

(** The [then] of [if (rb_run)]. *)
Definition set_ctrl_on
    (tx_modsrc tx_modtyp rx_modtyp rx_muxin_src : Z)
    (tx_car_osc_qrg rx_car_osc_qrg tx_mod_osc_qrg : D)
    (tx_muxin_gain rx_muxin_gain tx_car_osc_qrg_inc rx_car_osc_qrg_inc
     tx_amp_rf_gain tx_mod_osc_mag : Z) : M unit :=
  fpga_rb_set_rx_mod_ssb_am_gain__4mod_ssb_am (d_of_Z 100);;
  fpga_rb_set_rx_mod_amenv_gain__4mod_amenv (d_of_Z 100);;
  fpga_rb_set_rx_mod_fm_gain__4mod_fm (d_of_Z 100);;
  fpga_rb_set_rx_mod_pm_gain__4mod_pm (d_of_Z 100);;
  set_ctrl_tx_modsrc tx_modsrc tx_muxin_gain tx_car_osc_qrg_inc tx_car_osc_qrg;;
  (if negb (tx_modsrc =? RB_MODSRC_NONE) then
     fpga_rb_set_tx_modtyp tx_modtyp;;
     set_ctrl_tx_modtyp tx_modsrc tx_modtyp tx_car_osc_qrg_inc tx_amp_rf_gain tx_mod_osc_mag
       tx_car_osc_qrg tx_mod_osc_qrg
   else ret tt);;
  set_ctrl_rx_muxin rx_muxin_src rx_muxin_gain;;
  fpga_rb_set_rx_modtyp (Z.land rx_modtyp 0x0f);;
  set_ctrl_rx_modtyp rx_modtyp rx_car_osc_qrg_inc rx_car_osc_qrg.

Definition fpga_rb_set_ctrl
    (rb_run tx_modsrc tx_modtyp rx_modtyp src_con_pnt src_con_pnt2 rx_muxin_src : Z)
    (tx_car_osc_qrg rx_car_osc_qrg tx_mod_osc_qrg : D)
    (tx_muxin_gain rx_muxin_gain tx_qrg_sel rx_qrg_sel
     tx_amp_rf_gain tx_mod_osc_mag term_rfout1 term_rfout2 qrg_inc : Z) : M unit :=
  let tx_car_osc_qrg_inc := if nonzero tx_qrg_sel then qrg_inc else 50 in
  let rx_car_osc_qrg_inc := if nonzero rx_qrg_sel then qrg_inc else 50 in
  set_ctrl_rfout src_con_pnt src_con_pnt2 term_rfout1 term_rfout2
    tx_car_osc_qrg rx_car_osc_qrg;;
  if nonzero rb_run then
    set_ctrl_on tx_modsrc tx_modtyp rx_modtyp rx_muxin_src
      tx_car_osc_qrg rx_car_osc_qrg tx_mod_osc_qrg
      tx_muxin_gain rx_muxin_gain tx_car_osc_qrg_inc rx_car_osc_qrg_inc
      tx_amp_rf_gain tx_mod_osc_mag
  else set_ctrl_off.

Definition fpga_rb_get_ctrl (tx_modtyp rx_modtyp : Z) : M (D * D * Z) :=
  loc_RD_tx_car_osc_qrg <- fpga_rb_get_tx_car_osc_qrg;;
  let loc_RD_tx_car_osc_qrg :=
    if tx_modtyp =? RB_TX_MODTYP_USB
    then d_sub loc_RD_tx_car_osc_qrg (d_of_Z ssb_weaver_osc_qrg)
    else if tx_modtyp =? RB_TX_MODTYP_LSB
    then d_add loc_RD_tx_car_osc_qrg (d_of_Z ssb_weaver_osc_qrg)
    else loc_RD_tx_car_osc_qrg in
  loc_RD_rx_car_osc_qrg <- fpga_rb_get_rx_car_osc_qrg;;
  let loc_RD_rx_car_osc_qrg :=
    if (rx_modtyp =? RB_RX_MODTYP_USB) || (rx_modtyp =? RB_RX_MODTYP_AMSYNC_USB)
    then d_sub loc_RD_rx_car_osc_qrg (d_of_Z ssb_weaver_osc_qrg)
    else if (rx_modtyp =? RB_TX_MODTYP_LSB) || (rx_modtyp =? RB_RX_MODTYP_AMSYNC_LSB)
    then d_add loc_RD_rx_car_osc_qrg (d_of_Z ssb_weaver_osc_qrg)
    else loc_RD_rx_car_osc_qrg in
  loc_RD_ovrdrv <- fpga_rb_get_ovrdrv;;
  ret (loc_RD_tx_car_osc_qrg, loc_RD_rx_car_osc_qrg, loc_RD_ovrdrv).
End Control.

(* ================================================================== *)
(** ** fpga_rb.c: [fpga_rb_update_all_params] *)

(** The indices of [main.h] into the base parameter list. *)
Inductive rb_param_index : Set :=
| RB_RUN | RB_TX_MODSRC | RB_TX_MODTYP | RB_RX_MODTYP
| RB_LED_CON_SRC_PNT | RB_RFOUT1_CON_SRC_PNT | RB_RFOUT2_CON_SRC_PNT
| RB_RX_MUXIN_SRC | RB_TX_CAR_OSC_QRG | RB_RX_CAR_OSC_QRG | RB_TX_MOD_OSC_QRG
| RB_TX_MUXIN_GAIN | RB_RX_MUXIN_GAIN | RB_TX_QRG_SEL | RB_RX_QRG_SEL
| RB_TX_AMP_RF_GAIN | RB_TX_MOD_OSC_MAG | RB_RFOUT1_TERM | RB_RFOUT2_TERM
| RB_QRG_INC | RB_AC97_LOL | RB_AC97_LOR.

(** The [int] locals of [fpga_rb_update_all_params]. *)
Inductive int_local : Set :=
| loc_rb_run | loc_rb_calib | loc_tx_modsrc | loc_tx_modtyp | loc_rx_modtyp
| loc_led_csp | loc_rfout1_csp | loc_rfout2_csp | loc_rx_muxin_src
| loc_tx_amp_rf_gain | loc_tx_mod_osc_mag | loc_tx_muxin_gain | loc_rx_muxin_gain
| loc_tx_qrg_sel | loc_rx_qrg_sel | loc_rfout1_term | loc_rfout2_term
| loc_qrg_inc | loc_ac97_lil | loc_ac97_lir.

Definition int_local_tag (v : int_local) : Z :=
  match v with
  | loc_rb_run => 0 | loc_rb_calib => 1 | loc_tx_modsrc => 2 | loc_tx_modtyp => 3
  | loc_rx_modtyp => 4 | loc_led_csp => 5 | loc_rfout1_csp => 6 | loc_rfout2_csp => 7
  | loc_rx_muxin_src => 8 | loc_tx_amp_rf_gain => 9 | loc_tx_mod_osc_mag => 10
  | loc_tx_muxin_gain => 11 | loc_rx_muxin_gain => 12 | loc_tx_qrg_sel => 13
  | loc_rx_qrg_sel => 14 | loc_rfout1_term => 15 | loc_rfout2_term => 16
  | loc_qrg_inc => 17 | loc_ac97_lil => 18 | loc_ac97_lir => 19
  end.

Section UpdateAllParams.
Context {D : Type} {dbl : DoubleOps D} {cal : Calib D} {hdr : MainH}.

(** The members of [rb_app_params_t] the function uses.  A list of
    them stands for the array up to its entry with a null [name]. *)
Record rb_app_params_t : Type := mkParam {
  name : string;
  value : D;
  fpga_update : Z
}.

(** The locals: the [int]s and the three [double]s. *)
Record locals : Type := mkLocals {
  ints : int_local -> Z;
  loc_tx_car_osc_qrg : D;
  loc_rx_car_osc_qrg : D;
  loc_tx_mod_osc_qrg : D
}.

Definition set_int (v : int_local) (x : Z) (l : locals) : locals :=
  mkLocals (fun v' => if int_local_tag v =? int_local_tag v' then x else ints l v')
    (loc_tx_car_osc_qrg l) (loc_rx_car_osc_qrg l) (loc_tx_mod_osc_qrg l).

(** [(int) x] on a [double]. *)
Definition int_of_double (x : D) : Z := to_int32 (d_trunc x).

(** "Get current parameters from the worker" *)
Definition locals_of_base (pb : rb_param_index -> D) : locals :=
  mkLocals
    (fun v =>
       match v with
       | loc_rb_run => int_of_double (pb RB_RUN)
       | loc_rb_calib => 0
       | loc_tx_modsrc => int_of_double (pb RB_TX_MODSRC)
       | loc_tx_modtyp => int_of_double (pb RB_TX_MODTYP)
       | loc_rx_modtyp => int_of_double (pb RB_RX_MODTYP)
       | loc_led_csp => int_of_double (pb RB_LED_CON_SRC_PNT)
       | loc_rfout1_csp => int_of_double (pb RB_RFOUT1_CON_SRC_PNT)
       | loc_rfout2_csp => int_of_double (pb RB_RFOUT2_CON_SRC_PNT)
       | loc_rx_muxin_src => int_of_double (pb RB_RX_MUXIN_SRC)
       | loc_tx_muxin_gain => int_of_double (pb RB_TX_MUXIN_GAIN)
       | loc_rx_muxin_gain => int_of_double (pb RB_RX_MUXIN_GAIN)
       | loc_tx_qrg_sel => int_of_double (pb RB_TX_QRG_SEL)
       | loc_rx_qrg_sel => int_of_double (pb RB_RX_QRG_SEL)
       | loc_tx_amp_rf_gain => int_of_double (pb RB_TX_AMP_RF_GAIN)
       | loc_tx_mod_osc_mag => int_of_double (pb RB_TX_MOD_OSC_MAG)
       | loc_rfout1_term => int_of_double (pb RB_RFOUT1_TERM)
       | loc_rfout2_term => int_of_double (pb RB_RFOUT2_TERM)
       | loc_qrg_inc => int_of_double (pb RB_QRG_INC)
       | loc_ac97_lil => int_of_double (pb RB_AC97_LOL)
       | loc_ac97_lir => int_of_double (pb RB_AC97_LOR)
       end)
    (pb RB_TX_CAR_OSC_QRG) (pb RB_RX_CAR_OSC_QRG) (pb RB_TX_MOD_OSC_QRG).

(** The [int] local a parameter name is copied to by one of the
    branches that do nothing else. *)
Definition plain_int_param (n : string) : option int_local :=
  if String.eqb "tx_modsrc_s" n then Some loc_tx_modsrc
  else if String.eqb "tx_modtyp_s" n then Some loc_tx_modtyp
  else if String.eqb "rx_modtyp_s" n then Some loc_rx_modtyp
  else if String.eqb "rbled_csp_s" n then Some loc_led_csp
  else if String.eqb "rfout1_csp_s" n then Some loc_rfout1_csp
  else if String.eqb "rfout2_csp_s" n then Some loc_rfout2_csp
  else if String.eqb "rx_muxin_src_s" n then Some loc_rx_muxin_src
  else if String.eqb "tx_amp_rf_gain_s" n then Some loc_tx_amp_rf_gain
  else if String.eqb "tx_mod_osc_mag_s" n then Some loc_tx_mod_osc_mag
  else if String.eqb "tx_muxin_gain_s" n then Some loc_tx_muxin_gain
  else if String.eqb "rx_muxin_gain_s" n then Some loc_rx_muxin_gain
  else if String.eqb "tx_qrg_sel_s" n then Some loc_tx_qrg_sel
  else if String.eqb "rx_qrg_sel_s" n then Some loc_rx_qrg_sel
  else if String.eqb "rfout1_term_s" n then Some loc_rfout1_term
  else if String.eqb "rfout2_term_s" n then Some loc_rfout2_term
  else if String.eqb "qrg_inc_s" n then Some loc_qrg_inc
  else if String.eqb "ac97_lil_s" n then Some loc_ac97_lil
  else if String.eqb "ac97_lir_s" n then Some loc_ac97_lir
  else None.

(** One marked entry: the entry without its marker and the locals
    after the branch of the [strcmp] chain the name selects. *)
Definition update_one (p : rb_app_params_t) (l : locals) : M (rb_app_params_t * locals) :=
  let p := mkParam (name p) (value p) (Z.land (fpga_update p) (Z.lnot 0x80)) in
  if String.eqb "rb_run" (name p) then
    let l := set_int loc_rb_run (int_of_double (value p)) l in
    fpga_rb_enable (ints l loc_rb_run);;
    ret (p, l)
  else if String.eqb "rb_calib" (name p) then
    let l := set_int loc_rb_calib (int_of_double (value p)) l in
    fpga_rb_calib (ints l loc_rb_calib) (ints l loc_rb_run);;
    ret (mkParam (name p) d_zero (fpga_update p), l)
  else if String.eqb "tx_car_osc_qrg_f" (name p) then
    ret (p, mkLocals (ints l) (value p) (loc_rx_car_osc_qrg l) (loc_tx_mod_osc_qrg l))
  else if String.eqb "rx_car_osc_qrg_f" (name p) then
    ret (p, mkLocals (ints l) (loc_tx_car_osc_qrg l) (value p) (loc_tx_mod_osc_qrg l))
  else if String.eqb "tx_mod_osc_qrg_f" (name p) then
    ret (p, mkLocals (ints l) (loc_tx_car_osc_qrg l) (loc_rx_car_osc_qrg l) (value p))
  else
    match plain_int_param (name p) with
    | Some v => ret (p, set_int v (int_of_double (value p)) l)
    | None => ret (p, l)
    end.

(** [for (idx = 0; pn[idx].name; idx++)] *)
Fixpoint update_loop (pn : list rb_app_params_t) (l : locals)
    : M (list rb_app_params_t * locals) :=
  match pn with
  | [] => ret ([], l)
  | p :: rest =>
      if is_zero (Z.land (fpga_update p) 0x80) then
        r <- update_loop rest l;;
        ret (p :: fst r, snd r)
      else
        pl <- update_one p l;;
        r <- update_loop rest (snd pl);;
        ret (fst pl :: fst r, snd r)
  end.

(** The arguments are pointers: [None] is the null pointer, and
    [p_pn] points to the pointer to the list.  The result is the
    returned [int] and the list as the call leaves it. *)
Definition fpga_rb_update_all_params
    (pb : option (rb_param_index -> D))
    (p_pn : option (option (list rb_app_params_t)))
    : M (Z * option (option (list rb_app_params_t))) :=
  null <- reg_mem_is_null;;
  match pb, p_pn with
  | Some pb, Some pn' =>
      if null then ret (-1, p_pn)
      else
        match pn' with
        | None => ret (-2, p_pn)
        | Some pn =>
            r <- update_loop pn (locals_of_base pb);;
            let l := snd r in
            (if nonzero (ints l loc_rb_run) then
               fpga_rb_set_ctrl (ints l loc_rb_run) (ints l loc_tx_modsrc)
                 (ints l loc_tx_modtyp) (ints l loc_rx_modtyp)
                 (to_int32
                    (Z.lor (Z.lor (Z.shiftl (Z.land (ints l loc_rfout2_csp) 0xff) 0x18)
                                  (Z.shiftl (Z.land (ints l loc_rfout1_csp) 0xff) 0x10))
                           (Z.land (ints l loc_led_csp) 0xff)))
                 (Z.lor (Z.shiftl (Z.land (ints l loc_ac97_lir) 0xff) 0x08)
                        (Z.shiftl (Z.land (ints l loc_ac97_lil) 0xff) 0x00))
                 (ints l loc_rx_muxin_src)
                 (loc_tx_car_osc_qrg l) (loc_rx_car_osc_qrg l) (loc_tx_mod_osc_qrg l)
                 (ints l loc_tx_muxin_gain) (ints l loc_rx_muxin_gain)
                 (ints l loc_tx_qrg_sel) (ints l loc_rx_qrg_sel)
                 (ints l loc_tx_amp_rf_gain) (ints l loc_tx_mod_osc_mag)
                 (ints l loc_rfout1_term) (ints l loc_rfout2_term) (ints l loc_qrg_inc)
             else ret tt);;
            ret (0, Some (Some (fst r)))
        end
  | _, _ => ret (-1, p_pn)
  end.
(** [main.c] is not among the sources: [rb_update_param (p_pn, name,
    value)] is a parameter, from the list [*p_pn] to the list it
    leaves there. *)
Variable rb_update_param : list rb_app_params_t -> string -> D -> list rb_app_params_t.

(** The locals [loc_tx_modtyp], [loc_rx_modtyp] and [loc_qrg_inc] of
    [fpga_rb_get_fpga_params] over its [for] loop, which looks at the
    names only and not at the markers. *)
Fixpoint get_params_loop (pn : list rb_app_params_t) (l : Z * Z * Z) : Z * Z * Z :=
  match pn with
  | [] => l
  | p :: rest =>
      let '(loc_tx, loc_rx, loc_inc) := l in
      get_params_loop rest
        (if String.eqb "tx_modtyp_s" (name p) then (int_of_double (value p), loc_rx, loc_inc)
         else if String.eqb "rx_modtyp_s" (name p) then (loc_tx, int_of_double (value p), loc_inc)
         else if String.eqb "qrg_inc_s" (name p) then (loc_tx, loc_rx, int_of_double (value p))
         else l)
  end.

Definition fpga_rb_get_fpga_params
    (pb : option (rb_param_index -> D))
    (p_pn : option (option (list rb_app_params_t)))
    : M (Z * option (option (list rb_app_params_t))) :=
  null <- reg_mem_is_null;;
  match pb, p_pn with
  | Some pb, Some pn' =>
      if null then ret (-1, p_pn)
      else
        match pn' with
        | None => ret (-2, p_pn)
        | Some pn =>
            let '(loc_tx, loc_rx, loc_inc) :=
              get_params_loop pn
                (int_of_double (pb RB_TX_MODTYP), int_of_double (pb RB_RX_MODTYP),
                 int_of_double (pb RB_QRG_INC)) in
            r <- fpga_rb_get_ctrl loc_tx loc_rx;;
            let '(loc_RD_tx_car_osc_qrg, loc_RD_rx_car_osc_qrg, loc_RD_ovrdrv) := r in
            let pn :=
              if negb (loc_inc =? 50)
              then rb_update_param
                     (rb_update_param pn "tx_car_osc_qrg_f" loc_RD_tx_car_osc_qrg)
                     "rx_car_osc_qrg_f" loc_RD_rx_car_osc_qrg
              else pn in
            let pn := rb_update_param pn "ovrdrv_s" (d_of_Z loc_RD_ovrdrv) in
            ret (1, Some (Some pn))
        end
  | _, _ => ret (-1, p_pn)
  end.
End UpdateAllParams.

(* ================================================================== *)
(** ** What the specification says, and sample data to run the code *)

(** [round (n / d)] for [0 < d], halves away from zero. *)
Definition round_half_away (n d : Z) : Z :=
  if 0 <=? n then (2 * n + d) / (2 * d) else - ((2 * (- n) + d) / (2 * d)).

(** The 48-bit word a pair of increment registers holds. *)
Definition word48 (lo hi : Z) : Z := (hi mod 2 ^ 16) * 2 ^ 32 + lo.

Section DdsWords.
Context {D : Type} {dbl : DoubleOps D}.

(** The statements the five increment setters share: the [int64_t]
    they split over the two registers. *)
Definition dds_bitfield (freq base : D) : Z :=
  let qrg := d_mul (d_of_Z (2 ^ 48)) (d_div freq base) in
  let qrg :=
    if d_gtb qrg d_zero then d_add qrg d_half
    else if d_ltb qrg d_zero then d_sub qrg (d_neg d_half)
    else qrg in
  to_int64 (d_trunc qrg).

(** The statements the two getters share: the frequency read back from
    the [int64_t] joined from the two registers. *)
Definition dds_frequency (bitfield : Z) (base : D) : D :=
  d_floor (d_add (d_mul base (d_div (d_of_Z bitfield) (d_of_Z (2 ^ 48)))) d_half).

Definition int64_of_registers (lo hi : Z) : Z := Z.lor lo (to_int64 (Z.shiftl hi 32)).
End DdsWords.

(** The 48-bit DDS increment of the specification, as a 48-bit word:
    [round (freq / base_osc_hz * 2^48)]. *)
Definition dds_increment_spec (freq base_osc_hz : Z) : Z :=
  round_half_away (freq * 2 ^ 48) base_osc_hz mod 2 ^ 48.

Section Observations.
Context {D : Type} {cal : Calib D}.

(** The word of a register after a command, if it ran to its end on a
    mapped register block. *)
Definition reg_after {A} (o : outcome A) (r : Reg.t) : option Z :=
  match o with
  | Ok _ s => option_map (fun m => m r) (g_fpga_rb_reg_mem s)
  | Fault => None
  end.

Definition result_of {A} (o : outcome A) : option A :=
  match o with
  | Ok a _ => Some a
  | Fault => None
  end.

Definition state_after {A} (o : outcome A) : option state :=
  match o with
  | Ok _ s => Some s
  | Fault => None
  end.
End Observations.

(** Sample instances of the parameters, used only where the code is run
    on concrete inputs. *)
Module Sample.
Import Floats.PrimFloat.

Record calib_record (D : Type) : Type := mkCalib {
  base : D;
  adc : Z -> Z
}.
Arguments mkCalib {D} base adc.
Arguments base {D} c.
Arguments adc {D} c channel.

(** A calibration record with an update of one ADC offset at a time and
    no gain compensation ([unit_gain] is the factor 1.0). *)
Definition calib_for {D : Type} (unit_gain : D) : Calib D := {|
  rp_calib_params_t := calib_record D;
  base_osc125mhz_realhz := base;
  calib_get_ADC_offset := fun c ch => adc c ch;
  calib_set_ADC_offset := fun c ch v =>
    mkCalib (base c) (fun ch' => if ch =? ch' then v else adc c ch');
  get_compensation_factor := fun _ _ => unit_gain
|}.

Definition calib : Calib float := calib_for (Binary64.of_Z 1).

Definition calib_real : Calib R := calib_for 1%R.

(** The scanner is idle in the runs of this file, [pow] is not called. *)
Definition libm_pow (x y : float) : float := Binary64.of_Z 1.

Definition ops : DoubleOps float := Binary64.ops libm_pow.

(** Distinct values for the enumerators of [main.h]. *)
Definition main_h : MainH := {|
  RB_MODSRC_NONE := 0;
  RB_MODSRC_RF_IN1 := 1;
  RB_MODSRC_RF_IN2 := 2;
  RB_MODSRC_EXP_AI0 := 4;
  RB_MODSRC_EXP_AI1 := 5;
  RB_MODSRC_EXP_AI2 := 6;
  RB_MODSRC_EXP_AI3 := 7;
  RB_MODSRC_AC97_LINEOUT_L := 8;
  RB_MODSRC_AC97_LINEOUT_R := 9;
  RB_MODSRC_MOD_OSC := 15;
  RB_TX_MODTYP_USB := 2;
  RB_TX_MODTYP_LSB := 3;
  RB_TX_MODTYP_AM := 4;
  RB_TX_MODTYP_FM := 7;
  RB_TX_MODTYP_PM := 8;
  RB_RX_MODTYP_USB := 2;
  RB_RX_MODTYP_LSB := 3;
  RB_RX_MODTYP_AMSYNC_USB := 4;
  RB_RX_MODTYP_AMSYNC_LSB := 5;
  RB_RX_MODTYP_FM := 7;
  RB_RX_MODTYP_PM := 8;
  RB_RX_MODTYP_AMENV := 9
|}.

(** The process right after start: statics at their initializers, the
    oscillator calibrated to 125 MHz, and the register pointer [mem]. *)
Definition start (mem : option regs) : @state float calib :=
  @mkState float calib mem (mkCalib (Binary64.of_Z 125000000) (fun _ => 0))
    (Binary64.of_Z 0) (Binary64.of_Z 0) 0 0 0 0 (fun _ _ => 0).

Definition zeroed : regs := fun _ => 0.

(** The same process with real numbers for the [double]s. *)
Definition start_real (mem : option regs) : @state R calib_real :=
  @mkState R calib_real mem (mkCalib 125000000%R (fun _ => 0))
    0%R 0%R 0 0 0 0 (fun _ _ => 0).

Definition libm_pow_real (x y : R) : R := 1%R.
End Sample.

(* ================================================================== *)
(** * Properties *)

(** ** housekeeping.c *)

(** C7: the housekeeping register map has 13 32-bit words, in the order
    the specification lists them, but only the first twelve lie inside
    the window of [HOUSEKEEPING_BASE_SIZE] = 0x30 bytes: [led_control]
    starts at byte 0x30, where the window ends, and the structure is
    0x34 bytes long. *)
Theorem housekeeping_led_control_outside_window :
  List.length Housekeeping.housekeeping_control_t = 13%nat
  /\ NoDup Housekeeping.housekeeping_control_t
  /\ Housekeeping.sizeof_housekeeping_control_t = 0x34
  /\ Housekeeping.offsetof Housekeeping.led_control = Housekeeping.HOUSEKEEPING_BASE_SIZE
  /\ Housekeeping.in_mapped_window Housekeeping.led_control = false
  /\ (forall m, m <> Housekeeping.led_control -> Housekeeping.in_mapped_window m = true)
  /\ (forall m, Housekeeping.offsetof m
                = 4 * Z.of_nat (Nat.pred (List.length Housekeeping.housekeeping_control_t))
                -> m = Housekeeping.led_control).
Proof.
  repeat split; try reflexivity.
  - repeat constructor; cbn; intuition discriminate.
  - intros m Hm; destruct m; try reflexivity; now elim Hm.
  - intros m; destruct m; cbn; intros E; try discriminate E; reflexivity.
Qed.

(** C10: [hk_SetLedBits] answers [RP_EMRO], leaving the registers alone,
    exactly when the mask is 0x1; for every other mask it hands the LED
    control word, the mask and [LED_CONTROL_MASK] to [cmn_SetBits] and
    returns its result (the accessor itself never answers [RP_EMRO]). *)
Theorem hk_SetLedBits_read_only_only_for_mask_1
    (RP_EMRO : Z) (cmn_SetBits : Z -> Z -> Z -> Z * Z)
    (Hcodes : forall word bits mask, fst (cmn_SetBits word bits mask) <> RP_EMRO)
    (bits : Z) (hk : Housekeeping.hk_mem) :
  (fst (Housekeeping.hk_SetLedBits RP_EMRO cmn_SetBits bits hk) = RP_EMRO <-> bits = 0x1)
  /\ (bits = 0x1 -> Housekeeping.hk_SetLedBits RP_EMRO cmn_SetBits bits hk = (RP_EMRO, hk))
  /\ (bits <> 0x1 ->
      Housekeeping.hk_SetLedBits RP_EMRO cmn_SetBits bits hk
      = (fst (cmn_SetBits (hk Housekeeping.led_control) bits Housekeeping.LED_CONTROL_MASK),
         Housekeeping.store Housekeeping.led_control
           (snd (cmn_SetBits (hk Housekeeping.led_control) bits Housekeeping.LED_CONTROL_MASK))
           hk)).
Proof.
  unfold Housekeeping.hk_SetLedBits.
  destruct (Z.eqb_spec bits 0x1) as [E | E].
  - repeat split; auto. intros; contradiction.
  - pose proof (Hcodes (hk Housekeeping.led_control) bits Housekeeping.LED_CONTROL_MASK) as Hc.
    destruct (cmn_SetBits (hk Housekeeping.led_control) bits Housekeeping.LED_CONTROL_MASK)
      as [rc word] eqn:Ecall.
    cbn in *. repeat split; auto; intros; contradiction.
Qed.

(** The mask 0x3 holds the bit of the first LED next to another one:
    with the sample accessor and [RP_EMRO] = 8 the call is not refused
    and sets both bits. *)
Lemma hk_SetLedBits_mask_3 :
  (fst (Housekeeping.hk_SetLedBits 8 Housekeeping.cmn_SetBits_sample 0x3 (fun _ => 0)) = 8
   <-> 0x3 = 0x1)
  /\ (0x3 = 0x1 ->
      Housekeeping.hk_SetLedBits 8 Housekeeping.cmn_SetBits_sample 0x3 (fun _ => 0)
      = (8, fun _ => 0))
  /\ (0x3 <> 0x1 ->
      Housekeeping.hk_SetLedBits 8 Housekeeping.cmn_SetBits_sample 0x3 (fun _ => 0)
      = (fst (Housekeeping.cmn_SetBits_sample 0 0x3 Housekeeping.LED_CONTROL_MASK),
         Housekeeping.store Housekeeping.led_control
           (snd (Housekeeping.cmn_SetBits_sample 0 0x3 Housekeeping.LED_CONTROL_MASK))
           (fun _ => 0))).
Proof.
  apply (hk_SetLedBits_read_only_only_for_mask_1 8 Housekeeping.cmn_SetBits_sample).
  intros word bits mask. unfold Housekeeping.cmn_SetBits_sample.
  destruct (negb (Z.land bits (Z.lnot mask) =? 0)); cbn; discriminate.
Defined.

Example hk_SetLedBits_mask_3_sets_the_first_led :
  let r := Housekeeping.hk_SetLedBits 8 Housekeeping.cmn_SetBits_sample 0x3 (fun _ => 0) in
  fst r = 0 /\ snd r Housekeeping.led_control = 0x3.
Proof. split; reflexivity. Qed.

(* ================================================================== *)
(** ** Running commands: registers, the null pointer, write sets *)

Lemma Reg_eqb_eq (a b : Reg.t) : Reg.eqb a b = true <-> a = b.
Proof.
  unfold Reg.eqb. rewrite Z.eqb_eq. split; [| now intros ->].
  destruct a, b; cbn; intros E; try discriminate E; reflexivity.
Qed.

Lemma upd_same (r : Reg.t) (v : Z) (m : regs) : upd r v m r = v.
Proof.
  unfold upd. destruct (Reg.eqb r r) eqn:E; [reflexivity |].
  assert (Reg.eqb r r = true) by now apply Reg_eqb_eq. congruence.
Qed.

Lemma upd_other (r r' : Reg.t) (v : Z) (m : regs) : r <> r' -> upd r v m r' = m r'.
Proof.
  intros N. unfold upd. destruct (Reg.eqb r r') eqn:E; [| reflexivity].
  apply Reg_eqb_eq in E. contradiction.
Qed.

Section Running.
Context {D : Type} {dbl : DoubleOps D} {cal : Calib D}.

Definition mapped (s : state) : Prop := exists m, g_fpga_rb_reg_mem s = Some m.

(** The operation checks the register pointer: on a null pointer it
    returns with the state as it was, no register was read or written. *)
Definition null_checked {A} (c : M A) : Prop :=
  forall s, g_fpga_rb_reg_mem s = None -> exists a, c s = Ok a s.

(** The command runs to its end from every state of [I] and ends in [I]. *)
Definition keeps (I : state -> Prop) {A} (c : M A) : Prop :=
  forall s, I s -> exists a s', c s = Ok a s' /\ I s'.

(** [I] holds on mapped register blocks only and survives a write to
    any register of [W]. *)
Record register_invariant (W : Reg.t -> bool) (I : state -> Prop) : Prop := {
  inv_mapped : forall s, I s -> mapped s;
  inv_write : forall s m r v,
    I s -> g_fpga_rb_reg_mem s = Some m -> W r = true ->
    I (with_regs (Some (upd r v m)) s)
}.

Lemma keeps_ret I {A} (a : A) : keeps I (ret a).
Proof. intros s H. exists a, s. split; [reflexivity | assumption]. Qed.

Lemma keeps_bind I {A B} (c : M A) (k : A -> M B) :
  keeps I c -> (forall a, keeps I (k a)) -> keeps I (bind c k).
Proof.
  intros Hc Hk s H. destruct (Hc s H) as (a & s1 & E1 & H1).
  destruct (Hk a s1 H1) as (b & s2 & E2 & H2).
  exists b, s2. split; [| assumption]. unfold bind. now rewrite E1.
Qed.

Lemma keeps_wr W I (r : Reg.t) (v : Z) :
  register_invariant W I -> W r = true -> keeps I (wr r v).
Proof.
  intros HI HW s H. destruct (inv_mapped _ _ HI s H) as [m Em].
  exists tt, (with_regs (Some (upd r (to_uint32 v) m)) s). split.
  - unfold wr. now rewrite Em.
  - now apply (inv_write _ _ HI).
Qed.

Lemma keeps_rd W I (r : Reg.t) : register_invariant W I -> keeps I (rd r).
Proof.
  intros HI s H. destruct (inv_mapped _ _ HI s H) as [m Em].
  exists (m r), s. split; [| assumption]. unfold rd. now rewrite Em.
Qed.

Lemma keeps_base_osc I : keeps I base_osc.
Proof. intros s H. eexists _, s. split; [reflexivity | assumption]. Qed.

Lemma keeps_adc_offset I (channel : Z) : keeps I (adc_offset channel).
Proof. intros s H. eexists _, s. split; [reflexivity | assumption]. Qed.

Lemma keeps_reg_mem_is_null I : keeps I reg_mem_is_null.
Proof. intros s H. eexists _, s. split; [reflexivity | assumption]. Qed.

Lemma keeps_nanosleep I : keeps I nanosleep.
Proof. apply keeps_ret. Qed.

Lemma keeps_rd_cordic_mag W I (iter : Z) : register_invariant W I -> keeps I (rd_cordic_mag iter).
Proof.
  intros HI s H. destruct (inv_mapped _ _ HI s H) as [m Em].
  eexists _, s. split; [| eassumption]. unfold rd_cordic_mag. now rewrite Em.
Qed.
End Running.

(** One step of a proof that a command keeps a register invariant [HI]
    whose write set holds the registers listed by [HW]. *)
Ltac keeps_step HI HW :=
  lazymatch goal with
  | |- keeps _ (bind _ _) => apply keeps_bind; [| intros ?]
  | |- keeps _ (ret _) => apply keeps_ret
  | |- keeps _ (wr _ _) =>
      apply (keeps_wr _ _ _ _ HI); first [reflexivity | apply HW; cbn; tauto]
  | |- keeps _ (rd _) => apply (keeps_rd _ _ _ HI)
  | |- keeps _ base_osc => apply keeps_base_osc
  | |- keeps _ (adc_offset _) => apply keeps_adc_offset
  | |- keeps _ reg_mem_is_null => apply keeps_reg_mem_is_null
  | |- keeps _ nanosleep => apply keeps_nanosleep
  | |- keeps _ (rd_cordic_mag _) => apply (keeps_rd_cordic_mag _ _ _ HI)
  | |- keeps _ (and_not _ _) => unfold and_not
  | |- keeps _ (or_with _ _) => unfold or_with
  | |- keeps _ (resync_tx_mod_osc _) => unfold resync_tx_mod_osc
  | |- keeps _ (if ?b then _ else _) => destruct b
  | |- keeps _ (match ?x with _ => _ end) => destruct x
  | |- keeps _ (let _ := _ in _) => cbv zeta
  end.

Ltac keeps_auto HI HW := repeat keeps_step HI HW.

Section WriteSets.
Context {D : Type} {dbl : DoubleOps D} {cal : Calib D} {hdr : MainH}.
Import Reg.

(** The state differs from [s1] in the register block only, and the
    registers of [X] hold what they hold in [m1]. *)
Definition frame (X : Reg.t -> bool) (s1 : state) (m1 : regs) (s : state) : Prop :=
  exists m, s = with_regs (Some m) s1 /\ forall r, X r = true -> m r = m1 r.

Lemma frame_invariant X s1 m1 :
  register_invariant (fun r => negb (X r)) (frame X s1 m1).
Proof.
  split.
  - intros s (m & -> & _). now exists m.
  - intros s m r v (m' & -> & Hm') Em HW. cbn in Em. injection Em as <-.
    exists (upd r v m'). split; [reflexivity |].
    intros r' Hr'. rewrite upd_other; [now apply Hm' |].
    intros <-. rewrite Hr' in HW. discriminate HW.
Qed.

Lemma frame_start X (s : state) (m : regs) : frame X s m (with_regs (Some m) s).
Proof. exists m. split; [reflexivity | auto]. Qed.

(** The registers [fpga_rb_set_ctrl] writes after the RF output gain
    settings, on either side of [if (rb_run)]. *)
Definition set_ctrl_writes : list Reg.t :=
  [ctrl; pwr_ctrl;
   tx_muxin_src; tx_muxin_gain; tx_muxin_ofs; tx_amp_rf_gain; tx_amp_rf_ofs;
   tx_mod_osc_inc_lo; tx_mod_osc_inc_hi; tx_mod_osc_ofs_lo; tx_mod_osc_ofs_hi;
   tx_mod_qmix_gain; tx_mod_qmix_ofs_lo; tx_mod_qmix_ofs_hi;
   tx_car_osc_inc_lo; tx_car_osc_inc_hi; tx_car_osc_ofs_lo; tx_car_osc_ofs_hi;
   tx_car_osc_inc_scnr_lo; tx_car_osc_inc_scnr_hi;
   rx_muxin_src; rx_muxin_gain; rx_muxin_ofs;
   rx_mod_osc_inc_lo; rx_mod_osc_inc_hi; rx_mod_osc_ofs_lo; rx_mod_osc_ofs_hi;
   rx_car_osc_inc_lo; rx_car_osc_inc_hi; rx_car_osc_ofs_lo; rx_car_osc_ofs_hi;
   rx_car_osc_inc_scnr_lo; rx_car_osc_inc_scnr_hi;
   rx_car_calc_weaver_inc_lo; rx_car_calc_weaver_inc_hi;
   rx_amenv_filtvar;
   rx_mod_ssb_am_gain; rx_mod_amenv_gain; rx_mod_fm_gain; rx_mod_pm_gain].

Variable W : Reg.t -> bool.
Variable I : state -> Prop.
Hypothesis HI : register_invariant W I.

Lemma set_ctrl_tx_modsrc_keeps tx_modsrc tx_muxin_gain tx_car_osc_qrg_inc tx_car_osc_qrg :
  (forall r, In r [ctrl; Reg.tx_muxin_gain; tx_muxin_ofs; tx_muxin_src;
                   tx_car_osc_inc_lo; tx_car_osc_inc_hi; tx_car_osc_ofs_lo; tx_car_osc_ofs_hi;
                   tx_car_osc_inc_scnr_lo; tx_car_osc_inc_scnr_hi;
                   tx_mod_qmix_gain; tx_mod_qmix_ofs_lo; tx_mod_qmix_ofs_hi] -> W r = true) ->
  keeps I (set_ctrl_tx_modsrc tx_modsrc tx_muxin_gain tx_car_osc_qrg_inc tx_car_osc_qrg).
Proof.
  intros HW.
  unfold set_ctrl_tx_modsrc, fpga_rb_set_tx_muxin_gain, or_with, and_not, resync_tx_mod_osc,
    fpga_rb_set_tx_car_osc_qrg__4mod_cw_ssb_am_pm,
    fpga_rb_set_tx_car_osc_qrg_inc__4mod_cw_ssb_am_pm,
    fpga_rb_set_tx_mod_qmix_gain_ofs__4mod_cw_ssbweaver_am.
  keeps_auto HI HW.
Qed.

Lemma set_ctrl_tx_modtyp_keeps tx_modsrc tx_modtyp tx_car_osc_qrg_inc tx_amp_rf_gain
    tx_mod_osc_mag tx_car_osc_qrg tx_mod_osc_qrg :
  (forall r, In r [ctrl; Reg.tx_amp_rf_gain; tx_amp_rf_ofs;
                   tx_car_osc_inc_lo; tx_car_osc_inc_hi; tx_car_osc_ofs_lo; tx_car_osc_ofs_hi;
                   tx_car_osc_inc_scnr_lo; tx_car_osc_inc_scnr_hi;
                   tx_mod_osc_inc_lo; tx_mod_osc_inc_hi; tx_mod_osc_ofs_lo; tx_mod_osc_ofs_hi;
                   tx_mod_qmix_gain; tx_mod_qmix_ofs_lo; tx_mod_qmix_ofs_hi] -> W r = true) ->
  keeps I (set_ctrl_tx_modtyp tx_modsrc tx_modtyp tx_car_osc_qrg_inc tx_amp_rf_gain
             tx_mod_osc_mag tx_car_osc_qrg tx_mod_osc_qrg).
Proof.
  intros HW.
  unfold set_ctrl_tx_modtyp, set_ctrl_tx_mod_osc, set_tx_car_osc_qrg_unless_scanning,
    or_with, and_not, resync_tx_mod_osc,
    fpga_rb_set_tx_amp_rf_gain_ofs__4mod_all,
    fpga_rb_set_tx_car_osc_qrg__4mod_cw_ssb_am_pm,
    fpga_rb_set_tx_car_osc_qrg_inc__4mod_cw_ssb_am_pm,
    fpga_rb_set_tx_mod_osc_qrg__4mod_ssbweaver_am_fm_pm,
    fpga_rb_set_tx_mod_qmix_gain_ofs__4mod_cw_ssbweaver_am,
    fpga_rb_set_tx_mod_qmix_gain_ofs__4mod_fm,
    fpga_rb_set_tx_mod_qmix_gain_ofs__4mod_pm.
  keeps_auto HI HW.
Qed.

Lemma set_ctrl_rx_muxin_keeps rx_muxin_src rx_muxin_gain :
  (forall r, In r [ctrl; Reg.rx_muxin_gain; rx_muxin_ofs; Reg.rx_muxin_src] -> W r = true) ->
  keeps I (set_ctrl_rx_muxin rx_muxin_src rx_muxin_gain).
Proof.
  intros HW.
  unfold set_ctrl_rx_muxin, fpga_rb_set_rx_muxin_gain, or_with.
  keeps_auto HI HW.
Qed.

Lemma set_ctrl_rx_modtyp_keeps rx_modtyp rx_car_osc_qrg_inc rx_car_osc_qrg :
  (forall r, In r [ctrl;
                   rx_car_osc_inc_lo; rx_car_osc_inc_hi; rx_car_osc_ofs_lo; rx_car_osc_ofs_hi;
                   rx_car_osc_inc_scnr_lo; rx_car_osc_inc_scnr_hi;
                   rx_mod_osc_inc_lo; rx_mod_osc_inc_hi; rx_mod_osc_ofs_lo; rx_mod_osc_ofs_hi;
                   rx_car_calc_weaver_inc_lo; rx_car_calc_weaver_inc_hi;
                   Reg.rx_amenv_filtvar] -> W r = true) ->
  keeps I (set_ctrl_rx_modtyp rx_modtyp rx_car_osc_qrg_inc rx_car_osc_qrg).
Proof.
  intros HW.
  unfold set_ctrl_rx_modtyp, set_rx_car_osc_qrg_unless_scanning, or_with, and_not,
    fpga_rb_set_rx_car_osc_qrg__4mod_ssb_am_fm_pm,
    fpga_rb_set_rx_car_osc_qrg_inc__4mod_ssb_am_fm_pm,
    fpga_rb_set_rx_mod_osc_qrg__4mod_ssbweaver_am,
    fpga_rb_set_rx_calc_afc_weaver__4mod_am_fm_pm,
    fpga_rb_set_rx_amenv_filtvar.
  keeps_auto HI HW.
Qed.

Lemma set_ctrl_on_keeps tx_modsrc tx_modtyp rx_modtyp rx_muxin_src
    tx_car_osc_qrg rx_car_osc_qrg tx_mod_osc_qrg
    tx_muxin_gain rx_muxin_gain tx_car_osc_qrg_inc rx_car_osc_qrg_inc
    tx_amp_rf_gain tx_mod_osc_mag :
  (forall r, In r set_ctrl_writes -> W r = true) ->
  keeps I (set_ctrl_on tx_modsrc tx_modtyp rx_modtyp rx_muxin_src
             tx_car_osc_qrg rx_car_osc_qrg tx_mod_osc_qrg
             tx_muxin_gain rx_muxin_gain tx_car_osc_qrg_inc rx_car_osc_qrg_inc
             tx_amp_rf_gain tx_mod_osc_mag).
Proof.
  intros HW. unfold set_ctrl_on.
  repeat lazymatch goal with
         | |- keeps _ (bind _ _) => apply keeps_bind; [| intros ?]
         end.
  - unfold fpga_rb_set_rx_mod_ssb_am_gain__4mod_ssb_am. keeps_auto HI HW.
  - unfold fpga_rb_set_rx_mod_amenv_gain__4mod_amenv. keeps_auto HI HW.
  - unfold fpga_rb_set_rx_mod_fm_gain__4mod_fm. keeps_auto HI HW.
  - unfold fpga_rb_set_rx_mod_pm_gain__4mod_pm. keeps_auto HI HW.
  - apply set_ctrl_tx_modsrc_keeps. intros r Hr. apply HW. cbn in *. tauto.
  - destruct (negb (tx_modsrc =? RB_MODSRC_NONE)); [| apply keeps_ret].
    lazymatch goal with
    | |- keeps _ (bind _ _) => apply keeps_bind; [| intros ?]
    end.
    + unfold fpga_rb_set_tx_modtyp. keeps_auto HI HW.
    + apply set_ctrl_tx_modtyp_keeps. intros r Hr. apply HW. cbn in *. tauto.
  - apply set_ctrl_rx_muxin_keeps. intros r Hr. apply HW. cbn in *. tauto.
  - unfold fpga_rb_set_rx_modtyp. keeps_auto HI HW.
  - apply set_ctrl_rx_modtyp_keeps. intros r Hr. apply HW. cbn in *. tauto.
Qed.

Lemma set_ctrl_off_keeps :
  (forall r, In r set_ctrl_writes -> W r = true) -> keeps I set_ctrl_off.
Proof.
  intros HW.
  unfold set_ctrl_off, and_not,
    fpga_rb_set_tx_amp_rf_gain_ofs__4mod_all,
    fpga_rb_set_tx_car_osc_qrg_inc__4mod_cw_ssb_am_pm,
    fpga_rb_set_tx_mod_osc_qrg__4mod_ssbweaver_am_fm_pm,
    fpga_rb_set_tx_mod_qmix_gain_ofs__4mod_fm,
    fpga_rb_set_rx_car_osc_qrg_inc__4mod_ssb_am_fm_pm,
    fpga_rb_set_rx_calc_afc_weaver__4mod_am_fm_pm,
    fpga_rb_set_rx_mod_osc_qrg__4mod_ssbweaver_am.
  keeps_auto HI HW.
Qed.
End WriteSets.

(* ================================================================== *)
(** ** The change test of [fpga_rb_set_ctrl] *)
Section ChangeGate.
Context {D : Type} {dbl : DoubleOps D} {cal : Calib D} {hdr : MainH}.

(** The registers written by the RF output gain settings. *)
Definition rfout_registers : list Reg.t :=
  [Reg.rfout1_gain; Reg.rfout1_ofs; Reg.rfout2_gain; Reg.rfout2_ofs;
   Reg.src_con_pnt; Reg.src_con_pnt2].

Definition is_rfout_register (r : Reg.t) : bool := existsb (Reg.eqb r) rfout_registers.

Lemma set_ctrl_rfout_run src_con_pnt src_con_pnt2 term_rfout1 term_rfout2
    (tx_car_osc_qrg rx_car_osc_qrg : D) (s : state) (m : regs) :
  exists m1,
    set_ctrl_rfout src_con_pnt src_con_pnt2 term_rfout1 term_rfout2
      tx_car_osc_qrg rx_car_osc_qrg (with_regs (Some m) s)
    = Ok tt
        (if rfout_changed s src_con_pnt src_con_pnt2 term_rfout1 term_rfout2
              tx_car_osc_qrg rx_car_osc_qrg
         then with_regs (Some m1)
                (with_rfout_cache tx_car_osc_qrg rx_car_osc_qrg
                   (to_uint32 src_con_pnt) term_rfout1 term_rfout2 s)
         else with_regs (Some m) s).
Proof.
  unfold set_ctrl_rfout, bind, get_state.
  change (rfout_changed (with_regs (Some m) s) src_con_pnt src_con_pnt2 term_rfout1
            term_rfout2 tx_car_osc_qrg rx_car_osc_qrg)
    with (rfout_changed s src_con_pnt src_con_pnt2 term_rfout1
            term_rfout2 tx_car_osc_qrg rx_car_osc_qrg).
  destruct (rfout_changed s src_con_pnt src_con_pnt2 term_rfout1 term_rfout2
              tx_car_osc_qrg rx_car_osc_qrg).
  - unfold put_state, fpga_rb_set_rfout1_gain_ofs, fpga_rb_set_rfout2_gain_ofs, bind, wr.
    cbn. eexists. reflexivity.
  - exists m. reflexivity.
Qed.

(** C6: what a call of [fpga_rb_set_ctrl] does to the statics and to
    the registers of the RF output gain settings, on a mapped register
    block.  When the change test is negative (the six parameters equal
    the statics) the six registers and the six statics stay as they
    are.  When it is positive, five statics take the current
    parameters; [src_con_pnt2_old] is never assigned and keeps its
    value, whatever [src_con_pnt2] is. *)
Theorem set_ctrl_rfout_change_gate
    (rb_run tx_modsrc tx_modtyp rx_modtyp src_con_pnt src_con_pnt2 rx_muxin_src : Z)
    (tx_car_osc_qrg rx_car_osc_qrg tx_mod_osc_qrg : D)
    (tx_muxin_gain rx_muxin_gain tx_qrg_sel rx_qrg_sel
     tx_amp_rf_gain tx_mod_osc_mag term_rfout1 term_rfout2 qrg_inc : Z)
    (s : state) (m : regs) :
  exists s' m',
    fpga_rb_set_ctrl rb_run tx_modsrc tx_modtyp rx_modtyp src_con_pnt src_con_pnt2
      rx_muxin_src tx_car_osc_qrg rx_car_osc_qrg tx_mod_osc_qrg tx_muxin_gain rx_muxin_gain
      tx_qrg_sel rx_qrg_sel tx_amp_rf_gain tx_mod_osc_mag term_rfout1 term_rfout2 qrg_inc
      (with_regs (Some m) s) = Ok tt s'
    /\ g_fpga_rb_reg_mem s' = Some m'
    /\ src_con_pnt2_old s' = src_con_pnt2_old s
    /\ (if rfout_changed s src_con_pnt src_con_pnt2 term_rfout1 term_rfout2
             tx_car_osc_qrg rx_car_osc_qrg
        then tx_car_osc_qrg_old s' = tx_car_osc_qrg
             /\ rx_car_osc_qrg_old s' = rx_car_osc_qrg
             /\ src_con_pnt_old s' = to_uint32 src_con_pnt
             /\ term_rfout1_old s' = term_rfout1
             /\ term_rfout2_old s' = term_rfout2
        else tx_car_osc_qrg_old s' = tx_car_osc_qrg_old s
             /\ rx_car_osc_qrg_old s' = rx_car_osc_qrg_old s
             /\ src_con_pnt_old s' = src_con_pnt_old s
             /\ term_rfout1_old s' = term_rfout1_old s
             /\ term_rfout2_old s' = term_rfout2_old s
             /\ forall r, In r rfout_registers -> m' r = m r).
Proof.
  unfold fpga_rb_set_ctrl. cbv zeta. unfold bind at 1.
  destruct (set_ctrl_rfout_run src_con_pnt src_con_pnt2 term_rfout1 term_rfout2
              tx_car_osc_qrg rx_car_osc_qrg s m) as (m1 & ->).
  destruct (rfout_changed s src_con_pnt src_con_pnt2 term_rfout1 term_rfout2
              tx_car_osc_qrg rx_car_osc_qrg).
  - set (s1 := with_rfout_cache tx_car_osc_qrg rx_car_osc_qrg
                 (to_uint32 src_con_pnt) term_rfout1 term_rfout2 s).
    assert (HW : forall r, In r set_ctrl_writes -> negb ((fun _ : Reg.t => false) r) = true)
      by reflexivity.
    assert (K : exists (a : unit) s',
               (if nonzero rb_run
                then set_ctrl_on tx_modsrc tx_modtyp rx_modtyp rx_muxin_src
                       tx_car_osc_qrg rx_car_osc_qrg tx_mod_osc_qrg tx_muxin_gain rx_muxin_gain
                       (if nonzero tx_qrg_sel then qrg_inc else 50)
                       (if nonzero rx_qrg_sel then qrg_inc else 50)
                       tx_amp_rf_gain tx_mod_osc_mag
                else set_ctrl_off) (with_regs (Some m1) s1) = Ok a s'
               /\ frame (fun _ => false) s1 m1 s').
    { destruct (nonzero rb_run).
      - apply (set_ctrl_on_keeps _ _ (frame_invariant _ s1 m1)); [exact HW | apply frame_start].
      - apply (set_ctrl_off_keeps _ _ (frame_invariant _ s1 m1)); [exact HW | apply frame_start]. }
    destruct K as ([] & s' & E & m' & -> & _).
    exists (with_regs (Some m') s1), m'. split; [exact E |]. cbn. auto 10.
  - assert (HW : forall r, In r set_ctrl_writes -> negb (is_rfout_register r) = true).
    { intros r Hr. cbn in Hr.
      repeat (destruct Hr as [<- | Hr]; [reflexivity |]). contradiction. }
    assert (K : exists (a : unit) s',
               (if nonzero rb_run
                then set_ctrl_on tx_modsrc tx_modtyp rx_modtyp rx_muxin_src
                       tx_car_osc_qrg rx_car_osc_qrg tx_mod_osc_qrg tx_muxin_gain rx_muxin_gain
                       (if nonzero tx_qrg_sel then qrg_inc else 50)
                       (if nonzero rx_qrg_sel then qrg_inc else 50)
                       tx_amp_rf_gain tx_mod_osc_mag
                else set_ctrl_off) (with_regs (Some m) s) = Ok a s'
               /\ frame is_rfout_register s m s').
    { destruct (nonzero rb_run).
      - apply (set_ctrl_on_keeps _ _ (frame_invariant _ s m)); [exact HW | apply frame_start].
      - apply (set_ctrl_off_keeps _ _ (frame_invariant _ s m)); [exact HW | apply frame_start]. }
    destruct K as ([] & s' & E & m' & -> & Hm').
    exists (with_regs (Some m') s), m'. split; [exact E |]. cbn.
    repeat split; try reflexivity.
    intros r Hr. apply Hm'. cbn in Hr.
    repeat (destruct Hr as [<- | Hr]; [reflexivity |]). contradiction.
Qed.
End ChangeGate.

(* ================================================================== *)
(** ** The null register pointer and the failure codes *)

(** [fpga_get_version] as a function of the register pointer. *)
Definition has_non_decimal_digit (version : Z) : bool :=
  existsb (fun pos => 0x9 <? Z.land (Z.shiftr version pos) 0xf) [28; 24; 20; 16; 12; 8; 4; 0].

Definition version_answer (mem : option regs) : Z :=
  match mem with
  | None => 2 ^ 32 - 1
  | Some m =>
      let version := m Reg.version in
      if (version <? 0x12010101) || (0x29123299 <? version) then 2 ^ 32 - 2
      else if has_non_decimal_digit version then 2 ^ 32 - 3
      else version
  end.

Section EntryPoints.
Context {D : Type} {dbl : DoubleOps D} {cal : Calib D} {hdr : MainH}.

Lemma fpga_get_version_loop_answer (version : Z) :
  fpga_get_version_loop 9 28 version
  = if has_non_decimal_digit version then 2 ^ 32 - 3 else version.
Proof.
  unfold has_non_decimal_digit, existsb, fpga_get_version_loop.
  change (to_uint32 (-3)) with (2 ^ 32 - 3).
  change (0 <=? 28) with true. change (0 <=? 28 - 4) with true.
  change (0 <=? 28 - 4 - 4) with true. change (0 <=? 28 - 4 - 4 - 4) with true.
  change (0 <=? 28 - 4 - 4 - 4 - 4) with true.
  change (0 <=? 28 - 4 - 4 - 4 - 4 - 4) with true.
  change (0 <=? 28 - 4 - 4 - 4 - 4 - 4 - 4) with true.
  change (0 <=? 28 - 4 - 4 - 4 - 4 - 4 - 4 - 4) with true.
  change (0 <=? 28 - 4 - 4 - 4 - 4 - 4 - 4 - 4 - 4) with false.
  change (28 - 4 - 4 - 4 - 4 - 4 - 4 - 4) with 0.
  change (28 - 4 - 4 - 4 - 4 - 4 - 4) with 4.
  change (28 - 4 - 4 - 4 - 4 - 4) with 8.
  change (28 - 4 - 4 - 4 - 4) with 12.
  change (28 - 4 - 4 - 4) with 16.
  change (28 - 4 - 4) with 20.
  change (28 - 4) with 24.
  repeat match goal with
         | |- context [0x9 <? ?x] => destruct (0x9 <? x); cbn [orb]; try reflexivity
         end.
Qed.

Lemma fpga_get_version_run (s : state) :
  fpga_get_version s = Ok (version_answer (g_fpga_rb_reg_mem s)) s.
Proof.
  unfold fpga_get_version, bind, reg_mem_is_null, rd, ret, version_answer.
  destruct (g_fpga_rb_reg_mem s) as [m |] eqn:Em; [| reflexivity].
  cbv beta iota zeta. rewrite Em.
  destruct ((m Reg.version <? 0x12010101) || (0x29123299 <? m Reg.version));
    [reflexivity |].
  now rewrite fpga_get_version_loop_answer.
Qed.

(** C4, as the code has it: the register pointer is checked by the
    entry points [fpga_rb_enable], [fpga_rb_reset], [fpga_get_version]
    and [fpga_rb_update_all_params]; on a null pointer they return
    without an access to the register block. *)
Theorem null_pointer_checked_by_entry_points :
  (forall enable, null_checked (fpga_rb_enable enable))
  /\ null_checked fpga_rb_reset
  /\ null_checked fpga_get_version
  /\ (forall pb p_pn, null_checked (fpga_rb_update_all_params pb p_pn)).
Proof.
  repeat split.
  - intros enable s Hs. exists tt.
    unfold fpga_rb_enable, bind, reg_mem_is_null. now rewrite Hs.
  - intros s Hs. exists tt.
    unfold fpga_rb_reset, bind, reg_mem_is_null. now rewrite Hs.
  - intros s Hs. eexists. apply fpga_get_version_run.
  - intros pb p_pn s Hs. exists (-1, p_pn).
    unfold fpga_rb_update_all_params, bind, reg_mem_is_null. rewrite Hs.
    destruct pb, p_pn; reflexivity.
Qed.

(** The result code of [fpga_rb_update_all_params] on its null checks. *)
Lemma fpga_rb_update_all_params_null_codes pb p_pn (s : state) :
  match g_fpga_rb_reg_mem s, pb, p_pn with
  | Some _, Some _, Some (Some _) => True
  | Some _, Some _, Some None =>
      fpga_rb_update_all_params pb p_pn s = Ok (-2, p_pn) s
  | _, _, _ => fpga_rb_update_all_params pb p_pn s = Ok (-1, p_pn) s
  end.
Proof.
  unfold fpga_rb_update_all_params, bind, reg_mem_is_null.
  destruct (g_fpga_rb_reg_mem s), pb as [pb |], p_pn as [[pn |] |]; auto.
Qed.
End EntryPoints.

(** C4, as the claim states it, fails: the setters and the calibration
    helpers dereference the register pointer without a check.  On a null
    pointer [fpga_rb_set_tx_muxin_gain], [prepare_rx_measurement] and
    [fpga_rb_set_ctrl] run into the dereference. *)
Lemma setters_dereference_the_null_pointer :
  ~ @null_checked PrimFloat.float Sample.calib unit
      (@fpga_rb_set_tx_muxin_gain PrimFloat.float Sample.ops Sample.calib 50 0)
  /\ ~ @null_checked PrimFloat.float Sample.calib unit
         (@prepare_rx_measurement PrimFloat.float Sample.calib 0x20)
  /\ ~ @null_checked PrimFloat.float Sample.calib unit
         (@fpga_rb_set_ctrl PrimFloat.float Sample.ops Sample.calib Sample.main_h
            1 0 0 0 0 0 0 (Binary64.of_Z 7000000) (Binary64.of_Z 7000000) (Binary64.of_Z 1000)
            80 80 0 0 200 100 0 0 50).
Proof.
  repeat split; intros H;
    destruct (H (Sample.start None) eq_refl) as [a E]; vm_compute in E; discriminate E.
Qed.

(* ================================================================== *)
(** ** Conversions in binary64 arithmetic *)

Lemma Z_range_forallb (f : Z -> bool) (lo : Z) (n : nat) :
  forallb f (map (fun k => lo + Z.of_nat k) (seq 0 n)) = true ->
  forall g, lo <= g < lo + Z.of_nat n -> f g = true.
Proof.
  intros H g Hg. rewrite forallb_forall in H. apply H.
  apply in_map_iff. exists (Z.to_nat (g - lo)). split; [lia |].
  apply in_seq. lia.
Qed.

Section Binary64Conversions.
Variable libm_pow : PrimFloat.float -> PrimFloat.float -> PrimFloat.float.
Context {cal : Calib PrimFloat.float}.

Local Instance binary64 : DoubleOps PrimFloat.float := Binary64.ops libm_pow.

Definition tx_muxin_gain_after (g ofs : Z) (s : state) (m : regs) : option Z :=
  reg_after (fpga_rb_set_tx_muxin_gain g ofs (with_regs (Some m) s)) Reg.tx_muxin_gain.

Definition rx_muxin_gain_after (g ofs : Z) (s : state) (m : regs) : option Z :=
  reg_after (fpga_rb_set_rx_muxin_gain g ofs (with_regs (Some m) s)) Reg.rx_muxin_gain.

(** The gain word the specification describes for a percentage [g]
    between 1 and 100, with [k/20] the slope of the booster. *)
Definition muxin_gain_spec (k g : Z) : Z :=
  if g <=? 80 then round_half_away (g * 0xffff) 80
  else Z.lor (Z.shiftl (round_half_away ((g - 80) * k) 20) 16) 0xffff.

Lemma muxin_gain_words (g ofs : Z) (s : state) (m : regs) :
  1 <= g <= 100 ->
  tx_muxin_gain_after g ofs s m = Some (muxin_gain_spec 7 g)
  /\ rx_muxin_gain_after g ofs s m = Some (muxin_gain_spec 5 g).
Proof.
  intros Hg.
  pose (check := fun g =>
    match tx_muxin_gain_after g ofs s m, rx_muxin_gain_after g ofs s m with
    | Some t, Some r => (t =? muxin_gain_spec 7 g) && (r =? muxin_gain_spec 5 g)
    | _, _ => false
    end).
  assert (Hall : forallb check (map (fun k => 1 + Z.of_nat k) (seq 0 100)) = true)
    by (vm_compute; reflexivity).
  assert (Hc : check g = true) by (apply (Z_range_forallb _ _ _ Hall); lia).
  clear Hall. unfold check in Hc.
  destruct (tx_muxin_gain_after g ofs s m) as [t |]; [| discriminate Hc].
  destruct (rx_muxin_gain_after g ofs s m) as [r |]; [| discriminate Hc].
  apply andb_true_iff in Hc. destruct Hc as [Ht Hr].
  apply Z.eqb_eq in Ht, Hr. subst t r. split; reflexivity.
Qed.

Lemma muxin_gain_clamped (g ofs : Z) (s : state) (m : regs) :
  100 < g ->
  tx_muxin_gain_after g ofs s m = tx_muxin_gain_after 100 ofs s m
  /\ rx_muxin_gain_after g ofs s m = rx_muxin_gain_after 100 ofs s m.
Proof.
  intros Hg. unfold tx_muxin_gain_after, rx_muxin_gain_after,
    fpga_rb_set_tx_muxin_gain, fpga_rb_set_rx_muxin_gain.
  replace (100 <? g) with true by (symmetry; apply Z.ltb_lt; lia).
  split; reflexivity.
Qed.

(** C3, as the code has it.  For a gain of 1 to 80 percent the gain
    word is [round (g * 0xffff / 80)], no booster bit set.  Above 80
    and up to 100 percent the low 16 bits are 0xffff and the booster
    field is [round ((g - 80) * 7/20)] for TX, [round ((g - 80) * 5/20)]
    for RX.  A gain above 100 is taken as 100. *)
Theorem muxin_gain_conversion (g ofs : Z) (s : state) (m : regs) :
  0 < g ->
  let g' := Z.min g 100 in
  exists t r,
    tx_muxin_gain_after g ofs s m = Some t
    /\ rx_muxin_gain_after g ofs s m = Some r
    /\ (g <= 80 ->
        t = round_half_away (g * 0xffff) 80 /\ r = round_half_away (g * 0xffff) 80
        /\ Z.shiftr t 16 = 0 /\ Z.shiftr r 16 = 0)
    /\ (80 < g ->
        Z.land t 0xffff = 0xffff /\ Z.shiftr t 16 = round_half_away ((g' - 80) * 7) 20
        /\ Z.land r 0xffff = 0xffff /\ Z.shiftr r 16 = round_half_away ((g' - 80) * 5) 20).
Proof.
  intros Hg g'.
  assert (Hg' : 1 <= g' <= 100) by (unfold g'; lia).
  destruct (muxin_gain_words g' ofs s m Hg') as [Ht Hr].
  assert (E : tx_muxin_gain_after g ofs s m = tx_muxin_gain_after g' ofs s m
              /\ rx_muxin_gain_after g ofs s m = rx_muxin_gain_after g' ofs s m).
  { destruct (Z_lt_le_dec 100 g) as [Hlt | Hle].
    - replace g' with 100 by (unfold g'; lia). now apply muxin_gain_clamped.
    - replace g' with g by (unfold g'; lia). split; reflexivity. }
  destruct E as [-> ->].
  exists (muxin_gain_spec 7 g'), (muxin_gain_spec 5 g').
  split; [exact Ht |]. split; [exact Hr |].
  pose (shape := fun g =>
    if g <=? 80
    then (Z.shiftr (muxin_gain_spec 7 g) 16 =? 0) && (Z.shiftr (muxin_gain_spec 5 g) 16 =? 0)
    else (Z.land (muxin_gain_spec 7 g) 0xffff =? 0xffff)
         && (Z.shiftr (muxin_gain_spec 7 g) 16 =? round_half_away ((g - 80) * 7) 20)
         && (Z.land (muxin_gain_spec 5 g) 0xffff =? 0xffff)
         && (Z.shiftr (muxin_gain_spec 5 g) 16 =? round_half_away ((g - 80) * 5) 20)).
  assert (Hall : forallb shape (map (fun k => 1 + Z.of_nat k) (seq 0 100)) = true)
    by (vm_compute; reflexivity).
  assert (Hs : shape g' = true) by (apply (Z_range_forallb _ _ _ Hall); lia).
  clear Hall. unfold shape in Hs. split.
  - intros Hle. assert (g' = g) as Eg by (unfold g'; lia). rewrite Eg in *.
    replace (g <=? 80) with true in Hs by (symmetry; apply Z.leb_le; lia).
    apply andb_true_iff in Hs. destruct Hs as [H1 H2]. apply Z.eqb_eq in H1, H2.
    unfold muxin_gain_spec in *.
    replace (g <=? 80) with true in * by (symmetry; apply Z.leb_le; lia).
    auto.
  - intros Hlt.
    replace (g' <=? 80) with false in Hs by (symmetry; apply Z.leb_gt; unfold g'; lia).
    repeat (apply andb_true_iff in Hs; destruct Hs as [Hs ?]).
    repeat match goal with H : (_ =? _) = true |- _ => apply Z.eqb_eq in H end.
    auto.
Qed.
End Binary64Conversions.

(** C3 at 90 percent: the booster regime, with the half of 3.5 rounded up. *)
Lemma muxin_gain_conversion_at_90 :
  0 < 90
  /\ exists t r,
       tx_muxin_gain_after Sample.libm_pow 90 0 (Sample.start None) Sample.zeroed = Some t
       /\ rx_muxin_gain_after Sample.libm_pow 90 0 (Sample.start None) Sample.zeroed = Some r
       /\ Z.land t 0xffff = 0xffff /\ Z.shiftr t 16 = 4
       /\ Z.land r 0xffff = 0xffff /\ Z.shiftr r 16 = 3.
Proof.
  split; [lia |].
  destruct (muxin_gain_conversion Sample.libm_pow 90 0 (Sample.start None) Sample.zeroed)
    as (t & r & Ht & Hr & _ & H); [lia |].
  exists t, r. destruct H as (H1 & H2 & H3 & H4); [lia |].
  repeat split; assumption.
Defined.

(** C3, as the claim states it, fails above 100 percent: at 102 the
    claim asks for the booster fields [round (22 * 7/20)] = 8 and
    [round (22 * 5/20)] = 6, the code writes 7 and 5. *)
Lemma muxin_gain_above_100_is_clamped :
  option_map (fun t => Z.shiftr t 16)
    (tx_muxin_gain_after Sample.libm_pow 102 0 (Sample.start None) Sample.zeroed) = Some 7
  /\ round_half_away ((102 - 80) * 7) 20 = 8
  /\ option_map (fun r => Z.shiftr r 16)
       (rx_muxin_gain_after Sample.libm_pow 102 0 (Sample.start None) Sample.zeroed) = Some 5
  /\ round_half_away ((102 - 80) * 5) 20 = 6.
Proof. repeat split; vm_compute; reflexivity. Qed.


(** C4 and C5 on a mapped register block: the commands run to their end. *)
Section NoFault.
Context {D : Type} {dbl : DoubleOps D} {cal : Calib D} {hdr : MainH}.

Lemma mapped_invariant : register_invariant (fun _ => true) mapped.
Proof.
  split; [auto |]. intros s m r v _ _ _. now eexists.
Qed.

Lemma with_regs_same (s : state) (m : regs) :
  g_fpga_rb_reg_mem s = Some m -> with_regs (Some m) s = s.
Proof. destruct s; cbn; now intros ->. Qed.

Lemma fpga_rb_enable_mapped enable : keeps mapped (fpga_rb_enable enable).
Proof. unfold fpga_rb_enable. keeps_auto mapped_invariant I. Qed.

Lemma set_ADC_offset_mapped channel v : keeps mapped (set_ADC_offset channel v).
Proof. intros s [m Hm]. eexists tt, _. split; [reflexivity |]. now exists m. Qed.

Lemma test_rx_measurement_mapped adc_offset_val reduction :
  keeps mapped (test_rx_measurement adc_offset_val reduction).
Proof.
  unfold test_rx_measurement. cbn [test_rx_measurement_loop]. keeps_auto mapped_invariant I.
Qed.

Lemma rp_minimize_noise_loop_mapped i min_ofs_value :
  keeps mapped (rp_minimize_noise_loop i min_ofs_value).
Proof.
  revert min_ofs_value. induction i as [| i IH]; intros min_ofs_value.
  - apply keeps_ret.
  - cbn [rp_minimize_noise_loop]. cbv zeta.
    lazymatch goal with
    | |- keeps _ (bind _ _) => apply keeps_bind; [apply test_rx_measurement_mapped | intros lo]
    end.
    lazymatch goal with
    | |- keeps _ (bind _ _) => apply keeps_bind; [apply test_rx_measurement_mapped | intros hi]
    end.
    apply IH.
Qed.

Lemma rp_minimize_noise_mapped : keeps mapped rp_minimize_noise.
Proof.
  unfold rp_minimize_noise.
  repeat lazymatch goal with
         | |- keeps _ (bind _ _) => apply keeps_bind; [| intros ?]
         | |- keeps _ (rp_minimize_noise_loop _ _) => apply rp_minimize_noise_loop_mapped
         | |- keeps _ (test_rx_measurement _ _) => apply test_rx_measurement_mapped
         | |- keeps _ (ret _) => apply keeps_ret
         | |- keeps _ (let _ := _ in _) => cbv zeta
         end.
Qed.

Lemma prepare_rx_measurement_mapped inputLine : keeps mapped (prepare_rx_measurement inputLine).
Proof. unfold prepare_rx_measurement. keeps_auto mapped_invariant I. Qed.

Lemma rp_measure_calib_params_mapped : keeps mapped rp_measure_calib_params.
Proof.
  unfold rp_measure_calib_params.
  repeat lazymatch goal with
         | |- keeps _ (bind _ _) => apply keeps_bind; [| intros ?]
         | |- keeps _ (prepare_rx_measurement _) => apply prepare_rx_measurement_mapped
         | |- keeps _ rp_minimize_noise => apply rp_minimize_noise_mapped
         | |- keeps _ (set_ADC_offset _ _) => apply set_ADC_offset_mapped
         | |- keeps _ finish_rx_measurement => unfold finish_rx_measurement
         | |- keeps _ (wr _ _) => apply (keeps_wr _ _ _ _ mapped_invariant); reflexivity
         end.
Qed.

Lemma fpga_rb_calib_mapped calib enabled : keeps mapped (fpga_rb_calib calib enabled).
Proof.
  unfold fpga_rb_calib.
  lazymatch goal with
  | |- keeps _ (bind _ _) => apply keeps_bind; [| intros ?; apply fpga_rb_enable_mapped]
  end.
  destruct (0 <? calib); [apply rp_measure_calib_params_mapped | apply keeps_ret].
Qed.

Lemma fpga_rb_set_ctrl_mapped
    rb_run tx_modsrc tx_modtyp rx_modtyp src_con_pnt src_con_pnt2 rx_muxin_src
    tx_car_osc_qrg rx_car_osc_qrg tx_mod_osc_qrg tx_muxin_gain rx_muxin_gain
    tx_qrg_sel rx_qrg_sel tx_amp_rf_gain tx_mod_osc_mag term_rfout1 term_rfout2 qrg_inc :
  keeps mapped
    (fpga_rb_set_ctrl rb_run tx_modsrc tx_modtyp rx_modtyp src_con_pnt src_con_pnt2
       rx_muxin_src tx_car_osc_qrg rx_car_osc_qrg tx_mod_osc_qrg tx_muxin_gain rx_muxin_gain
       tx_qrg_sel rx_qrg_sel tx_amp_rf_gain tx_mod_osc_mag term_rfout1 term_rfout2 qrg_inc).
Proof.
  unfold fpga_rb_set_ctrl. cbv zeta. apply keeps_bind.
  - intros s [m Hm].
    destruct (set_ctrl_rfout_run src_con_pnt src_con_pnt2 term_rfout1 term_rfout2
                tx_car_osc_qrg rx_car_osc_qrg s m) as [m1 E].
    rewrite (with_regs_same s m Hm) in E.
    eexists tt, _. split; [exact E |].
    destruct (rfout_changed s src_con_pnt src_con_pnt2 term_rfout1 term_rfout2
                tx_car_osc_qrg rx_car_osc_qrg); [eexists; reflexivity | now exists m].
  - intros _. destruct (nonzero rb_run).
    + apply (set_ctrl_on_keeps _ _ mapped_invariant). reflexivity.
    + apply (set_ctrl_off_keeps _ _ mapped_invariant). reflexivity.
Qed.

Lemma update_one_mapped p l : keeps mapped (update_one p l).
Proof.
  unfold update_one. cbv zeta.
  repeat lazymatch goal with
         | |- keeps _ (ret _) => apply keeps_ret
         | |- keeps _ (fpga_rb_enable _) => apply fpga_rb_enable_mapped
         | |- keeps _ (fpga_rb_calib _ _) => apply fpga_rb_calib_mapped
         | |- keeps _ (bind _ _) => apply keeps_bind; [| intros ?]
         | |- keeps _ (if ?b then _ else _) => destruct b
         | |- keeps _ (match ?x with _ => _ end) => destruct x
         end.
Qed.

Lemma update_loop_mapped pn l : keeps mapped (update_loop pn l).
Proof.
  revert l. induction pn as [| p rest IH]; intros l; cbn [update_loop].
  - apply keeps_ret.
  - destruct (is_zero (Z.land (fpga_update p) 128));
      repeat lazymatch goal with
             | |- keeps _ (bind _ _) => apply keeps_bind; [| intros ?]
             | |- keeps _ (update_loop _ _) => apply IH
             | |- keeps _ (update_one _ _) => apply update_one_mapped
             | |- keeps _ (ret _) => apply keeps_ret
             end.
Qed.

(** C5, as the code has it: [fpga_get_version] answers the valid
    version word or one of three sentinels, -1 for a null register
    pointer, -2 for a word outside [0x12010101, 0x29123299] and -3 for a
    word with a digit above 9, each as a [uint32_t];
    [fpga_rb_update_all_params] returns -1 without touching anything
    when the register pointer, the base list or the list pointer is
    null, -2 when the list pointed to is null, and 0 after the update. *)
Theorem failure_sentinels :
  (forall s, fpga_get_version s = Ok (version_answer (g_fpga_rb_reg_mem s)) s)
  /\ (forall mem, In (version_answer mem)
                     [2 ^ 32 - 1; 2 ^ 32 - 2; 2 ^ 32 - 3;
                      match mem with Some m => m Reg.version | None => 0 end])
  /\ (forall pb p_pn s,
        match g_fpga_rb_reg_mem s, pb, p_pn with
        | Some _, Some _, Some (Some _) =>
            exists pn' s', fpga_rb_update_all_params pb p_pn s = Ok (0, Some (Some pn')) s'
        | Some _, Some _, Some None =>
            fpga_rb_update_all_params pb p_pn s = Ok (-2, p_pn) s
        | _, _, _ => fpga_rb_update_all_params pb p_pn s = Ok (-1, p_pn) s
        end).
Proof.
  split; [exact fpga_get_version_run |]. split.
  - intros [m |]; unfold version_answer, In; cbv zeta; [| auto].
    destruct ((m Reg.version <? 302055681) || (689058457 <? m Reg.version)); [auto |].
    destruct (has_non_decimal_digit (m Reg.version)); auto 6.
  - intros pb p_pn s.
    pose proof (fpga_rb_update_all_params_null_codes pb p_pn s) as H.
    destruct (g_fpga_rb_reg_mem s) as [m |] eqn:Em; [| exact H].
    destruct pb as [pb |]; [| exact H].
    destruct p_pn as [[pn |] |]; try exact H. clear H.
    unfold fpga_rb_update_all_params, bind at 1, reg_mem_is_null. rewrite Em.
    destruct (update_loop_mapped pn (locals_of_base pb) s) as (r & s1 & E1 & H1);
      [now exists m |].
    unfold bind at 1. rewrite E1. cbv zeta.
    set (l := snd r).
    set (c := if nonzero (ints l loc_rb_run) then _ else ret tt).
    assert (K : keeps mapped c).
    { unfold c. destruct (nonzero (ints l loc_rb_run));
        [apply fpga_rb_set_ctrl_mapped | apply keeps_ret]. }
    destruct (K s1 H1) as ([] & s2 & E2 & _).
    exists (fst r), s2. unfold bind. now rewrite E2.
Qed.
End NoFault.

(** C5, as the claim states it, fails: the version word 0x1201010A lies
    inside the accepted range and has the digit 0xA, and
    [fpga_get_version] answers the sentinel -3, which is neither -1 nor -2. *)
Lemma fpga_get_version_answers_minus_3 :
  let mem := upd Reg.version 0x1201010A Sample.zeroed in
  result_of (@fpga_get_version PrimFloat.float Sample.calib (Sample.start (Some mem)))
  = Some (to_uint32 (-3))
  /\ to_uint32 (-3) <> to_uint32 (-1) /\ to_uint32 (-3) <> to_uint32 (-2)
  /\ 0x12010101 <= 0x1201010A <= 0x29123299.
Proof. cbv zeta. repeat split; try (vm_compute; congruence). Qed.

(* ================================================================== *)
(** ** The DDS increment in binary64 arithmetic *)

(** The 48-bit word of a pair of increment registers after a command. *)
Definition increment_after {D : Type} {cal : Calib D} {A : Type}
    (o : outcome A) (lo hi : Reg.t) : option Z :=
  match reg_after o lo, reg_after o hi with
  | Some l, Some h => Some (word48 l h)
  | _, _ => None
  end.

(** C1: at -1 Hz with the oscillator at 125 MHz the quotient times 2^48
    is -2251799.81...; the specification rounds it away from zero to
    -2251800, the three setters write -2251799: their branch for
    negative values subtracts -0.5, which adds 0.5 before the
    conversion truncates toward zero. *)
Theorem dds_increment_at_minus_1_hertz :
  let s := Sample.start (Some Sample.zeroed) in
  let f := Binary64.of_Z (-1) in
  increment_after
    (@fpga_rb_set_tx_car_osc_qrg__4mod_cw_ssb_am_pm _ Sample.ops Sample.calib f s)
    Reg.tx_car_osc_inc_lo Reg.tx_car_osc_inc_hi = Some (2 ^ 48 - 2251799)
  /\ increment_after
       (@fpga_rb_set_rx_car_osc_qrg__4mod_ssb_am_fm_pm _ Sample.ops Sample.calib f s)
       Reg.rx_car_osc_inc_lo Reg.rx_car_osc_inc_hi = Some (2 ^ 48 - 2251799)
  /\ increment_after
       (@fpga_rb_set_tx_mod_osc_qrg__4mod_ssbweaver_am_fm_pm _ Sample.ops Sample.calib f s)
       Reg.tx_mod_osc_inc_lo Reg.tx_mod_osc_inc_hi = Some (2 ^ 48 - 2251799)
  /\ dds_increment_spec (-1) 125000000 = 2 ^ 48 - 2251800.
Proof. cbv zeta. repeat split; vm_compute; reflexivity. Qed.

(** At 1 Hz and at 7 MHz the setters agree with the specification. *)
Example dds_increment_at_positive_frequencies :
  let s := Sample.start (Some Sample.zeroed) in
  increment_after
    (@fpga_rb_set_tx_car_osc_qrg__4mod_cw_ssb_am_pm _ Sample.ops Sample.calib
       (Binary64.of_Z 1) s)
    Reg.tx_car_osc_inc_lo Reg.tx_car_osc_inc_hi = Some (dds_increment_spec 1 125000000)
  /\ increment_after
       (@fpga_rb_set_rx_car_osc_qrg__4mod_ssb_am_fm_pm _ Sample.ops Sample.calib
          (Binary64.of_Z 7000000) s)
       Reg.rx_car_osc_inc_lo Reg.rx_car_osc_inc_hi = Some (dds_increment_spec 7000000 125000000).
Proof. cbv zeta. split; vm_compute; reflexivity. Qed.

(** At 80152 Hz the exact product is 180486258666.49999...; the
    roundings of the quotient and of the product carry it to the half,
    and the setter writes one more than the specification. *)
Example dds_increment_at_80152_hertz :
  let s := Sample.start (Some Sample.zeroed) in
  increment_after
    (@fpga_rb_set_tx_car_osc_qrg__4mod_cw_ssb_am_pm _ Sample.ops Sample.calib
       (Binary64.of_Z 80152) s)
    Reg.tx_car_osc_inc_lo Reg.tx_car_osc_inc_hi = Some 180486258667
  /\ dds_increment_spec 80152 125000000 = 180486258666.
Proof. cbv zeta. split; vm_compute; reflexivity. Qed.

(** C6 at a failing input: two calls with the same arguments and
    [src_con_pnt2] = 1.  After the first call [src_con_pnt2_old] is
    still 0, and the change test of the second call is positive again. *)
Example set_ctrl_recomputes_when_src_con_pnt2_is_set :
  let call :=
    @fpga_rb_set_ctrl _ Sample.ops Sample.calib Sample.main_h
      1 0 0 0 0 1 0 (Binary64.of_Z 7000000) (Binary64.of_Z 7000000) (Binary64.of_Z 1000)
      80 80 0 0 200 100 0 0 50 in
  match call (Sample.start (Some Sample.zeroed)) with
  | Ok _ s1 =>
      src_con_pnt2_old s1 = 0
      /\ @rfout_changed _ Sample.ops Sample.calib s1 0 1 0 0
           (Binary64.of_Z 7000000) (Binary64.of_Z 7000000) = true
  | Fault => False
  end.
Proof. vm_compute. split; reflexivity. Qed.


(* ================================================================== *)
(** ** The search for the ADC offset *)

Lemma lor_below_pow2 (a b n : Z) :
  0 < n -> 0 <= a < 2 ^ n -> 0 <= b < 2 ^ n -> 0 <= Z.lor a b < 2 ^ n.
Proof.
  intros Hn Ha Hb. split; [apply Z.lor_nonneg; lia |].
  destruct (Z.eq_dec (Z.lor a b) 0) as [E | E]; [rewrite E; lia |].
  assert (0 <= Z.lor a b) by (apply Z.lor_nonneg; lia).
  apply Z.log2_lt_pow2; [lia |].
  rewrite Z.log2_lor by lia.
  assert (La : Z.log2 a < n).
  { destruct (Z.eq_dec a 0) as [-> | Na]; [cbn; lia | apply Z.log2_lt_pow2; lia]. }
  assert (Lb : Z.log2 b < n).
  { destruct (Z.eq_dec b 0) as [-> | Nb]; [cbn; lia | apply Z.log2_lt_pow2; lia]. }
  lia.
Qed.

Lemma to_uint16_small (x : Z) : 0 <= x < 2 ^ 16 -> to_uint16 x = x.
Proof. intros H. unfold to_uint16. now apply Z.mod_small. Qed.

Lemma to_int16_offset (x : Z) : 0 <= x < 2 ^ 16 -> to_int16 (x - 0x8000) = x - 0x8000.
Proof.
  intros H. unfold to_int16. replace (x - 0x8000 + 2 ^ 15) with x by lia.
  rewrite Z.mod_small by assumption. lia.
Qed.

Lemma shiftl_below_pow2 (c k n : Z) :
  0 <= k -> 0 <= c -> c * 2 ^ k < 2 ^ n -> 0 <= Z.shiftl c k < 2 ^ n.
Proof.
  intros Hk Hc H. rewrite Z.shiftl_mul_pow2 by assumption.
  split; [| assumption]. apply Z.mul_nonneg_nonneg; [assumption | apply Z.pow_nonneg; lia].
Qed.

Section Search.
Context {D : Type} {cal : Calib D}.

(** [i; i-1; ...; 1] *)
Definition positions_from (i : nat) : list Z := map Z.of_nat (rev (seq 1 i)).

Lemma positions_from_S (i : nat) :
  positions_from (S i) = Z.of_nat (S i) :: positions_from i.
Proof.
  unfold positions_from. rewrite seq_S, rev_app_distr. reflexivity.
Qed.

Lemma test_rx_measurement_run (s : state) (m : regs) (adc_offset_val reduction : Z) :
  test_rx_measurement adc_offset_val reduction (with_regs (Some m) s)
  = Ok (measured (cordic_hw s) m adc_offset_val reduction)
       (with_regs
          (Some (upd Reg.rx_muxin_gain (to_uint32 (Z.shiftr 0xffff reduction))
                   (upd Reg.rx_muxin_ofs (to_uint32 adc_offset_val) m))) s).
Proof.
  cbv [test_rx_measurement test_rx_measurement_loop bind wr ret nanosleep rd_cordic_mag
       with_regs g_fpga_rb_reg_mem cordic_hw measured fold_left
       Z.of_nat Pos.of_succ_nat Pos.succ].
  reflexivity.
Qed.

Lemma measured_after_measurement (hw : regs -> Z -> Z) (m : regs) (a b o r : Z) :
  measured hw (upd Reg.rx_muxin_gain a (upd Reg.rx_muxin_ofs b m)) o r = measured hw m o r.
Proof.
  unfold measured.
  replace (upd Reg.rx_muxin_gain (to_uint32 (Z.shiftr 65535 r))
             (upd Reg.rx_muxin_ofs (to_uint32 o)
                (upd Reg.rx_muxin_gain a (upd Reg.rx_muxin_ofs b m))))
    with (upd Reg.rx_muxin_gain (to_uint32 (Z.shiftr 65535 r))
            (upd Reg.rx_muxin_ofs (to_uint32 o) m)); [reflexivity |].
  apply functional_extensionality. intros x. unfold upd.
  destruct (Reg.eqb Reg.rx_muxin_gain x), (Reg.eqb Reg.rx_muxin_ofs x); reflexivity.
Qed.

Lemma search_step_unfold (f : Z -> Z -> Z) (acc i : Z) :
  search_step f acc i
  = if f (Z.lor acc (Z.shiftl 3 (i - 1)) - 0x8000) (reduction_at i)
       <? f (Z.lor acc (Z.shiftl 1 (i - 1)) - 0x8000) (reduction_at i)
    then Z.lor acc (Z.shiftl 1 i) else acc.
Proof. reflexivity. Qed.

Lemma search_step_below (f : Z -> Z -> Z) (acc i : Z) :
  1 <= i <= 15 -> 0 <= acc < 2 ^ 16 -> 0 <= search_step f acc i < 2 ^ 16.
Proof.
  intros Hi Ha. unfold search_step. cbv zeta.
  destruct (_ <? _); [| assumption].
  unfold Z.setbit. apply lor_below_pow2; [lia | assumption |].
  apply shiftl_below_pow2; try lia.
  rewrite Z.mul_1_l. apply Z.pow_lt_mono_r; lia.
Qed.

Lemma rp_minimize_noise_loop_S (i : nat) (min_ofs_value : Z) :
  rp_minimize_noise_loop (S i) min_ofs_value
  = (let reduction := Z.of_nat (S i) - 11 in
     let reduction := if reduction <? 0 then 0 else reduction in
     let test_ofs_lo := to_uint16 (Z.lor min_ofs_value (Z.shiftl 1 (Z.of_nat (S i) - 1))) in
     let test_ofs_hi := to_uint16 (Z.lor min_ofs_value (Z.shiftl 3 (Z.of_nat (S i) - 1))) in
     test_sig_lo <- test_rx_measurement (to_int16 (test_ofs_lo - 0x8000)) reduction;;
     test_sig_hi <- test_rx_measurement (to_int16 (test_ofs_hi - 0x8000)) reduction;;
     rp_minimize_noise_loop i
       (if test_sig_hi <? test_sig_lo
        then to_uint16 (Z.lor min_ofs_value (Z.shiftl 1 (Z.of_nat (S i))))
        else min_ofs_value))%cmd.
Proof. reflexivity. Qed.

Lemma fold_left_step {A B : Type} (f : A -> B -> A) (x : B) (l : list B) (a : A) :
  fold_left f (x :: l) a = fold_left f l (f a x).
Proof. reflexivity. Qed.

Lemma rp_minimize_noise_loop_run (s : state) (m : regs) (i : nat) :
  forall (acc : Z) (m' : regs),
    (i <= 15)%nat -> 0 <= acc < 2 ^ 16 ->
    (forall o r, measured (cordic_hw s) m' o r = measured (cordic_hw s) m o r) ->
    exists m'',
      rp_minimize_noise_loop i acc (with_regs (Some m') s)
      = Ok (fold_left (search_step (measured (cordic_hw s) m)) (positions_from i) acc)
           (with_regs (Some m'') s)
      /\ (forall o r, measured (cordic_hw s) m'' o r = measured (cordic_hw s) m o r)
      /\ 0 <= fold_left (search_step (measured (cordic_hw s) m)) (positions_from i) acc < 2 ^ 16.
Proof.
  induction i as [| i IH]; intros acc m' Hi Ha Hm'.
  - exists m'. split; [reflexivity | split; assumption].
  - rewrite positions_from_S, fold_left_step, rp_minimize_noise_loop_S. cbv zeta.
    set (iz := Z.of_nat (S i)).
    assert (Hiz : 1 <= iz <= 15) by (unfold iz; lia).
    clearbody iz.
    assert (Hlo : 0 <= Z.lor acc (Z.shiftl 1 (iz - 1)) < 2 ^ 16).
    { apply lor_below_pow2; [lia | assumption |].
      apply shiftl_below_pow2; try lia.
      rewrite Z.mul_1_l. apply Z.pow_lt_mono_r; lia. }
    assert (Hhi : 0 <= Z.lor acc (Z.shiftl 3 (iz - 1)) < 2 ^ 16).
    { apply lor_below_pow2; [lia | assumption |].
      apply shiftl_below_pow2; try lia.
      assert (2 ^ (iz - 1) <= 2 ^ 14) by (apply Z.pow_le_mono_r; lia). lia. }
    assert (Hset : 0 <= Z.lor acc (Z.shiftl 1 iz) < 2 ^ 16).
    { apply lor_below_pow2; [lia | assumption |].
      apply shiftl_below_pow2; try lia.
      rewrite Z.mul_1_l. apply Z.pow_lt_mono_r; lia. }
    rewrite !to_uint16_small by assumption.
    rewrite !to_int16_offset by assumption.
    replace (if iz - 11 <? 0 then 0 else iz - 11) with (reduction_at iz)
      by (unfold reduction_at; destruct (Z.ltb_spec (iz - 11) 0); lia).
    unfold bind at 1. rewrite test_rx_measurement_run.
    unfold bind at 1. rewrite test_rx_measurement_run.
    rewrite measured_after_measurement. rewrite !Hm'.
    change (cordic_hw (with_regs _ s)) with (cordic_hw s).
    rewrite <- search_step_unfold.
    apply (IH (search_step (measured (cordic_hw s) m) acc iz)); [lia | |].
    + now apply search_step_below.
    + intros o r. now rewrite !measured_after_measurement.
Qed.

(** C2: on a mapped register block [rp_minimize_noise] returns what the
    successive approximation of the specification returns for the
    measurement function the FPGA realizes: fifteen positions from bit
    15 down to bit 1, one decision on bit 0, the winner minus 0x8000.
    The result is a function of the measurements alone, and it is a
    value of [int16_t]. *)
Theorem rp_minimize_noise_is_successive_approximation (s : state) (m : regs) :
  exists m',
    rp_minimize_noise (with_regs (Some m) s)
    = Ok (successive_approximation (measured (cordic_hw s) m)) (with_regs (Some m') s)
    /\ - 2 ^ 15 <= successive_approximation (measured (cordic_hw s) m) < 2 ^ 15.
Proof.
  unfold rp_minimize_noise, successive_approximation.
  destruct (rp_minimize_noise_loop_run s m 15 0 m) as (m1 & E & Hm1 & Hacc);
    [lia | lia | auto |].
  change (positions_from 15) with bit_positions in E, Hacc.
  unfold bind at 1. rewrite E. cbv zeta.
  set (acc := fold_left (search_step (measured (cordic_hw s) m)) bit_positions 0) in *.
  assert (Hone : 0 <= Z.lor acc 1 < 2 ^ 16) by (apply lor_below_pow2; lia).
  rewrite !to_uint16_small by assumption.
  rewrite !to_int16_offset by assumption.
  unfold bind at 1. rewrite test_rx_measurement_run.
  unfold bind at 1. rewrite test_rx_measurement_run.
  rewrite measured_after_measurement. rewrite !Hm1.
  change (cordic_hw (with_regs _ s)) with (cordic_hw s).
  eexists. split.
  - unfold ret. f_equal.
    destruct (_ <? _); apply to_int16_offset; assumption.
  - destruct (_ <? _); lia.
Qed.
End Search.

(* ================================================================== *)
(** ** The carrier frequency written and read back *)

Section DdsRun.
Context {D : Type} {dbl : DoubleOps D} {cal : Calib D}.

Lemma set_tx_car_osc_qrg_run (q : D) (s : state) (m : regs) :
  fpga_rb_set_tx_car_osc_qrg__4mod_cw_ssb_am_pm q (with_regs (Some m) s)
  = let b := dds_bitfield q (base_osc125mhz_realhz (g_rp_main_calib_params s)) in
    Ok tt (with_regs
             (Some (upd Reg.tx_car_osc_ofs_hi (to_uint32 0)
                      (upd Reg.tx_car_osc_ofs_lo (to_uint32 0)
                         (upd Reg.tx_car_osc_inc_hi (to_uint32 (to_uint32 (Z.shiftr b 32)))
                            (upd Reg.tx_car_osc_inc_lo
                               (to_uint32 (to_uint32 (Z.land b 0xffffffff))) m))))) s).
Proof. reflexivity. Qed.

Lemma set_rx_car_osc_qrg_run (q : D) (s : state) (m : regs) :
  fpga_rb_set_rx_car_osc_qrg__4mod_ssb_am_fm_pm q (with_regs (Some m) s)
  = let b := dds_bitfield q (base_osc125mhz_realhz (g_rp_main_calib_params s)) in
    Ok tt (with_regs
             (Some (upd Reg.rx_car_osc_ofs_hi (to_uint32 0)
                      (upd Reg.rx_car_osc_ofs_lo (to_uint32 0)
                         (upd Reg.rx_car_osc_inc_hi (to_uint32 (to_uint32 (Z.shiftr b 32)))
                            (upd Reg.rx_car_osc_inc_lo
                               (to_uint32 (to_uint32 (Z.land b 0xffffffff))) m))))) s).
Proof. reflexivity. Qed.

Lemma get_tx_car_osc_qrg_run (s : state) (m : regs) :
  fpga_rb_get_tx_car_osc_qrg (with_regs (Some m) s)
  = Ok (dds_frequency
          (int64_of_registers (m Reg.tx_car_osc_inc_lo) (m Reg.tx_car_osc_inc_hi))
          (base_osc125mhz_realhz (g_rp_main_calib_params s)))
       (with_regs (Some m) s).
Proof. reflexivity. Qed.

Lemma get_rx_car_osc_qrg_run (s : state) (m : regs) :
  fpga_rb_get_rx_car_osc_qrg (with_regs (Some m) s)
  = Ok (dds_frequency
          (int64_of_registers (m Reg.rx_car_osc_inc_lo) (m Reg.rx_car_osc_inc_hi))
          (base_osc125mhz_realhz (g_rp_main_calib_params s)))
       (with_regs (Some m) s).
Proof. reflexivity. Qed.
End DdsRun.

(** An [int64_t] split over two registers and joined again. *)
Lemma int64_split_join (b : Z) :
  - 2 ^ 63 <= b < 2 ^ 63 ->
  int64_of_registers (to_uint32 (to_uint32 (Z.land b 0xffffffff)))
                     (to_uint32 (to_uint32 (Z.shiftr b 32))) = b.
Proof.
  intros Hb. unfold int64_of_registers, to_uint32, to_int64.
  change 0xffffffff with (Z.ones 32). rewrite Z.land_ones by lia.
  rewrite Z.shiftr_div_pow2, Z.shiftl_mul_pow2 by lia.
  rewrite !Z.mod_mod by lia.
  set (q := b / 2 ^ 32). set (r := b mod 2 ^ 32).
  assert (Hq : - 2 ^ 31 <= q < 2 ^ 31).
  { unfold q. split.
    - apply Z.div_le_lower_bound; lia.
    - apply Z.div_lt_upper_bound; lia. }
  assert (Hr : 0 <= r < 2 ^ 32) by (apply Z.mod_pos_bound; lia).
  assert (Eb : b = q * 2 ^ 32 + r).
  { unfold q, r. rewrite Z.mul_comm. apply Z.div_mod. lia. }
  assert (E : (q mod 2 ^ 32 * 2 ^ 32 + 2 ^ 63) mod 2 ^ 64 - 2 ^ 63 = q * 2 ^ 32).
  { destruct (Z_lt_le_dec q 0) as [Hn | Hp].
    - replace (q mod 2 ^ 32) with (q + 2 ^ 32).
      + replace ((q + 2 ^ 32) * 2 ^ 32 + 2 ^ 63) with (q * 2 ^ 32 + 2 ^ 63 + 1 * 2 ^ 64) by lia.
        rewrite Z.mod_add by lia. rewrite Z.mod_small; lia.
      + apply Z.mod_unique with (q := -1); lia.
    - rewrite (Z.mod_small q) by lia. rewrite Z.mod_small; lia. }
  rewrite E. clearbody q r. subst b.
  assert (Hland : Z.land (q * 2 ^ 32) r = 0).
  { apply Z.bits_inj'. intros n Hn. rewrite Z.land_spec, Z.bits_0.
    destruct (Z_lt_le_dec n 32).
    - rewrite Z.mul_pow2_bits_low by lia. reflexivity.
    - rewrite (Z.bits_above_log2 r n); [apply andb_false_r | lia |].
      destruct (Z.eq_dec r 0) as [-> | Nr]; [cbn; lia |].
      apply Z.lt_le_trans with 32; [apply Z.log2_lt_pow2; lia | lia]. }
  rewrite Z.lor_comm.
  rewrite Z.add_nocarry_lxor by exact Hland.
  rewrite Z.lxor_lor by exact Hland. reflexivity.
Qed.

Section RealFacts.
Local Open Scope R_scope.

Lemma Rabs_le_bounds (x b : R) : Rabs x <= b -> - b <= x <= b.
Proof. unfold Rabs. destruct (Rcase_abs x); lra. Qed.

Lemma Rabs_lt_bounds (x b : R) : Rabs x < b -> - b < x < b.
Proof. unfold Rabs. destruct (Rcase_abs x); lra. Qed.

Lemma half_subnormal_small : / 2 ^ 1075 <= / 2 ^ 60.
Proof.
  apply Rinv_le_contravar; [apply pow_lt; lra |].
  apply Rle_pow; [lra | lia].
Qed.

Lemma floor_unique (x : R) (f : Z) : IZR f <= x < IZR f + 1 -> Int_part x = f.
Proof. intros H. symmetry. apply Int_part_spec. lra. Qed.

Lemma trunc_near (x : R) : Rabs (IZR (Rounded.trunc x) - x) < 1.
Proof.
  unfold Rounded.trunc. destruct (Rle_dec 0 x) as [Hx | Hx].
  - destruct (base_Int_part x) as [H1 H2]. apply Rabs_def1; lra.
  - destruct (base_Int_part (- x)) as [H1 H2]. rewrite opp_IZR. apply Rabs_def1; lra.
Qed.

Lemma exact_is_binary64_rounding : Rounded.binary64_rounding Rounded.exact.
Proof.
  split; unfold Rounded.exact; [| reflexivity].
  intros x _. replace (x - x) with 0 by lra. rewrite Rabs_R0.
  assert (0 <= Rabs x / 2 ^ 53).
  { apply Rmult_le_pos; [apply Rabs_pos |]. apply Rlt_le, Rinv_0_lt_compat, pow_lt. lra. }
  assert (0 < / 2 ^ 1075) by (apply Rinv_0_lt_compat, pow_lt; lra).
  lra.
Qed.
End RealFacts.

(* ================================================================== *)
(** ** The carrier increments after [fpga_rb_set_ctrl] *)

Section CarrierWords.
Context {D : Type} {dbl : DoubleOps D} {cal : Calib D} {hdr : MainH}.
Variable base0 : D.





















(** The two [switch] statements of [fpga_rb_get_ctrl]. *)
Definition tx_read (tx_modtyp : Z) (g : D) : D :=
  if tx_modtyp =? RB_TX_MODTYP_USB then d_sub g (d_of_Z ssb_weaver_osc_qrg)
  else if tx_modtyp =? RB_TX_MODTYP_LSB then d_add g (d_of_Z ssb_weaver_osc_qrg)
  else g.

Definition rx_read (rx_modtyp : Z) (g : D) : D :=
  if (rx_modtyp =? RB_RX_MODTYP_USB) || (rx_modtyp =? RB_RX_MODTYP_AMSYNC_USB)
  then d_sub g (d_of_Z ssb_weaver_osc_qrg)
  else if (rx_modtyp =? RB_TX_MODTYP_LSB) || (rx_modtyp =? RB_RX_MODTYP_AMSYNC_LSB)
  then d_add g (d_of_Z ssb_weaver_osc_qrg)
  else g.





















End CarrierWords.

Section RoundedArithmetic.
Local Open Scope R_scope.
Variable rnd : R -> R.
Variable libm_pow : R -> R -> R.
Hypothesis Hrnd : Rounded.binary64_rounding rnd.

Local Instance rounded : DoubleOps R := Rounded.ops rnd libm_pow.

Lemma rnd_near (x M : R) :
  Rabs x <= M -> M <= 2 ^ 60 -> Rabs (rnd x - x) <= M / 2 ^ 53 + / 2 ^ 60.
Proof.
  intros Hx HM.
  assert (H : Rabs x <= 2 ^ 1023).
  { apply Rle_trans with (2 ^ 60); [lra |]. apply Rle_pow; [lra | lia]. }
  pose proof (Rounded.rnd_error rnd Hrnd x H) as E.
  pose proof half_subnormal_small.
  assert (Rabs x / 2 ^ 53 <= M / 2 ^ 53) by lra.
  lra.
Qed.

Lemma rnd_integer (n : Z) : (Z.abs n <= 2 ^ 53)%Z -> rnd (IZR n) = IZR n.
Proof.
  intros H. pose proof (Rounded.rnd_exact rnd Hrnd n 0 H ltac:(lia)) as E.
  replace (IZR n / 2 ^ 0) with (IZR n) in E by (simpl; field). exact E.
Qed.

Lemma rnd_half : rnd (1 / 2) = 1 / 2.
Proof.
  pose proof (Rounded.rnd_exact rnd Hrnd 1 1 ltac:(lia) ltac:(lia)) as E.
  replace (IZR 1 / 2 ^ 1) with (1 / 2) in E by (simpl; field). exact E.
Qed.

Lemma d_of_Z_exact (n : Z) : (Z.abs n <= 2 ^ 53)%Z -> d_of_Z n = IZR n.
Proof. intros H. cbn [d_of_Z rounded Rounded.ops]. now apply rnd_integer. Qed.

Lemma d_half_exact : d_half = 1 / 2.
Proof.
  unfold d_half, d_lit. cbn [d_div d_of_Z rounded Rounded.ops].
  rewrite !rnd_integer by lia. apply rnd_half.
Qed.

Lemma d_zero_exact : d_zero = 0.
Proof. unfold d_zero. apply d_of_Z_exact. lia. Qed.

(** The increment per hertz at 125 MHz, [2^48 / 125e6]. *)
Definition increment_per_hertz : R := 281474976710656 / 125000000.

(** The increment the setters compute for an integer frequency is
    within 2 of the exact product. *)
Lemma dds_bitfield_near (f : Z) :
  (Z.abs f <= 62500000)%Z ->
  Rabs (IZR (dds_bitfield (IZR f) 125000000%R) - IZR f * increment_per_hertz) < 2
  /\ (- 2 ^ 63 <= dds_bitfield (IZR f) 125000000%R < 2 ^ 63)%Z.
Proof.
  intros Hf.
  assert (HfR : -62500000 <= IZR f <= 62500000).
  { split; [apply (IZR_le (-62500000)) | apply (IZR_le _ 62500000)]; lia. }
  unfold dds_bitfield. rewrite d_half_exact, d_zero_exact.
  rewrite (d_of_Z_exact (2 ^ 48)) by lia.
  change (IZR (2 ^ 48)) with 281474976710656.
  cbn [d_mul d_div d_add d_sub d_neg d_ltb d_trunc rounded Rounded.ops]. unfold d_gtb.
  cbn [d_ltb rounded Rounded.ops].
  set (t1 := rnd (IZR f / 125000000)).
  assert (H1 : Rabs (t1 - IZR f / 125000000) <= (1 / 2) / 2 ^ 53 + / 2 ^ 60).
  { apply rnd_near; [apply Rabs_le; lra | lra]. }
  apply Rabs_le_bounds in H1.
  set (t2 := rnd (281474976710656 * t1)).
  assert (H2 : Rabs (t2 - 281474976710656 * t1) <= (2 ^ 47 + 1) / 2 ^ 53 + / 2 ^ 60).
  { apply rnd_near; [apply Rabs_le; lra | lra]. }
  apply Rabs_le_bounds in H2.
  assert (H3 : Rabs (rnd (t2 + 1 / 2) - (t2 + 1 / 2)) <= (2 ^ 47 + 2) / 2 ^ 53 + / 2 ^ 60).
  { apply rnd_near; [apply Rabs_le; lra | lra]. }
  apply Rabs_le_bounds in H3.
  replace (t2 - - (1 / 2)) with (t2 + 1 / 2) by lra.
  set (q := if Rounded.ltb 0 t2 then rnd (t2 + 1 / 2)
            else if Rounded.ltb t2 0 then rnd (t2 + 1 / 2) else t2).
  assert (Hq : -1 <= q - IZR f * increment_per_hertz <= 1).
  { unfold q, Rounded.ltb, increment_per_hertz.
    destruct (Rlt_dec 0 t2); [lra |]. destruct (Rlt_dec t2 0); lra. }
  pose proof (trunc_near q) as Ht. apply Rabs_lt_bounds in Ht.
  assert (Hb : -140737488355330 < IZR (Rounded.trunc q) < 140737488355330).
  { unfold increment_per_hertz in Hq. lra. }
  assert (HbZ : (-140737488355330 < Rounded.trunc q < 140737488355330)%Z).
  { split; apply lt_IZR; lra. }
  assert (E : to_int64 (Rounded.trunc q) = Rounded.trunc q).
  { unfold to_int64. rewrite Z.mod_small; lia. }
  rewrite E. split; [apply Rabs_def1; lra | lia].
Qed.

(** An increment within 2 of the exact product reads back as the
    frequency itself. *)
Lemma dds_frequency_exact (b f : Z) :
  (Z.abs f <= 62500000)%Z ->
  Rabs (IZR b - IZR f * increment_per_hertz) < 2 ->
  dds_frequency b 125000000%R = IZR f.
Proof.
  intros Hf Hb.
  assert (HfR : -62500000 <= IZR f <= 62500000).
  { split; [apply (IZR_le (-62500000)) | apply (IZR_le _ 62500000)]; lia. }
  apply Rabs_lt_bounds in Hb. unfold increment_per_hertz in Hb.
  assert (HbR : -140737488355330 < IZR b < 140737488355330) by lra.
  assert (HbZ : (-140737488355330 < b < 140737488355330)%Z) by (split; apply lt_IZR; lra).
  unfold dds_frequency. rewrite d_half_exact.
  rewrite (d_of_Z_exact (2 ^ 48)) by lia. rewrite (d_of_Z_exact b) by lia.
  change (IZR (2 ^ 48)) with 281474976710656.
  cbn [d_mul d_div d_add d_floor rounded Rounded.ops].
  set (y1 := rnd (IZR b / 281474976710656)).
  assert (H1 : Rabs (y1 - IZR b / 281474976710656) <= 1 / 2 ^ 53 + / 2 ^ 60).
  { apply rnd_near; [apply Rabs_le; lra | lra]. }
  apply Rabs_le_bounds in H1.
  set (y2 := rnd (125000000 * y1)).
  assert (H2 : Rabs (y2 - 125000000 * y1) <= 2 ^ 27 / 2 ^ 53 + / 2 ^ 60).
  { apply rnd_near; [apply Rabs_le; lra | lra]. }
  apply Rabs_le_bounds in H2.
  set (y3 := rnd (y2 + 1 / 2)).
  assert (H3 : Rabs (y3 - (y2 + 1 / 2)) <= 2 ^ 27 / 2 ^ 53 + / 2 ^ 60).
  { apply rnd_near; [apply Rabs_le; lra | lra]. }
  apply Rabs_le_bounds in H3.
  f_equal. apply floor_unique. lra.
Qed.

(** Written by a setter and joined by a getter, the increment of an
    integer frequency reads back as that frequency. *)
Lemma dds_round_trip (f : Z) :
  (Z.abs f <= 62500000)%Z ->
  let b := dds_bitfield (IZR f) 125000000%R in
  dds_frequency
    (int64_of_registers (to_uint32 (to_uint32 (Z.land b 0xffffffff)))
                        (to_uint32 (to_uint32 (Z.shiftr b 32))))
    125000000%R = IZR f.
Proof.
  intros Hf b. destruct (dds_bitfield_near f Hf) as [Hnear Hrange].
  fold b in Hnear, Hrange. rewrite (int64_split_join b Hrange).
  now apply dds_frequency_exact.
Qed.






Context {cal : Calib R}.

(** C8: with the oscillator at 125 MHz and an integer frequency of at
    most 62.5 MHz in either direction, the frequency written by the
    setter of the TX carrier oscillator is the frequency its getter
    returns, and likewise for the RX carrier oscillator.  The arithmetic
    is any rounding of the real operations that meets the error bounds
    of binary64. *)
Theorem car_osc_qrg_round_trip (f : Z) (s : state) (m : regs) :
  (Z.abs f <= 62500000)%Z ->
  base_osc125mhz_realhz (g_rp_main_calib_params s) = 125000000 ->
  result_of ((fpga_rb_set_tx_car_osc_qrg__4mod_cw_ssb_am_pm (IZR f);;
              fpga_rb_get_tx_car_osc_qrg)%cmd (with_regs (Some m) s)) = Some (IZR f)
  /\ result_of ((fpga_rb_set_rx_car_osc_qrg__4mod_ssb_am_fm_pm (IZR f);;
                 fpga_rb_get_rx_car_osc_qrg)%cmd (with_regs (Some m) s)) = Some (IZR f).
Proof.
  intros Hf Hbase. split.
  - unfold bind. rewrite set_tx_car_osc_qrg_run. cbv beta iota zeta.
    rewrite get_tx_car_osc_qrg_run. rewrite Hbase. unfold result_of. f_equal.
    rewrite upd_other, upd_other, upd_other, upd_same by discriminate.
    rewrite upd_other, upd_other, upd_same by discriminate.
    now apply dds_round_trip.
  - unfold bind. rewrite set_rx_car_osc_qrg_run. cbv beta iota zeta.
    rewrite get_rx_car_osc_qrg_run. rewrite Hbase. unfold result_of. f_equal.
    rewrite upd_other, upd_other, upd_other, upd_same by discriminate.
    rewrite upd_other, upd_other, upd_same by discriminate.
    now apply dds_round_trip.
Qed.

(* ------------------------------------------------------------------ *)
(** *** The weaver correction of [fpga_rb_set_ctrl] and [fpga_rb_get_ctrl] *)

Context {hdr : MainH}.





End RoundedArithmetic.

(** C8 at 7 MHz downwards, in exact arithmetic. *)
Lemma car_osc_qrg_round_trip_at_minus_7_MHz :
  Z.abs (-7000000) <= 62500000
  /\ result_of
       ((@fpga_rb_set_tx_car_osc_qrg__4mod_cw_ssb_am_pm R
           (Rounded.ops Rounded.exact Sample.libm_pow_real) Sample.calib_real (IZR (-7000000));;
         @fpga_rb_get_tx_car_osc_qrg R
           (Rounded.ops Rounded.exact Sample.libm_pow_real) Sample.calib_real)%cmd
          (with_regs (Some Sample.zeroed) (Sample.start_real None)))
     = Some (IZR (-7000000))
  /\ result_of
       ((@fpga_rb_set_rx_car_osc_qrg__4mod_ssb_am_fm_pm R
           (Rounded.ops Rounded.exact Sample.libm_pow_real) Sample.calib_real (IZR (-7000000));;
         @fpga_rb_get_rx_car_osc_qrg R
           (Rounded.ops Rounded.exact Sample.libm_pow_real) Sample.calib_real)%cmd
          (with_regs (Some Sample.zeroed) (Sample.start_real None)))
     = Some (IZR (-7000000)).
Proof.
  split; [lia |].
  apply (car_osc_qrg_round_trip Rounded.exact Sample.libm_pow_real exact_is_binary64_rounding
           (-7000000) (Sample.start_real None) Sample.zeroed); [lia | reflexivity].
Defined.

(** The same round trip computed in binary64, at 1 Hz, at 7 MHz in both
    directions and at 62.5 MHz. *)
Example car_osc_qrg_round_trip_binary64 :
  let trip f :=
    result_of
      ((@fpga_rb_set_tx_car_osc_qrg__4mod_cw_ssb_am_pm _ Sample.ops Sample.calib
          (Binary64.of_Z f);;
        @fpga_rb_get_tx_car_osc_qrg _ Sample.ops Sample.calib)%cmd
         (Sample.start (Some Sample.zeroed))) in
  forallb (fun f => match trip f with
                    | Some g => PrimFloat.eqb g (Binary64.of_Z f)
                    | None => false
                    end)
          [1; 7000000; -7000000; 14070000; 62500000; -62500000] = true.
Proof. vm_compute. reflexivity. Qed.


(** The same round trip computed in binary64 at 125 MHz: every RX type
    of the list with TX in USB, FM, PM and AMENV with filter variant
    bits, the modulation source [RB_MODSRC_NONE] with the TX types
    other than USB and LSB, negative frequencies; then other oscillator
    frequencies, and frequencies at the bounds of the theorem. *)
Example get_ctrl_reports_the_frequency_binary64 :
  let run base tx_modsrc tx_modtyp rx_modtyp f_tx f_rx :=
    result_of
      ((@fpga_rb_set_ctrl _ Sample.ops Sample.calib Sample.main_h
          1 tx_modsrc tx_modtyp rx_modtyp 0 0 0
          (Binary64.of_Z f_tx) (Binary64.of_Z f_rx) (Binary64.of_Z 1000)
          80 80 0 0 200 100 0 0 50;;
        @fpga_rb_get_ctrl _ Sample.ops Sample.calib Sample.main_h tx_modtyp rx_modtyp)%cmd
         (@with_calib _ Sample.calib (Sample.mkCalib (Binary64.of_Z base) (fun _ => 0))
            (Sample.start (Some Sample.zeroed)))) in
  let reads_back base tx_modsrc tx_modtyp rx_modtyp f_tx f_rx :=
    match run base tx_modsrc tx_modtyp rx_modtyp f_tx f_rx with
    | Some (g_tx, g_rx, _) =>
        PrimFloat.eqb g_tx (Binary64.of_Z f_tx) && PrimFloat.eqb g_rx (Binary64.of_Z f_rx)
    | None => false
    end in
  forallb (fun rx_modtyp => reads_back 125000000 15 2 rx_modtyp 7000000 3500000)
          [2; 3; 4; 5; 7; 8; 9; 0x17; 0x18; 0x19; 0x29; 0x39] = true
  /\ forallb (fun tx_modtyp => reads_back 125000000 0 tx_modtyp 3 7000000 3500000)
             [4; 7; 8; 0] = true
  /\ forallb (fun tx_modtyp => reads_back 125000000 15 tx_modtyp 3 (-7000000) (-3500000))
             [2; 3; 4; 8; 0] = true
  /\ forallb (fun base => reads_back base 15 2 3 7000000 (-3500000))
             [1000; 124998765; 125001234; 1000000000; 10000000000000] = true
  /\ reads_back 10000000000000 15 2 3 99999999998300 (-99999999998300) = true.
Proof. cbv zeta. repeat split; vm_compute; reflexivity. Qed.



(* ================================================================== *)
(** * Further properties of the code *)

(** ** The version word and the modulation fields of [pwr_ctrl] *)

Section VersionWord.
Context {D : Type} {dbl : DoubleOps D} {cal : Calib D}.

Lemma digits_of_a_decimal_word (v k : Z) :
  has_non_decimal_digit v = false -> 0 <= k < 8 ->
  Z.land (Z.shiftr v (4 * k)) 0xf <= 9.
Proof.
  intros H Hk. unfold has_non_decimal_digit, existsb in H.
  repeat (apply orb_false_elim in H; destruct H as [? H]).
  assert (E : k = 0 \/ k = 1 \/ k = 2 \/ k = 3 \/ k = 4 \/ k = 5 \/ k = 6 \/ k = 7) by lia.
  repeat (destruct E as [-> | E]; [apply Z.ltb_ge; assumption |]).
  subst k. apply Z.ltb_ge. assumption.
Qed.

(** X1: [fpga_get_version] always returns, leaves the state as it is
    and answers a [uint32_t].  Bit 31 of the answer tells a failure
    from a version, which is what the caller [fpga_rb_init] tests with
    [ver & 0x80000000]: with the bit set the answer is one of the
    sentinels -1, -2, -3; with the bit clear it is the version register
    itself, between 0x12010101 and 0x29123299 and with eight decimal
    digits. *)
Theorem fpga_get_version_failure_bit (s : state) :
  exists v,
    fpga_get_version s = Ok v s
    /\ 0 <= v < 2 ^ 32
    /\ (Z.testbit v 31 = true -> v = 2 ^ 32 - 1 \/ v = 2 ^ 32 - 2 \/ v = 2 ^ 32 - 3)
    /\ (Z.testbit v 31 = false ->
        exists m, g_fpga_rb_reg_mem s = Some m
                  /\ m Reg.version = v
                  /\ 0x12010101 <= v <= 0x29123299
                  /\ forall k, 0 <= k < 8 -> Z.land (Z.shiftr v (4 * k)) 0xf <= 9).
Proof.
  exists (version_answer (g_fpga_rb_reg_mem s)).
  split; [apply fpga_get_version_run |].
  unfold version_answer. destruct (g_fpga_rb_reg_mem s) as [m |].
  - cbv zeta.
    destruct ((m Reg.version <? 0x12010101) || (0x29123299 <? m Reg.version)) eqn:Er.
    { split; [lia |]. split; [auto |]. intros H. vm_compute in H. discriminate H. }
    apply orb_false_elim in Er. destruct Er as [Elo Ehi].
    apply Z.ltb_ge in Elo, Ehi.
    destruct (has_non_decimal_digit (m Reg.version)) eqn:Ed.
    { split; [lia |]. split; [auto |]. intros H. vm_compute in H. discriminate H. }
    split; [lia |]. split.
    + intros H. rewrite Z.bits_above_log2 in H; [discriminate H | lia |].
      apply Z.log2_lt_pow2; lia.
    + intros _. exists m. repeat split; try lia.
      intros k Hk. now apply digits_of_a_decimal_word.
  - split; [lia |]. split; [auto |]. intros H. vm_compute in H. discriminate H.
Qed.
End VersionWord.

Section PowerControl.
Context {D : Type} {dbl : DoubleOps D} {cal : Calib D}.

Lemma testbit_0xff (n : Z) : 0 <= n < 32 -> Z.testbit 0xff n = (n <? 8).
Proof.
  intros Hn.
  apply (Z_range_forallb (fun n => Bool.eqb (Z.testbit 0xff n) (n <? 8)) 0 32) in Hn;
    [now apply eqb_prop | vm_compute; reflexivity].
Qed.

Lemma testbit_0xffffff00 (n : Z) : 0 <= n < 32 -> Z.testbit 0xffffff00 n = negb (n <? 8).
Proof.
  intros Hn.
  apply (Z_range_forallb (fun n => Bool.eqb (Z.testbit 0xffffff00 n) (negb (n <? 8))) 0 32) in Hn;
    [now apply eqb_prop | vm_compute; reflexivity].
Qed.

Lemma testbit_0xffff00ff (n : Z) :
  0 <= n < 32 -> Z.testbit 0xffff00ff n = negb ((8 <=? n) && (n <? 16)).
Proof.
  intros Hn.
  apply (Z_range_forallb
           (fun n => Bool.eqb (Z.testbit 0xffff00ff n) (negb ((8 <=? n) && (n <? 16)))) 0 32)
    in Hn; [now apply eqb_prop | vm_compute; reflexivity].
Qed.

(** The word [fpga_rb_set_tx_modtyp] leaves in [pwr_ctrl], and the
    one [fpga_rb_set_rx_modtyp] leaves there. *)
Definition pwr_ctrl_with_tx (tx_modtyp p : Z) : Z :=
  to_uint32 (Z.lor (Z.land p 0xffff00ff) (Z.shiftl (Z.land tx_modtyp 0xff) 0x08)).

Definition pwr_ctrl_with_rx (rx_modtyp p : Z) : Z :=
  to_uint32 (Z.lor (Z.land p 0xffffff00) (Z.land rx_modtyp 0xff)).

Lemma fpga_rb_set_tx_modtyp_run (tx_modtyp : Z) (s : state) (m : regs) :
  fpga_rb_set_tx_modtyp tx_modtyp (with_regs (Some m) s)
  = Ok tt (with_regs
             (Some (upd Reg.pwr_ctrl (pwr_ctrl_with_tx tx_modtyp (m Reg.pwr_ctrl))
                      (upd Reg.pwr_ctrl (to_uint32 (Z.land (m Reg.pwr_ctrl) 0xffff00ff)) m))) s).
Proof. reflexivity. Qed.

Lemma fpga_rb_set_rx_modtyp_run (rx_modtyp : Z) (s : state) (m : regs) :
  fpga_rb_set_rx_modtyp rx_modtyp (with_regs (Some m) s)
  = Ok tt (with_regs
             (Some (upd Reg.pwr_ctrl (pwr_ctrl_with_rx rx_modtyp (m Reg.pwr_ctrl))
                      (upd Reg.pwr_ctrl (to_uint32 (Z.land (m Reg.pwr_ctrl) 0xffffff00)) m))) s).
Proof. reflexivity. Qed.

Lemma pwr_ctrl_with_tx_bits (tx_modtyp p n : Z) :
  0 <= n < 32 ->
  Z.testbit (pwr_ctrl_with_tx tx_modtyp p) n
  = if (8 <=? n) && (n <? 16) then Z.testbit tx_modtyp (n - 8) else Z.testbit p n.
Proof.
  intros Hn. unfold pwr_ctrl_with_tx, to_uint32.
  rewrite Z.mod_pow2_bits_low by lia.
  rewrite Z.lor_spec, Z.land_spec, testbit_0xffff00ff by lia.
  destruct (Z.leb_spec 8 n) as [H8 | H8]; cbn [andb negb].
  - rewrite Z.shiftl_spec, Z.land_spec by lia. rewrite testbit_0xff by lia.
    destruct (Z.ltb_spec n 16) as [H16 | H16]; cbn [negb].
    + rewrite andb_false_r. cbn [orb].
      destruct (Z.ltb_spec (n - 8) 8); [apply andb_true_r | lia].
    + destruct (Z.ltb_spec (n - 8) 8); [lia |].
      now rewrite andb_true_r, andb_false_r, orb_false_r.
  - rewrite Z.shiftl_spec_low by lia. now rewrite andb_true_r, orb_false_r.
Qed.

Lemma pwr_ctrl_with_rx_bits (rx_modtyp p n : Z) :
  0 <= n < 32 ->
  Z.testbit (pwr_ctrl_with_rx rx_modtyp p) n
  = if n <? 8 then Z.testbit rx_modtyp n else Z.testbit p n.
Proof.
  intros Hn. unfold pwr_ctrl_with_rx, to_uint32.
  rewrite Z.mod_pow2_bits_low by lia.
  rewrite Z.lor_spec, !Z.land_spec, testbit_0xffffff00, testbit_0xff by lia.
  destruct (n <? 8); cbn [negb].
  - now rewrite andb_false_r, andb_true_r.
  - now rewrite andb_true_r, andb_false_r, orb_false_r.
Qed.

(** The register block after the two setters of the modulation types:
    every register but [pwr_ctrl] is as it was, and in [pwr_ctrl] bits
    0..7 hold the RX type, bits 8..15 the TX type and bits 16..31 what
    they held before. *)
Definition modtyp_fields (tx_modtyp rx_modtyp : Z) (m m' : regs) : Prop :=
  (forall r, r <> Reg.pwr_ctrl -> m' r = m r)
  /\ 0 <= m' Reg.pwr_ctrl < 2 ^ 32
  /\ forall n, 0 <= n < 32 ->
       Z.testbit (m' Reg.pwr_ctrl) n
       = if n <? 8 then Z.testbit rx_modtyp n
         else if n <? 16 then Z.testbit tx_modtyp (n - 8)
         else Z.testbit (m Reg.pwr_ctrl) n.

(** X2: [fpga_rb_set_tx_modtyp] and [fpga_rb_set_rx_modtyp] each change
    their own byte of [pwr_ctrl] only; called one after the other, in
    either order, they leave both types in their fields, the upper half
    of [pwr_ctrl] and every other register as they were. *)
Theorem modtyp_setters_keep_each_others_field
    (tx_modtyp rx_modtyp : Z) (s : state) (m : regs) :
  (exists m',
     (fpga_rb_set_tx_modtyp tx_modtyp;; fpga_rb_set_rx_modtyp rx_modtyp)
       (with_regs (Some m) s) = Ok tt (with_regs (Some m') s)
     /\ modtyp_fields tx_modtyp rx_modtyp m m')
  /\ (exists m',
        (fpga_rb_set_rx_modtyp rx_modtyp;; fpga_rb_set_tx_modtyp tx_modtyp)
          (with_regs (Some m) s) = Ok tt (with_regs (Some m') s)
        /\ modtyp_fields tx_modtyp rx_modtyp m m').
Proof.
  split.
  - unfold bind. rewrite fpga_rb_set_tx_modtyp_run. cbv beta iota.
    rewrite fpga_rb_set_rx_modtyp_run. eexists. split; [reflexivity |].
    unfold modtyp_fields. rewrite !upd_same. split; [| split].
    + intros r Hr. now rewrite !upd_other by congruence.
    + apply Z.mod_pos_bound. lia.
    + intros n Hn. rewrite pwr_ctrl_with_rx_bits, pwr_ctrl_with_tx_bits by lia.
      destruct (Z.ltb_spec n 8); [reflexivity |].
      destruct (Z.leb_spec 8 n); [| lia]. reflexivity.
  - unfold bind. rewrite fpga_rb_set_rx_modtyp_run. cbv beta iota.
    rewrite fpga_rb_set_tx_modtyp_run. eexists. split; [reflexivity |].
    unfold modtyp_fields. rewrite !upd_same. split; [| split].
    + intros r Hr. now rewrite !upd_other by congruence.
    + apply Z.mod_pos_bound. lia.
    + intros n Hn. rewrite pwr_ctrl_with_tx_bits, pwr_ctrl_with_rx_bits by lia.
      destruct (Z.ltb_spec n 8); destruct (Z.leb_spec 8 n); try lia; cbn [andb];
        [reflexivity |].
      destruct (n <? 16); reflexivity.
Qed.
End PowerControl.

(* ================================================================== *)
(** ** [fpga_rb_set_ctrl] with RadioBox turned off *)

Section TurnedOff.
Context {D : Type} {dbl : DoubleOps D} {cal : Calib D} {hdr : MainH}.

(** The registers are mapped, the calibration record is the one of
    [s0] and the registers of [X] hold what they hold in [m0]; the
    statics of [fpga_rb_set_ctrl] are free. *)
Definition untouched (X : Reg.t -> bool) (s0 : state) (m0 : regs) (s : state) : Prop :=
  exists m, g_fpga_rb_reg_mem s = Some m
            /\ g_rp_main_calib_params s = g_rp_main_calib_params s0
            /\ forall r, X r = true -> m r = m0 r.

Lemma untouched_invariant X s0 m0 :
  register_invariant (fun r => negb (X r)) (untouched X s0 m0).
Proof.
  split.
  - intros s (m & Em & _). now exists m.
  - intros s m r v (m' & Em' & Hc & Hm') Em HW.
    rewrite Em in Em'. injection Em' as <-.
    exists (upd r v m). split; [reflexivity |]. split; [exact Hc |].
    intros r' Hr'. rewrite upd_other; [now apply Hm' |].
    intros <-. rewrite Hr' in HW. discriminate HW.
Qed.

Lemma untouched_start X (s : state) (m : regs) : untouched X s m (with_regs (Some m) s).
Proof. exists m. split; [reflexivity |]. split; [reflexivity | auto]. Qed.

Lemma set_ctrl_rfout_writes src_con_pnt src_con_pnt2 term_rfout1 term_rfout2
    (tx_car_osc_qrg rx_car_osc_qrg : D) (s : state) (m : regs) :
  exists v1 v2 v3 v4 v5 v6,
    set_ctrl_rfout src_con_pnt src_con_pnt2 term_rfout1 term_rfout2
      tx_car_osc_qrg rx_car_osc_qrg (with_regs (Some m) s)
    = Ok tt
        (if rfout_changed s src_con_pnt src_con_pnt2 term_rfout1 term_rfout2
              tx_car_osc_qrg rx_car_osc_qrg
         then with_regs
                (Some (upd Reg.src_con_pnt2 v6 (upd Reg.src_con_pnt v5
                        (upd Reg.rfout2_ofs v4 (upd Reg.rfout2_gain v3
                          (upd Reg.rfout1_ofs v2 (upd Reg.rfout1_gain v1 m)))))))
                (with_rfout_cache tx_car_osc_qrg rx_car_osc_qrg
                   (to_uint32 src_con_pnt) term_rfout1 term_rfout2 s)
         else with_regs (Some m) s).
Proof.
  unfold set_ctrl_rfout, bind, get_state.
  change (rfout_changed (with_regs (Some m) s) src_con_pnt src_con_pnt2 term_rfout1
            term_rfout2 tx_car_osc_qrg rx_car_osc_qrg)
    with (rfout_changed s src_con_pnt src_con_pnt2 term_rfout1
            term_rfout2 tx_car_osc_qrg rx_car_osc_qrg).
  destruct (rfout_changed s src_con_pnt src_con_pnt2 term_rfout1 term_rfout2
              tx_car_osc_qrg rx_car_osc_qrg).
  - do 6 eexists. reflexivity.
  - do 6 exists 0. reflexivity.
Qed.

Lemma set_ctrl_rfout_untouched X s0 m0 src_con_pnt src_con_pnt2 term_rfout1 term_rfout2
    (tx_car_osc_qrg rx_car_osc_qrg : D) :
  (forall r, In r rfout_registers -> X r = false) ->
  keeps (untouched X s0 m0)
        (set_ctrl_rfout src_con_pnt src_con_pnt2 term_rfout1 term_rfout2
           tx_car_osc_qrg rx_car_osc_qrg).
Proof.
  intros HX s (m & Em & Hc & Hm).
  destruct (set_ctrl_rfout_writes src_con_pnt src_con_pnt2 term_rfout1 term_rfout2
              tx_car_osc_qrg rx_car_osc_qrg s m) as (v1 & v2 & v3 & v4 & v5 & v6 & E).
  rewrite (with_regs_same s m Em) in E.
  eexists tt, _. split; [exact E |].
  destruct (rfout_changed s src_con_pnt src_con_pnt2 term_rfout1 term_rfout2
              tx_car_osc_qrg rx_car_osc_qrg).
  - eexists. split; [reflexivity |]. split; [exact Hc |].
    intros r Hr.
    rewrite !upd_other; [now apply Hm | | | | | |];
      intros <-; rewrite HX in Hr; try discriminate Hr; cbn; tauto.
  - exists m. auto.
Qed.

(** The registers written by the [else] of [if (rb_run)]. *)
Definition set_ctrl_off_writes : list Reg.t :=
  [Reg.ctrl; Reg.tx_muxin_src; Reg.tx_amp_rf_gain; Reg.tx_amp_rf_ofs;
   Reg.tx_car_osc_inc_scnr_lo; Reg.tx_car_osc_inc_scnr_hi;
   Reg.tx_mod_osc_inc_lo; Reg.tx_mod_osc_inc_hi; Reg.tx_mod_osc_ofs_lo; Reg.tx_mod_osc_ofs_hi;
   Reg.tx_mod_qmix_gain; Reg.tx_mod_qmix_ofs_lo; Reg.tx_mod_qmix_ofs_hi;
   Reg.rx_muxin_src;
   Reg.rx_car_osc_inc_scnr_lo; Reg.rx_car_osc_inc_scnr_hi;
   Reg.rx_car_calc_weaver_inc_lo; Reg.rx_car_calc_weaver_inc_hi;
   Reg.rx_mod_osc_inc_lo; Reg.rx_mod_osc_inc_hi; Reg.rx_mod_osc_ofs_lo; Reg.rx_mod_osc_ofs_hi].

Definition written_when_off (r : Reg.t) : bool :=
  existsb (Reg.eqb r) (rfout_registers ++ set_ctrl_off_writes).

Lemma written_when_off_In (r : Reg.t) :
  written_when_off r = true <-> In r (rfout_registers ++ set_ctrl_off_writes).
Proof.
  unfold written_when_off. rewrite existsb_exists. split.
  - intros (r' & Hin & E). apply Reg_eqb_eq in E. now subst r'.
  - intros Hin. exists r. split; [exact Hin | now apply Reg_eqb_eq].
Qed.

Lemma set_ctrl_off_footprint (W : Reg.t -> bool) (I : state -> Prop) :
  register_invariant W I ->
  (forall r, In r set_ctrl_off_writes -> W r = true) ->
  keeps I set_ctrl_off.
Proof.
  intros HI HW.
  unfold set_ctrl_off, and_not,
    fpga_rb_set_tx_amp_rf_gain_ofs__4mod_all,
    fpga_rb_set_tx_car_osc_qrg_inc__4mod_cw_ssb_am_pm,
    fpga_rb_set_tx_mod_osc_qrg__4mod_ssbweaver_am_fm_pm,
    fpga_rb_set_tx_mod_qmix_gain_ofs__4mod_fm,
    fpga_rb_set_rx_car_osc_qrg_inc__4mod_ssb_am_fm_pm,
    fpga_rb_set_rx_calc_afc_weaver__4mod_am_fm_pm,
    fpga_rb_set_rx_mod_osc_qrg__4mod_ssbweaver_am.
  keeps_auto HI HW.
Qed.

Lemma fpga_rb_get_ctrl_answer (tx_modtyp rx_modtyp : Z) (s : state) (m : regs) :
  fpga_rb_get_ctrl tx_modtyp rx_modtyp (with_regs (Some m) s)
  = Ok (tx_read tx_modtyp
          (dds_frequency
             (int64_of_registers (m Reg.tx_car_osc_inc_lo) (m Reg.tx_car_osc_inc_hi))
             (base_osc125mhz_realhz (g_rp_main_calib_params s))),
        rx_read rx_modtyp
          (dds_frequency
             (int64_of_registers (m Reg.rx_car_osc_inc_lo) (m Reg.rx_car_osc_inc_hi))
             (base_osc125mhz_realhz (g_rp_main_calib_params s))),
        to_uint16 (Z.shiftr (Z.land (m Reg.status) 0x00C00000) 0x16))
       (with_regs (Some m) s).
Proof.
  unfold fpga_rb_get_ctrl. unfold bind at 1. rewrite get_tx_car_osc_qrg_run.
  cbv beta iota zeta. unfold bind at 1. rewrite get_rx_car_osc_qrg_run.
  cbv beta iota zeta. reflexivity.
Qed.

(** X3: a call of [fpga_rb_set_ctrl] with [rb_run] = 0 on a mapped
    register block returns, and writes no register outside the RF
    output gain settings and the list [set_ctrl_off_writes]: the
    carrier increments, [pwr_ctrl], the input gains and offsets and the
    demodulator gains stay as they are.  Whatever modulation types
    are passed, [fpga_rb_get_ctrl] reports after the call what it
    reported before it. *)
Theorem set_ctrl_off_keeps_the_carriers
    (tx_modsrc tx_modtyp rx_modtyp src_con_pnt src_con_pnt2 rx_muxin_src : Z)
    (tx_car_osc_qrg rx_car_osc_qrg tx_mod_osc_qrg : D)
    (tx_muxin_gain rx_muxin_gain tx_qrg_sel rx_qrg_sel
     tx_amp_rf_gain tx_mod_osc_mag term_rfout1 term_rfout2 qrg_inc : Z)
    (s : state) (m : regs) (tx_asked rx_asked : Z) :
  exists s' m',
    fpga_rb_set_ctrl 0 tx_modsrc tx_modtyp rx_modtyp src_con_pnt src_con_pnt2
      rx_muxin_src tx_car_osc_qrg rx_car_osc_qrg tx_mod_osc_qrg tx_muxin_gain rx_muxin_gain
      tx_qrg_sel rx_qrg_sel tx_amp_rf_gain tx_mod_osc_mag term_rfout1 term_rfout2 qrg_inc
      (with_regs (Some m) s) = Ok tt s'
    /\ g_fpga_rb_reg_mem s' = Some m'
    /\ g_rp_main_calib_params s' = g_rp_main_calib_params s
    /\ (forall r, ~ In r (rfout_registers ++ set_ctrl_off_writes) -> m' r = m r)
    /\ result_of (fpga_rb_get_ctrl tx_asked rx_asked s')
       = result_of (fpga_rb_get_ctrl tx_asked rx_asked (with_regs (Some m) s)).
Proof.
  set (X := fun r => negb (written_when_off r)).
  assert (K : keeps (untouched X s m)
                (fpga_rb_set_ctrl 0 tx_modsrc tx_modtyp rx_modtyp src_con_pnt src_con_pnt2
                   rx_muxin_src tx_car_osc_qrg rx_car_osc_qrg tx_mod_osc_qrg tx_muxin_gain
                   rx_muxin_gain tx_qrg_sel rx_qrg_sel tx_amp_rf_gain tx_mod_osc_mag
                   term_rfout1 term_rfout2 qrg_inc)).
  { unfold fpga_rb_set_ctrl. cbv zeta. change (nonzero 0) with false. cbv iota.
    apply keeps_bind.
    - apply set_ctrl_rfout_untouched. intros r Hr. unfold X.
      apply negb_false_iff, written_when_off_In, in_or_app. now left.
    - intros _. apply (set_ctrl_off_footprint _ _ (untouched_invariant X s m)).
      intros r Hr. unfold X. rewrite negb_involutive.
      apply written_when_off_In, in_or_app. now right. }
  destruct (K _ (untouched_start X s m)) as ([] & s' & E & m' & Em' & Hc & Hm').
  exists s', m'. split; [exact E |]. split; [exact Em' |]. split; [exact Hc |].
  assert (Hfr : forall r, ~ In r (rfout_registers ++ set_ctrl_off_writes) -> m' r = m r).
  { intros r Hr. apply Hm'. unfold X. apply negb_true_iff.
    destruct (written_when_off r) eqn:Ew; [| reflexivity].
    apply written_when_off_In in Ew. contradiction. }
  split; [exact Hfr |].
  rewrite <- (with_regs_same s' m' Em') at 1. rewrite !fpga_rb_get_ctrl_answer.
  unfold result_of.
  change (g_rp_main_calib_params (with_regs (Some m) s)) with (g_rp_main_calib_params s).
  rewrite Hc.
  rewrite !Hfr; [reflexivity | | | | |]; cbn; intuition discriminate.
Qed.
End TurnedOff.

(* ================================================================== *)
(** ** The registers after the ADC offset calibration *)

Section CalibrationRegisters.
Context {D : Type} {dbl : DoubleOps D} {cal : Calib D}.

(** Every register but the offset and the gain of the RX input
    multiplexer holds in [m'] what it holds in [m]. *)
Definition same_but_rx_muxin (m m' : regs) : Prop :=
  forall r, r <> Reg.rx_muxin_ofs -> r <> Reg.rx_muxin_gain -> m' r = m r.

Lemma same_but_rx_muxin_measured (m m' : regs) (a b : Z) :
  same_but_rx_muxin m m' ->
  same_but_rx_muxin m (upd Reg.rx_muxin_gain a (upd Reg.rx_muxin_ofs b m')).
Proof.
  intros H r H1 H2. rewrite !upd_other by congruence. now apply H.
Qed.

Lemma rp_minimize_noise_loop_frame (s : state) (i : nat) :
  forall (acc : Z) (m m' : regs),
    same_but_rx_muxin m m' ->
    exists v m'',
      rp_minimize_noise_loop i acc (with_regs (Some m') s) = Ok v (with_regs (Some m'') s)
      /\ same_but_rx_muxin m m''.
Proof.
  induction i as [| i IH]; intros acc m m' Hm.
  - exists acc, m'. split; [reflexivity | exact Hm].
  - rewrite rp_minimize_noise_loop_S. cbv zeta.
    unfold bind at 1. rewrite test_rx_measurement_run.
    unfold bind at 1. rewrite test_rx_measurement_run.
    apply IH. now do 2 apply same_but_rx_muxin_measured.
Qed.

(** X8: on a mapped register block [rp_minimize_noise] returns an
    [int16_t] and writes two registers only, the offset and the gain
    of the RX input multiplexer.  It leaves the gain fully open
    (0xffff) and the offset register at the last candidate it tested,
    which is the returned offset with bit 0 of its unsigned form set,
    not the returned offset itself. *)
Theorem rp_minimize_noise_leaves_the_last_candidate (s : state) (m : regs) :
  exists v m',
    rp_minimize_noise (with_regs (Some m) s) = Ok v (with_regs (Some m') s)
    /\ - 2 ^ 15 <= v < 2 ^ 15
    /\ same_but_rx_muxin m m'
    /\ m' Reg.rx_muxin_gain = 0xffff
    /\ m' Reg.rx_muxin_ofs = to_uint32 (Z.lor (v + 0x8000) 1 - 0x8000).
Proof.
  unfold rp_minimize_noise.
  destruct (rp_minimize_noise_loop_run s m 15 0 m) as (m1 & E & _ & Hacc);
    [lia | lia | auto |].
  destruct (rp_minimize_noise_loop_frame s 15 0 m m) as (v1 & m1' & E' & Hfr);
    [intros r _ _; reflexivity |].
  pose proof (eq_trans (eq_sym E') E) as Q.
  apply (f_equal (fun o => match o with
                           | Ok _ s' => g_fpga_rb_reg_mem s'
                           | Fault => None
                           end)) in Q.
  cbn [g_fpga_rb_reg_mem with_regs] in Q. injection Q as ->. clear E'.
  set (acc := fold_left (search_step (measured (cordic_hw s) m)) (positions_from 15) 0) in *.
  unfold bind at 1. rewrite E. cbv zeta.
  assert (Hone : 0 <= Z.lor acc 1 < 2 ^ 16) by (apply lor_below_pow2; lia).
  rewrite !to_uint16_small by assumption.
  rewrite !to_int16_offset by assumption.
  unfold bind at 1. rewrite test_rx_measurement_run.
  unfold bind at 1. rewrite test_rx_measurement_run.
  unfold ret.
  set (winner := if _ <? _ then Z.lor acc 1 else acc).
  assert (Hw : 0 <= winner < 2 ^ 16) by (unfold winner; destruct (_ <? _); lia).
  assert (Hl : Z.lor winner 1 = Z.lor acc 1).
  { unfold winner. destruct (_ <? _); [| reflexivity].
    now rewrite <- Z.lor_assoc, Z.lor_diag. }
  eexists _, _. split; [reflexivity |].
  rewrite to_int16_offset by assumption.
  split; [lia |]. split; [now do 2 apply same_but_rx_muxin_measured |].
  split; [apply upd_same |].
  rewrite upd_other by discriminate. rewrite upd_same.
  replace (winner - 32768 + 32768) with winner by lia. now rewrite Hl.
Qed.

End CalibrationRegisters.

(* ================================================================== *)
(** ** The frequency sweep in binary64 arithmetic *)

Section Binary64Further.
Variable libm_pow : PrimFloat.float -> PrimFloat.float -> PrimFloat.float.
Context {cal : Calib PrimFloat.float} {hdr : MainH}.

Local Instance binary64_sweep : DoubleOps PrimFloat.float := Binary64.ops libm_pow.

(** [fabs (rngctrlr) < 0.1] for the sweep increment [inc]. *)
Definition sweep_stopped (inc : Z) : bool :=
  d_ltb (d_fabs (d_div (d_of_Z (inc - 50)) (d_of_Z 50))) (d_lit 1 10).

Lemma sweep_stopped_mid_range (inc : Z) : 46 <= inc <= 54 -> sweep_stopped inc = true.
Proof.
  intros H. apply (Z_range_forallb sweep_stopped 46 9); [vm_compute; reflexivity | lia].
Qed.

Lemma sweep_running_below (inc : Z) : 0 <= inc <= 45 -> sweep_stopped inc = false.
Proof.
  intros H. apply negb_true_iff.
  apply (Z_range_forallb (fun i => negb (sweep_stopped i)) 0 46); [vm_compute; reflexivity | lia].
Qed.

Lemma sweep_running_above (inc : Z) : 55 <= inc <= 100 -> sweep_stopped inc = false.
Proof.
  intros H. apply negb_true_iff.
  apply (Z_range_forallb (fun i => negb (sweep_stopped i)) 55 46); [vm_compute; reflexivity | lia].
Qed.

(** X4: a sweep increment of 46..54 percent stops the sweep of either
    carrier oscillator: the setter writes 0 to both scanner registers,
    changes nothing else and does not call [pow]; the getter then
    reports 0.0 Hz/s. *)
Theorem sweep_stopped_in_mid_range (inc : Z) (s : state) (m : regs) :
  46 <= inc <= 54 ->
  (fpga_rb_set_tx_car_osc_qrg_inc__4mod_cw_ssb_am_pm inc;;
   fpga_rb_get_tx_car_osc_qrg_inc) (with_regs (Some m) s)
  = Ok d_zero
       (with_regs (Some (upd Reg.tx_car_osc_inc_scnr_hi 0
                           (upd Reg.tx_car_osc_inc_scnr_lo 0 m))) s)
  /\ (fpga_rb_set_rx_car_osc_qrg_inc__4mod_ssb_am_fm_pm inc;;
      fpga_rb_get_rx_car_osc_qrg_inc) (with_regs (Some m) s)
     = Ok d_zero
          (with_regs (Some (upd Reg.rx_car_osc_inc_scnr_hi 0
                              (upd Reg.rx_car_osc_inc_scnr_lo 0 m))) s).
Proof.
  intros H. pose proof (sweep_stopped_mid_range inc H) as E. unfold sweep_stopped in E.
  split.
  - unfold fpga_rb_set_tx_car_osc_qrg_inc__4mod_cw_ssb_am_pm. cbv zeta. rewrite E.
    reflexivity.
  - unfold fpga_rb_set_rx_car_osc_qrg_inc__4mod_ssb_am_fm_pm. cbv zeta. rewrite E.
    reflexivity.
Qed.
(** [rngctrlr < 0.0], and the exponent handed to [pow]. *)
Definition sweep_down (inc : Z) : bool :=
  d_ltb (d_div (d_of_Z (inc - 50)) (d_of_Z 50)) d_zero.

Definition sweep_exponent (inc : Z) : PrimFloat.float :=
  let rngctrlr := d_div (d_of_Z (inc - 50)) (d_of_Z 50) in
  let rngctrlr := if sweep_down inc then d_neg rngctrlr else rngctrlr in
  d_sub (d_mul rngctrlr (d_of_Z 3)) (d_of_Z 3).

(** The [int64_t bitfield] of the two setters before [if (neg)]. *)
Definition tx_sweep_word (inc : Z) (base : PrimFloat.float) : Z :=
  to_int64 (d_trunc
    (d_div (d_mul (d_mul (d_of_Z 10000) (d_pow (d_of_Z 10) (sweep_exponent inc)))
                  (d_div (d_of_Z (2 ^ 48)) base))
           (d_of_Z 200000))).

Definition rx_sweep_word (inc : Z) (base : PrimFloat.float) : Z :=
  to_int64 (d_trunc
    (d_div (d_div (d_mul (d_mul (d_of_Z 10000) (d_pow (d_of_Z 10) (sweep_exponent inc)))
                         (d_of_Z (2 ^ 48))) base)
           (d_of_Z 200000))).

Definition split_lo (b : Z) : Z := to_uint32 (to_uint32 (Z.land b 0xffffffff)).
Definition split_hi (b : Z) : Z := to_uint32 (to_uint32 (Z.shiftr b 32)).

Lemma set_tx_car_osc_qrg_inc_run (inc : Z) (s : state) (m : regs) :
  sweep_stopped inc = false ->
  fpga_rb_set_tx_car_osc_qrg_inc__4mod_cw_ssb_am_pm inc (with_regs (Some m) s)
  = let w := tx_sweep_word inc (base_osc125mhz_realhz (g_rp_main_calib_params s)) in
    let b := if sweep_down inc then Z.lnot w else w in
    Ok tt (with_regs (Some (upd Reg.tx_car_osc_inc_scnr_hi (split_hi b)
                              (upd Reg.tx_car_osc_inc_scnr_lo (split_lo b) m))) s).
Proof.
  intros H. unfold sweep_stopped in H.
  unfold fpga_rb_set_tx_car_osc_qrg_inc__4mod_cw_ssb_am_pm. cbv zeta. rewrite H.
  reflexivity.
Qed.

Lemma set_rx_car_osc_qrg_inc_run (inc : Z) (s : state) (m : regs) :
  sweep_stopped inc = false ->
  fpga_rb_set_rx_car_osc_qrg_inc__4mod_ssb_am_fm_pm inc (with_regs (Some m) s)
  = let w := rx_sweep_word inc (base_osc125mhz_realhz (g_rp_main_calib_params s)) in
    let b := if sweep_down inc then Z.lnot w else w in
    Ok tt (with_regs (Some (upd Reg.rx_car_osc_inc_scnr_hi (split_hi b)
                              (upd Reg.rx_car_osc_inc_scnr_lo (split_lo b) m))) s).
Proof.
  intros H. unfold sweep_stopped in H.
  unfold fpga_rb_set_rx_car_osc_qrg_inc__4mod_ssb_am_fm_pm. cbv zeta. rewrite H.
  reflexivity.
Qed.

(** What the getters make of the 64-bit word of the scanner registers. *)
Definition sweep_rate (bitfield : Z) (base : PrimFloat.float) : PrimFloat.float :=
  if is_zero bitfield then d_zero
  else
    let neg := bitfield <? 0 in
    let bitfield := if neg then Z.lnot bitfield else bitfield in
    let inc := d_div (d_mul (d_mul (d_of_Z bitfield) base) (d_of_Z 200000))
                     (d_of_Z (2 ^ 48)) in
    if neg then d_neg inc else inc.

Lemma get_tx_car_osc_qrg_inc_run (s : state) (m : regs) :
  fpga_rb_get_tx_car_osc_qrg_inc (with_regs (Some m) s)
  = Ok (sweep_rate (int64_of_registers (m Reg.tx_car_osc_inc_scnr_lo)
                                       (m Reg.tx_car_osc_inc_scnr_hi))
                   (base_osc125mhz_realhz (g_rp_main_calib_params s)))
       (with_regs (Some m) s).
Proof.
  unfold fpga_rb_get_tx_car_osc_qrg_inc, sweep_rate, int64_of_registers, bind, rd, ret, base_osc.
  cbn [g_fpga_rb_reg_mem with_regs]. cbv zeta.
  destruct (is_zero _); reflexivity.
Qed.

Lemma get_rx_car_osc_qrg_inc_run (s : state) (m : regs) :
  fpga_rb_get_rx_car_osc_qrg_inc (with_regs (Some m) s)
  = Ok (sweep_rate (int64_of_registers (m Reg.rx_car_osc_inc_scnr_lo)
                                       (m Reg.rx_car_osc_inc_scnr_hi))
                   (base_osc125mhz_realhz (g_rp_main_calib_params s)))
       (with_regs (Some m) s).
Proof.
  unfold fpga_rb_get_rx_car_osc_qrg_inc, sweep_rate, int64_of_registers, bind, rd, ret, base_osc.
  cbn [g_fpga_rb_reg_mem with_regs]. cbv zeta.
  destruct (is_zero _); reflexivity.
Qed.

Lemma sweep_mirror_cases (inc : Z) :
  55 <= inc <= 100 -> In inc (map (fun k => 55 + Z.of_nat k) (seq 0 46)).
Proof.
  intros H. apply in_map_iff. exists (Z.to_nat (inc - 55)).
  split; [lia | apply in_seq; lia].
Qed.

Lemma sweep_exponent_mirror (inc : Z) :
  55 <= inc <= 100 -> sweep_exponent (100 - inc) = sweep_exponent inc.
Proof.
  intros H. apply sweep_mirror_cases in H. vm_compute in H.
  repeat (destruct H as [<- | H]; [vm_compute; reflexivity |]).
  contradiction.
Qed.

Lemma sweep_down_mirror (inc : Z) :
  55 <= inc <= 100 -> sweep_down inc = false /\ sweep_down (100 - inc) = true.
Proof.
  intros H.
  assert (E : negb (sweep_down inc) && sweep_down (100 - inc) = true).
  { apply (Z_range_forallb
             (fun i => negb (sweep_down i) && sweep_down (100 - i)) 55 46);
      [vm_compute; reflexivity | lia]. }
  apply andb_true_iff in E. destruct E as [H1 H2].
  apply negb_true_iff in H1. now split.
Qed.

Lemma split_lo_lnot (b : Z) : split_lo (Z.lnot b) = 2 ^ 32 - 1 - split_lo b.
Proof.
  unfold split_lo, to_uint32. change 0xffffffff with (Z.ones 32).
  rewrite !Z.land_ones by lia. rewrite !Z.mod_mod by lia.
  unfold Z.lnot. symmetry.
  apply Z.mod_unique with (q := - (b / 2 ^ 32) - 1).
  - left. pose proof (Z.mod_pos_bound b (2 ^ 32)). lia.
  - pose proof (Z.div_mod b (2 ^ 32)). lia.
Qed.

Lemma split_hi_lnot (b : Z) : split_hi (Z.lnot b) = 2 ^ 32 - 1 - split_hi b.
Proof.
  unfold split_hi, to_uint32. rewrite <- Z.lnot_shiftr by lia.
  rewrite !Z.mod_mod by lia. set (q := Z.shiftr b 32).
  unfold Z.lnot. symmetry.
  apply Z.mod_unique with (q := - (q / 2 ^ 32) - 1).
  - left. pose proof (Z.mod_pos_bound q (2 ^ 32)). lia.
  - pose proof (Z.div_mod q (2 ^ 32)). lia.
Qed.

Lemma split_lo_mod (b : Z) : split_lo b = b mod 2 ^ 32.
Proof.
  unfold split_lo, to_uint32. change 0xffffffff with (Z.ones 32).
  rewrite Z.land_ones by lia. now rewrite !Z.mod_mod by lia.
Qed.

Lemma split_hi_mod (b : Z) : split_hi b = (b / 2 ^ 32) mod 2 ^ 32.
Proof.
  unfold split_hi, to_uint32. rewrite Z.shiftr_div_pow2 by lia.
  now rewrite Z.mod_mod by lia.
Qed.

Lemma sweep_rate_mirror (b : Z) (base : PrimFloat.float) :
  0 < b -> sweep_rate (Z.lnot b) base = d_neg (sweep_rate b base).
Proof.
  intros Hb. unfold sweep_rate, is_zero.
  assert (Hn : Z.lnot b < 0) by (unfold Z.lnot; lia).
  destruct (Z.eqb_spec (Z.lnot b) 0); [lia |].
  destruct (Z.eqb_spec b 0); [lia |].
  destruct (Z.ltb_spec (Z.lnot b) 0); [| lia].
  destruct (Z.ltb_spec b 0); [lia |].
  cbv zeta. now rewrite Z.lnot_involutive.
Qed.

(** The sweep of one carrier oscillator at [inc] percent and at
    100 - [inc] percent: there is a 64-bit word [b], the rate the
    setter computes with [pow], whose halves are in the scanner
    registers after [set inc], and whose complement is there after
    [set (100 - inc)]; for a positive [b] the getter reports opposite
    rates. *)
Definition sweep_mirrored (set : Z -> M unit) (get : M PrimFloat.float)
    (lo hi : Reg.t) (inc : Z) (st : state) : Prop :=
  exists b,
    - 2 ^ 63 <= b < 2 ^ 63
    /\ reg_after (set inc st) lo = Some (b mod 2 ^ 32)
    /\ reg_after (set inc st) hi = Some ((b / 2 ^ 32) mod 2 ^ 32)
    /\ reg_after (set (100 - inc) st) lo = Some (2 ^ 32 - 1 - b mod 2 ^ 32)
    /\ reg_after (set (100 - inc) st) hi = Some (2 ^ 32 - 1 - (b / 2 ^ 32) mod 2 ^ 32)
    /\ (0 < b ->
        exists rate,
          result_of ((set inc;; get) st) = Some rate
          /\ result_of ((set (100 - inc);; get) st) = Some (d_neg rate)).

(** X5: the sweep is mirrored about 50 percent, for every [pow] of the
    C library: for 55 <= [inc] <= 100 the scanner registers after
    100 - [inc] percent hold the one's complement of the word after
    [inc] percent, and the getter reports the opposite rate. *)
Theorem sweep_mirrored_about_50 (inc : Z) (s : state) (m : regs) :
  55 <= inc <= 100 ->
  sweep_mirrored fpga_rb_set_tx_car_osc_qrg_inc__4mod_cw_ssb_am_pm
    fpga_rb_get_tx_car_osc_qrg_inc
    Reg.tx_car_osc_inc_scnr_lo Reg.tx_car_osc_inc_scnr_hi inc (with_regs (Some m) s)
  /\ sweep_mirrored fpga_rb_set_rx_car_osc_qrg_inc__4mod_ssb_am_fm_pm
       fpga_rb_get_rx_car_osc_qrg_inc
       Reg.rx_car_osc_inc_scnr_lo Reg.rx_car_osc_inc_scnr_hi inc (with_regs (Some m) s).
Proof.
  intros H.
  pose proof (sweep_running_above inc H) as Hup.
  assert (Hdn : sweep_stopped (100 - inc) = false) by (apply sweep_running_below; lia).
  destruct (sweep_down_mirror inc H) as [Hd1 Hd2].
  pose proof (sweep_exponent_mirror inc H) as He.
  set (base := base_osc125mhz_realhz (g_rp_main_calib_params s)).
  assert (Hint : forall x, - 2 ^ 63 <= to_int64 x < 2 ^ 63).
  { intros x. unfold to_int64. pose proof (Z.mod_pos_bound (x + 2 ^ 63) (2 ^ 64)). lia. }
  split.
  - exists (tx_sweep_word inc base).
    assert (Hw : tx_sweep_word (100 - inc) base = tx_sweep_word inc base).
    { unfold tx_sweep_word. now rewrite He. }
    assert (Hr : - 2 ^ 63 <= tx_sweep_word inc base < 2 ^ 63) by apply Hint.
    split; [exact Hr |].
    rewrite (set_tx_car_osc_qrg_inc_run inc s m Hup).
    rewrite (set_tx_car_osc_qrg_inc_run (100 - inc) s m Hdn).
    fold base. rewrite Hw, Hd1, Hd2. cbv zeta.
    unfold reg_after. cbn [g_fpga_rb_reg_mem with_regs option_map].
    rewrite !upd_same. rewrite !(upd_other Reg.tx_car_osc_inc_scnr_hi) by discriminate.
    rewrite !upd_same. rewrite split_lo_lnot, split_hi_lnot, split_lo_mod, split_hi_mod.
    repeat (split; [reflexivity |]).
    intros Hb. eexists. unfold bind.
    rewrite (set_tx_car_osc_qrg_inc_run inc s m Hup).
    rewrite (set_tx_car_osc_qrg_inc_run (100 - inc) s m Hdn).
    fold base. rewrite Hw, Hd1, Hd2. cbv beta iota zeta.
    rewrite !get_tx_car_osc_qrg_inc_run. fold base. unfold result_of.
    rewrite !upd_same. rewrite !(upd_other Reg.tx_car_osc_inc_scnr_hi) by discriminate.
    rewrite !upd_same. unfold split_lo, split_hi.
    rewrite !int64_split_join by (unfold Z.lnot; lia).
    split; [reflexivity |]. f_equal. now apply sweep_rate_mirror.
  - exists (rx_sweep_word inc base).
    assert (Hw : rx_sweep_word (100 - inc) base = rx_sweep_word inc base).
    { unfold rx_sweep_word. now rewrite He. }
    assert (Hr : - 2 ^ 63 <= rx_sweep_word inc base < 2 ^ 63) by apply Hint.
    split; [exact Hr |].
    rewrite (set_rx_car_osc_qrg_inc_run inc s m Hup).
    rewrite (set_rx_car_osc_qrg_inc_run (100 - inc) s m Hdn).
    fold base. rewrite Hw, Hd1, Hd2. cbv zeta.
    unfold reg_after. cbn [g_fpga_rb_reg_mem with_regs option_map].
    rewrite !upd_same. rewrite !(upd_other Reg.rx_car_osc_inc_scnr_hi) by discriminate.
    rewrite !upd_same. rewrite split_lo_lnot, split_hi_lnot, split_lo_mod, split_hi_mod.
    repeat (split; [reflexivity |]).
    intros Hb. eexists. unfold bind.
    rewrite (set_rx_car_osc_qrg_inc_run inc s m Hup).
    rewrite (set_rx_car_osc_qrg_inc_run (100 - inc) s m Hdn).
    fold base. rewrite Hw, Hd1, Hd2. cbv beta iota zeta.
    rewrite !get_rx_car_osc_qrg_inc_run. fold base. unfold result_of.
    rewrite !upd_same. rewrite !(upd_other Reg.rx_car_osc_inc_scnr_hi) by discriminate.
    rewrite !upd_same. unfold split_lo, split_hi.
    rewrite !int64_split_join by (unfold Z.lnot; lia).
    split; [reflexivity |]. f_equal. now apply sweep_rate_mirror.
Qed.

(** *** RadioBox turned off *)

Lemma set_ctrl_off_run (s : state) (m : regs) :
  exists m',
    set_ctrl_off (with_regs (Some m) s) = Ok tt (with_regs (Some m') s)
    /\ m' Reg.tx_car_osc_inc_scnr_lo = 0 /\ m' Reg.tx_car_osc_inc_scnr_hi = 0
    /\ m' Reg.rx_car_osc_inc_scnr_lo = 0 /\ m' Reg.rx_car_osc_inc_scnr_hi = 0
    /\ m' Reg.tx_muxin_src = 0 /\ m' Reg.rx_muxin_src = 0
    /\ m' Reg.tx_amp_rf_gain = 0 /\ m' Reg.tx_amp_rf_ofs = 0
    /\ m' Reg.ctrl = to_uint32 (Z.land (m Reg.ctrl) (Z.lnot 0x10767076)).
Proof.
  pose proof (sweep_stopped_mid_range 50 ltac:(lia)) as E.
  unfold sweep_stopped in E.
  unfold set_ctrl_off, fpga_rb_set_tx_car_osc_qrg_inc__4mod_cw_ssb_am_pm,
    fpga_rb_set_rx_car_osc_qrg_inc__4mod_ssb_am_fm_pm.
  cbv zeta. rewrite E.
  eexists. split.
  - cbv beta iota zeta delta
      [set_ctrl_off and_not bind wr rd ret base_osc with_regs
       g_fpga_rb_reg_mem g_rp_main_calib_params tx_car_osc_qrg_old rx_car_osc_qrg_old
       src_con_pnt_old src_con_pnt2_old term_rfout1_old term_rfout2_old cordic_hw
       fpga_rb_set_tx_amp_rf_gain_ofs__4mod_all
       fpga_rb_set_tx_mod_osc_qrg__4mod_ssbweaver_am_fm_pm
       fpga_rb_set_tx_mod_qmix_gain_ofs__4mod_fm
       fpga_rb_set_rx_calc_afc_weaver__4mod_am_fm_pm
       fpga_rb_set_rx_mod_osc_qrg__4mod_ssbweaver_am].
    reflexivity.
  - repeat split; vm_compute; reflexivity.
Qed.

Lemma land_cleared_bits (x c : Z) :
  0 <= c < 2 ^ 32 -> Z.land (to_uint32 (Z.land x (Z.lnot c))) c = 0.
Proof.
  intros Hc. apply Z.bits_inj'. intros n Hn.
  rewrite Z.land_spec, Z.bits_0. unfold to_uint32.
  destruct (Z.ltb_spec n 32) as [H | H].
  - rewrite Z.mod_pow2_bits_low by lia. rewrite Z.land_spec, Z.lnot_spec by lia.
    destruct (Z.testbit c n); cbn [negb]; [now rewrite andb_false_r | apply andb_false_r].
  - rewrite Z.mod_pow2_bits_high by lia. reflexivity.
Qed.

(** X6: [fpga_rb_set_ctrl] with [rb_run] = 0, in binary64 arithmetic
    and for every [pow]: the call stops the sweep of both carrier
    oscillators (the four scanner registers are 0 and both getters
    report 0.0 Hz/s), closes both input multiplexers, sets the RF
    amplifier gain and offset to 0 and clears the streaming, resync and
    reset bits 0x10767076 of [ctrl]. *)
Theorem set_ctrl_off_stops_the_sweeps
    (tx_modsrc tx_modtyp rx_modtyp src_con_pnt src_con_pnt2 rx_muxin_src : Z)
    (tx_car_osc_qrg rx_car_osc_qrg tx_mod_osc_qrg : PrimFloat.float)
    (tx_muxin_gain rx_muxin_gain tx_qrg_sel rx_qrg_sel
     tx_amp_rf_gain tx_mod_osc_mag term_rfout1 term_rfout2 qrg_inc : Z)
    (s : state) (m : regs) :
  exists s' m',
    fpga_rb_set_ctrl 0 tx_modsrc tx_modtyp rx_modtyp src_con_pnt src_con_pnt2
      rx_muxin_src tx_car_osc_qrg rx_car_osc_qrg tx_mod_osc_qrg tx_muxin_gain rx_muxin_gain
      tx_qrg_sel rx_qrg_sel tx_amp_rf_gain tx_mod_osc_mag term_rfout1 term_rfout2 qrg_inc
      (with_regs (Some m) s) = Ok tt s'
    /\ g_fpga_rb_reg_mem s' = Some m'
    /\ m' Reg.tx_car_osc_inc_scnr_lo = 0 /\ m' Reg.tx_car_osc_inc_scnr_hi = 0
    /\ m' Reg.rx_car_osc_inc_scnr_lo = 0 /\ m' Reg.rx_car_osc_inc_scnr_hi = 0
    /\ result_of (fpga_rb_get_tx_car_osc_qrg_inc s') = Some d_zero
    /\ result_of (fpga_rb_get_rx_car_osc_qrg_inc s') = Some d_zero
    /\ m' Reg.tx_muxin_src = 0 /\ m' Reg.rx_muxin_src = 0
    /\ m' Reg.tx_amp_rf_gain = 0 /\ m' Reg.tx_amp_rf_ofs = 0
    /\ Z.land (m' Reg.ctrl) 0x10767076 = 0.
Proof.
  unfold fpga_rb_set_ctrl. cbv zeta. change (nonzero 0) with false. cbv iota.
  unfold bind at 1.
  destruct (set_ctrl_rfout_writes src_con_pnt src_con_pnt2 term_rfout1 term_rfout2
              tx_car_osc_qrg rx_car_osc_qrg s m) as (v1 & v2 & v3 & v4 & v5 & v6 & ->).
  assert (K : forall s1 m1,
             exists m',
               set_ctrl_off (with_regs (Some m1) s1) = Ok tt (with_regs (Some m') s1)
               /\ m' Reg.tx_car_osc_inc_scnr_lo = 0 /\ m' Reg.tx_car_osc_inc_scnr_hi = 0
               /\ m' Reg.rx_car_osc_inc_scnr_lo = 0 /\ m' Reg.rx_car_osc_inc_scnr_hi = 0
               /\ result_of (fpga_rb_get_tx_car_osc_qrg_inc (with_regs (Some m') s1))
                  = Some d_zero
               /\ result_of (fpga_rb_get_rx_car_osc_qrg_inc (with_regs (Some m') s1))
                  = Some d_zero
               /\ m' Reg.tx_muxin_src = 0 /\ m' Reg.rx_muxin_src = 0
               /\ m' Reg.tx_amp_rf_gain = 0 /\ m' Reg.tx_amp_rf_ofs = 0
               /\ Z.land (m' Reg.ctrl) 0x10767076 = 0).
  { intros s1 m1.
    destruct (set_ctrl_off_run s1 m1)
      as (m' & E & H1 & H2 & H3 & H4 & H5 & H6 & H7 & H8 & H9).
    exists m'. split; [exact E |].
    rewrite get_tx_car_osc_qrg_inc_run, get_rx_car_osc_qrg_inc_run.
    rewrite H1, H2, H3, H4, H9.
    repeat (split; [first [assumption | reflexivity] |]).
    apply land_cleared_bits. lia. }
  destruct (rfout_changed s src_con_pnt src_con_pnt2 term_rfout1 term_rfout2
              tx_car_osc_qrg rx_car_osc_qrg).
  - match goal with
    | |- context [set_ctrl_off (with_regs (Some ?m1) ?s1)] =>
        destruct (K s1 m1) as (m' & E & H)
    end.
    eexists _, m'. split; [exact E |]. split; [reflexivity | exact H].
  - destruct (K s m) as (m' & E & H).
    eexists _, m'. split; [exact E |]. split; [reflexivity | exact H].
Qed.

(** *** The gain of the RF amplifier *)

(** The word [fpga_rb_set_tx_amp_rf_gain_ofs__4mod_all] makes of a gain
    or of an offset. *)
Definition amp_rf_word (x : PrimFloat.float) : Z :=
  to_uint32 (Z.land (to_uint32 (d_trunc (d_mul (d_of_Z 0x7fff) (d_div x (d_of_Z 2048))))) 0xffff).

Lemma fpga_rb_set_tx_amp_rf_gain_ofs_run (gain ofs : PrimFloat.float) (s : state) (m : regs) :
  fpga_rb_set_tx_amp_rf_gain_ofs__4mod_all gain ofs (with_regs (Some m) s)
  = Ok tt (with_regs (Some (upd Reg.tx_amp_rf_ofs (amp_rf_word ofs)
                              (upd Reg.tx_amp_rf_gain (amp_rf_word gain) m))) s).
Proof. reflexivity. Qed.

Lemma amp_rf_word_of_gain (g : Z) :
  0 <= g <= 4096 ->
  amp_rf_word (d_of_Z g) = (0x7fff * g / 2048) mod 2 ^ 16
  /\ amp_rf_word (d_mul (d_of_Z g) (d_lit 3 2)) = (0x7fff * (3 * g) / 4096) mod 2 ^ 16.
Proof.
  intros H.
  assert (E : (amp_rf_word (d_of_Z g) =? (0x7fff * g / 2048) mod 2 ^ 16)
              && (amp_rf_word (d_mul (d_of_Z g) (d_lit 3 2))
                  =? (0x7fff * (3 * g) / 4096) mod 2 ^ 16) = true).
  { apply (Z_range_forallb
             (fun g => (amp_rf_word (d_of_Z g) =? (0x7fff * g / 2048) mod 2 ^ 16)
                       && (amp_rf_word (d_mul (d_of_Z g) (d_lit 3 2))
                           =? (0x7fff * (3 * g) / 4096) mod 2 ^ 16)) 0 4097);
      [vm_compute; reflexivity | lia]. }
  apply andb_true_iff in E. destruct E as [E1 E2].
  apply Z.eqb_eq in E1, E2. now split.
Qed.

(** X7: the gain of the RF amplifier, for an integer [g]
    with 0 <= [g] <= 4096.  With the gain as it is (AM, FM, PM and CW)
    the register holds the 16 low bits of [0x7fff * g / 2048], rounded
    down; with the gain times 1.5 (USB and LSB) it holds the 16 low
    bits of [0x7fff * 3 * g / 4096]: there is no clamp, and the second
    wraps around from [g] = 2731 on.  An offset of 0.0 gives 0. *)
Theorem tx_amp_rf_gain_conversion (g : Z) (s : state) (m : regs) :
  0 <= g <= 4096 ->
  let plain := fpga_rb_set_tx_amp_rf_gain_ofs__4mod_all (d_of_Z g) d_zero
                 (with_regs (Some m) s) in
  let ssb := fpga_rb_set_tx_amp_rf_gain_ofs__4mod_all (d_mul (d_of_Z g) (d_lit 3 2)) d_zero
               (with_regs (Some m) s) in
  reg_after plain Reg.tx_amp_rf_gain = Some ((0x7fff * g / 2048) mod 2 ^ 16)
  /\ reg_after plain Reg.tx_amp_rf_ofs = Some 0
  /\ reg_after ssb Reg.tx_amp_rf_gain = Some ((0x7fff * (3 * g) / 4096) mod 2 ^ 16)
  /\ reg_after ssb Reg.tx_amp_rf_ofs = Some 0
  /\ (g <= 2730 -> (0x7fff * (3 * g) / 4096) mod 2 ^ 16 = 0x7fff * (3 * g) / 4096)
  /\ (0x7fff * (3 * 2731) / 4096) mod 2 ^ 16 = 5.
Proof.
  intros H. cbv zeta. destruct (amp_rf_word_of_gain g H) as [E1 E2].
  rewrite !fpga_rb_set_tx_amp_rf_gain_ofs_run. unfold reg_after.
  cbn [g_fpga_rb_reg_mem with_regs option_map].
  rewrite !upd_same. rewrite !(upd_other Reg.tx_amp_rf_ofs) by discriminate.
  rewrite !upd_same. rewrite E1, E2.
  repeat (split; [reflexivity |]). split; [| reflexivity].
  intros Hg. apply Z.mod_small. split.
  - apply Z.div_pos; lia.
  - apply Z.div_lt_upper_bound; lia.
Qed.
End Binary64Further.


(** X4 at 50 percent, the increment [fpga_rb_set_ctrl] passes for an
    oscillator that is not selected for the sweep. *)
Lemma sweep_stopped_at_50 :
  (@fpga_rb_set_tx_car_osc_qrg_inc__4mod_cw_ssb_am_pm _ Sample.ops Sample.calib 50;;
   @fpga_rb_get_tx_car_osc_qrg_inc _ Sample.ops Sample.calib)
    (with_regs (Some Sample.zeroed) (Sample.start None))
  = Ok (Binary64.of_Z 0)
       (with_regs (Some (upd Reg.tx_car_osc_inc_scnr_hi 0
                           (upd Reg.tx_car_osc_inc_scnr_lo 0 Sample.zeroed)))
          (Sample.start None)).
Proof.
  apply (sweep_stopped_in_mid_range Sample.libm_pow 50 (Sample.start None) Sample.zeroed).
  lia.
Defined.

(** X5 at 60 and 40 percent, for the TX carrier oscillator. *)
Lemma sweep_mirrored_at_60 :
  55 <= 60 <= 100
  /\ @sweep_mirrored Sample.libm_pow Sample.calib
       (@fpga_rb_set_tx_car_osc_qrg_inc__4mod_cw_ssb_am_pm _ Sample.ops Sample.calib)
       (@fpga_rb_get_tx_car_osc_qrg_inc _ Sample.ops Sample.calib)
       Reg.tx_car_osc_inc_scnr_lo Reg.tx_car_osc_inc_scnr_hi 60
       (with_regs (Some Sample.zeroed) (Sample.start None)).
Proof.
  split; [lia |].
  exact (proj1 (sweep_mirrored_about_50 Sample.libm_pow 60 (Sample.start None)
                  Sample.zeroed ltac:(lia))).
Defined.

(** X7 at a gain of 2048, which fills the 15 bits of the register. *)
Lemma tx_amp_rf_gain_conversion_at_2048 :
  0 <= 2048 <= 4096
  /\ reg_after
       (@fpga_rb_set_tx_amp_rf_gain_ofs__4mod_all _ Sample.ops Sample.calib
          (Binary64.of_Z 2048) (Binary64.of_Z 0)
          (with_regs (Some Sample.zeroed) (Sample.start None)))
       Reg.tx_amp_rf_gain = Some 32767.
Proof.
  split; [lia |].
  exact (proj1 (tx_amp_rf_gain_conversion Sample.libm_pow 2048 (Sample.start None)
                  Sample.zeroed ltac:(lia))).
Defined.
